(** * SSE Auto Translator: audio editor, localisation loader, settings panel

    A shallow embedding of three Python modules of the repository,

    - [src/translation_audio/audio_editor.py] (class [AudioTranslationEditor]),
    - [src/utilities/localisation.py] (classes [LocalisationSection] and
      [Localisator]),
    - [src/settings/app_settings.py] (class [AppSettings]),

    together with the properties their specification states about them.

    The Python code is effectful: it reads and changes the file system, starts
    external programs, writes log records and raises exceptions.  The
    embedding threads an explicit [World] through a state-and-exception monad
    [M]; external programs and the platform locale are parameters of the
    development (Section variables), so that every theorem holds for every
    behaviour of the environment. *)

From Stdlib Require Import Ascii ZArith QArith Qround.
From stdpp Require Import gmap strings list fin_maps.

#[local] Open Scope Z_scope.
#[local] Open Scope string_scope.
#[local] Open Scope list_scope.
#[local] Open Scope nat_scope.

(** ** Python [str] operations

    Strings are byte strings.  [lower] acts on the ASCII letters only; for the
    comparisons made by the program (against ['.bsa'], ['.fuz'], ['.xwm'])
    this agrees with Python's Unicode-aware [str.lower]. *)

Module PyStr.

Definition lower_ascii (c : ascii) : ascii :=
  let n := nat_of_ascii c in
  if Nat.leb 65 n && Nat.leb n 90 then ascii_of_nat (n + 32) else c.

Fixpoint lower (s : string) : string :=
  match s with
  | EmptyString => EmptyString
  | String c r => String (lower_ascii c) (lower r)
  end.

Fixpoint take (n : nat) (s : string) : string :=
  match n, s with
  | S n', String c r => String c (take n' r)
  | _, _ => EmptyString
  end.

Fixpoint drop (n : nat) (s : string) : string :=
  match n, s with
  | S n', String _ r => drop n' r
  | _, _ => s
  end.

Definition len (s : string) : nat := String.length s.

(** [s.endswith(t)] *)
Definition endswith (s t : string) : bool :=
  bool_decide (drop (len s - len t) s = t).

(** [s.startswith(t)] *)
Definition startswith (s t : string) : bool :=
  bool_decide (take (len t) s = t).

(** [s.rfind(c)]: index of the last occurrence of the character, if any. *)
Fixpoint rfind (ch : ascii) (s : string) : option nat :=
  match s with
  | EmptyString => None
  | String c r =>
      match rfind ch r with
      | Some i => Some (S i)
      | None => if bool_decide (c = ch) then Some O else None
      end
  end.

(** Is the character part of the string? *)
Fixpoint contains (ch : ascii) (s : string) : bool :=
  match s with
  | EmptyString => false
  | String c r => bool_decide (c = ch) || contains ch r
  end.

(** [fnmatch] restricted to the wildcards the program uses: [?] matches one
    character, [*] matches any run of characters, every other pattern
    character matches itself.  A character is a byte here: for [?] this is
    the program's matching on names made of ASCII characters only (a
    character outside ASCII takes several bytes); [*] and the literal
    characters are not affected. *)
Fixpoint fnmatch (pat : string) : string → bool :=
  match pat with
  | EmptyString => fun s => bool_decide (s = EmptyString)
  | String pc pr =>
      if bool_decide (pc = "*"%char) then
        (fix star (s : string) : bool :=
           fnmatch pr s ||
           match s with
           | EmptyString => false
           | String _ r => star r
           end)
      else fun s =>
        match s with
        | EmptyString => false
        | String c r =>
            (bool_decide (pc = "?"%char) || bool_decide (pc = c)) && fnmatch pr r
        end
  end.

(** [sep.join(parts)] *)
Fixpoint join (sep : string) (parts : list string) : string :=
  match parts with
  | [] => EmptyString
  | [p] => p
  | p :: rest => p +:+ sep +:+ join sep rest
  end.

(** [repr] of a string made of ordinary characters: the string in single
    quotes.  (Python escapes quotes, backslashes and control characters; the
    log texts below are the only use.) *)
Definition repr (s : string) : string := "'" +:+ s +:+ "'".

End PyStr.

(** ** [pathlib] paths

    A path is the list of its components below a fixed anchor (POSIX flavour:
    the separator is [/]; drives and the root are not modelled).  [Path('.')]
    is the empty list. *)

Abbreviation Path := (list string).

Module PyPath.

(** Splitting a string at the separator; the segments may be empty. *)
Fixpoint split_sep (s : string) : list string :=
  match s with
  | EmptyString => [EmptyString]
  | String c r =>
      let segs := split_sep r in
      if bool_decide (c = "/"%char) then EmptyString :: segs
      else match segs with
           | seg :: rest => String c seg :: rest
           | [] => [String c EmptyString]
           end
  end.

(** A path component that pathlib keeps: not empty and not [.] *)
Definition kept (seg : string) : bool :=
  negb (bool_decide (seg = "")) && negb (bool_decide (seg = ".")).

(** [Path(s).parts], without the anchor *)
Definition parts_of (s : string) : Path := List.filter kept (split_sep s).

(** A single ordinary file name: what [os.scandir] can report. *)
Definition plain_name (s : string) : bool :=
  kept s && negb (PyStr.contains "/"%char s).

(** [p / s] for a string [s]: an absolute [s] replaces [p]. *)
Definition div (p : Path) (s : string) : Path :=
  if PyStr.startswith s "/" then parts_of s else p ++ parts_of s.

(** [p / q] for a (relative) path [q] *)
Definition join (p q : Path) : Path := p ++ q.

(** [p.name]: the last component, empty for [Path('.')] *)
Definition name (p : Path) : string := List.last p "".

(** [p.parent] *)
Definition parent (p : Path) : Path := List.removelast p.

(** [str(p)] *)
Definition str (p : Path) : string :=
  match p with
  | [] => "."
  | _ => PyStr.join "/" p
  end.

(** Is the index of the last dot one that starts a suffix?
    [0 < i < len(name) - 1] *)
Definition suffix_at (nm : string) : option nat :=
  match PyStr.rfind "."%char nm with
  | Some i => if Nat.ltb 0 i && Nat.ltb i (PyStr.len nm - 1) then Some i else None
  | None => None
  end.

(** [PurePath.suffix] of a name *)
Definition suffix_of_name (nm : string) : string :=
  match suffix_at nm with
  | Some i => PyStr.drop i nm
  | None => ""
  end.

(** [PurePath.stem] of a name *)
Definition stem_of_name (nm : string) : string :=
  match suffix_at nm with
  | Some i => PyStr.take i nm
  | None => nm
  end.

Definition suffix (p : Path) : string := suffix_of_name (name p).
Definition stem (p : Path) : string := stem_of_name (name p).

(** [p.with_suffix(sfx)] for a well-formed suffix [sfx] (the program passes
    the literals ['.xwm'], ['.lip'] and ['.wav']).  [None] stands for the
    [ValueError] that pathlib raises for a path with an empty name. *)
Definition with_suffix (p : Path) (sfx : string) : option Path :=
  let nm := name p in
  if bool_decide (nm = "") then None
  else
    let old_suffix := suffix_of_name nm in
    let nm' :=
      if bool_decide (old_suffix = "") then nm +:+ sfx
      else PyStr.take (PyStr.len nm - PyStr.len old_suffix) nm +:+ sfx in
    Some (parent p ++ [nm']).

(** [p.relative_to(other)]; [None] stands for the [ValueError] *)
Fixpoint relative_to (p other : Path) {struct other} : option Path :=
  match other, p with
  | [], _ => Some p
  | o :: other', c :: p' =>
      if bool_decide (o = c) then relative_to p' other' else None
  | _ :: _, [] => None
  end.

(** All proper prefixes of a path, shortest first. *)
Fixpoint ancestors (p : Path) : list Path :=
  match p with
  | [] => []
  | c :: p' => [] :: List.map (cons c) (ancestors p')
  end.

End PyPath.

(** ** The world: file system, log records, started processes *)

Inductive Node :=
| Dir
| File (data : string).

#[global] Instance Node_eq_dec : EqDecision Node.
Proof. solve_decision. Defined.

Inductive Level := DEBUG | INFO | WARNING | ERROR.

#[global] Instance Level_eq_dec : EqDecision Level.
Proof. solve_decision. Defined.

(** One record per call of a [logging.Logger] method. *)
Record LogRecord := mkLogRecord {
  rec_logger : string;
  rec_level : Level;
  rec_msg : string
}.

(** [fs] maps every existing path to its node; [calls] lists the argument
    vectors handed to [subprocess.run], oldest first. *)
Record World := mkWorld {
  fs : gmap Path Node;
  log : list LogRecord;
  calls : list (list string)
}.

Definition set_fs (f : gmap Path Node) (w : World) : World :=
  {| fs := f; log := log w; calls := calls w |}.

Definition add_log (r : LogRecord) (w : World) : World :=
  {| fs := fs w; log := log w ++ [r]; calls := calls w |}.

Definition add_call (cmd : list string) (w : World) : World :=
  {| fs := fs w; log := log w; calls := calls w ++ [cmd] |}.

(** Python exceptions.  [OSError] stands for the whole family
    ([FileNotFoundError], [FileExistsError], [PermissionError], ...); its
    argument names the member. *)
Inductive Exn :=
| OSError (errno : string)
| CalledProcessError (returncode : Z) (cmd : list string)
| ValueError (msg : string)
| UnboundLocalError (var : string)
| AttributeError (attr : string)
| KeyError
| TypeError (msg : string)
| JSONDecodeError
| RecursionError
| WinError.

#[global] Instance Exn_eq_dec : EqDecision Exn.
Proof. solve_decision. Defined.

Definition is_OSError (e : Exn) : bool :=
  match e with OSError _ => true | _ => false end.

Definition is_CalledProcessError (e : Exn) : bool :=
  match e with CalledProcessError _ _ => true | _ => false end.

(** [except Exception] *)
Definition is_Exception (e : Exn) : bool := true.

Inductive Result (A : Type) :=
| Ok (a : A)
| Raise (e : Exn).

Arguments Ok {A} a.
Arguments Raise {A} e.

(** State and exceptions: a computation changes the state and either returns
    or raises; what it changed before raising stays changed. *)
Definition M (S A : Type) : Type := S → Result A * S.

#[global] Instance M_ret {S} : MRet (M S) := λ A a s, (Ok a, s).

#[global] Instance M_bind {S} : MBind (M S) := λ A B f m s,
  match m s with
  | (Ok a, s') => f a s'
  | (Raise e, s') => (Raise e, s')
  end.

Definition raise {S A} (e : Exn) : M S A := λ s, (Raise e, s).

(** [try: body except <catch> as e: handler e] *)
Definition try_except {S A} (body : M S A) (catch : Exn → bool)
    (handler : Exn → M S A) : M S A := λ s,
  match body s with
  | (Raise e, s') => if catch e then handler e s' else (Raise e, s')
  | ok => ok
  end.

(** [for x in l: body x] *)
Fixpoint for_each {S A} (l : list A) (body : A → M S unit) : M S unit :=
  match l with
  | [] => mret tt
  | x :: l' => body x ;; for_each l' body
  end.

(** A loop that updates one local variable. *)
Fixpoint for_fold {S A B} (l : list A) (acc : B) (body : B → A → M S B) : M S B :=
  match l with
  | [] => mret acc
  | x :: l' => acc' ← body acc x; for_fold l' acc' body
  end.

(** [if b: body] *)
Definition when_ {S} (b : bool) (body : M S unit) : M S unit :=
  if b then body else mret tt.

(** An [option] whose [None] is an exception. *)
Definition or_raise {S A} (o : option A) (e : Exn) : M S A :=
  match o with
  | Some a => mret a
  | None => raise e
  end.

(** [logging.getLogger(name).<level>(msg)] *)
Definition log_msg (logger : string) (lvl : Level) (msg : string) : M World unit :=
  λ w, (Ok tt, add_log (mkLogRecord logger lvl msg) w).

(** ** File-system operations of [pathlib], [os] and [shutil]

    Access rights are not modelled: an operation fails only for the shape of
    the file system (something missing, or a file where a directory is needed
    and the other way round). *)

Module PyFS.

Definition exists_ (f : gmap Path Node) (p : Path) : bool :=
  bool_decide (is_Some (f !! p)).

Definition is_dir (f : gmap Path Node) (p : Path) : bool :=
  bool_decide (f !! p = Some Dir).

Definition is_file (f : gmap Path Node) (p : Path) : bool :=
  match f !! p with Some (File _) => true | _ => false end.

(** The name [n] when [k] is the child [p / n] of [p]. *)
Definition child_name (p k : Path) : option string :=
  match PyPath.relative_to k p with
  | Some [n] => Some n
  | _ => None
  end.

(** Names of the entries of directory [p], in the order of the map. *)
Definition children (f : gmap Path Node) (p : Path) : list string :=
  omap (child_name p) (map_to_list f).*1.

(** Is [k] a directory at or below [top] that [os.walk] reaches: [top] and
    everything between [top] and [k] are directories. *)
Definition walk_reaches (f : gmap Path Node) (top k : Path) : bool :=
  match PyPath.relative_to k top with
  | Some rel =>
      forallb (λ a, is_dir f (top ++ a)) (PyPath.ancestors rel) && is_dir f k
  | None => false
  end.

(** [p.unlink()] *)
Definition unlink (p : Path) : M World unit := λ w,
  match fs w !! p with
  | Some (File _) => (Ok tt, set_fs (delete p (fs w)) w)
  | Some Dir => (Raise (OSError "EISDIR"), w)
  | None => (Raise (OSError "ENOENT"), w)
  end.

(** [shutil.rmtree(p)] *)
Definition rmtree (p : Path) : M World unit := λ w,
  match fs w !! p with
  | Some Dir => (Ok tt, set_fs (filter (λ kv, ¬ p `prefix_of` kv.1) (fs w)) w)
  | Some (File _) => (Raise (OSError "ENOTDIR"), w)
  | None => (Raise (OSError "ENOENT"), w)
  end.

(** [os.mkdir(p)] *)
Definition os_mkdir (p : Path) : M World unit := λ w,
  match fs w !! p with
  | Some _ => (Raise (OSError "EEXIST"), w)
  | None =>
      match fs w !! PyPath.parent p with
      | Some Dir => (Ok tt, set_fs (<[p := Dir]> (fs w)) w)
      | Some (File _) => (Raise (OSError "ENOTDIR"), w)
      | None => (Raise (OSError "ENOENT"), w)
      end
  end.

(** [p.mkdir(exist_ok=True)]: an error of [os.mkdir] is dropped when [p] is a
    directory afterwards. *)
Definition mkdir_exist_ok (p : Path) : M World unit :=
  try_except (os_mkdir p) is_OSError
    (λ e w, if is_dir (fs w) p then (Ok tt, w) else (Raise e, w)).

(** [p.mkdir(parents=True, exist_ok=True)], as pathlib does it: when the
    parent is missing, make the parent first and then [p].  The recursion is
    on the length of the path. *)
Fixpoint mkdir_parents_aux (n : nat) (p : Path) : M World unit :=
  try_except (os_mkdir p) is_OSError
    (λ e,
       if bool_decide (e = OSError "ENOENT") then
         match n with
         | O => raise e
         | S n' =>
             if bool_decide (PyPath.parent p = p) then raise e
             else mkdir_parents_aux n' (PyPath.parent p) ;; mkdir_exist_ok p
         end
       else λ w, if is_dir (fs w) p then (Ok tt, w) else (Raise e, w)).

Definition mkdir_parents (p : Path) : M World unit :=
  mkdir_parents_aux (length p) p.

(** [shutil.copy(src, dst)]: a directory [dst] receives the file under the
    name of [src]. *)
Definition copy (src dst : Path) : M World unit := λ w,
  match fs w !! src with
  | Some (File data) =>
      let dst' := if is_dir (fs w) dst then dst ++ [PyPath.name src] else dst in
      if bool_decide (dst' = src) then (Raise (OSError "SameFileError"), w)
      else
        match fs w !! dst', fs w !! PyPath.parent dst' with
        | Some Dir, _ => (Raise (OSError "EISDIR"), w)
        | _, Some Dir => (Ok tt, set_fs (<[dst' := File data]> (fs w)) w)
        | _, _ => (Raise (OSError "ENOENT"), w)
        end
  | Some Dir => (Raise (OSError "EISDIR"), w)
  | None => (Raise (OSError "ENOENT"), w)
  end.

(** [open(p).read()] *)
Definition read_text (p : Path) : M World string := λ w,
  match fs w !! p with
  | Some (File data) => (Ok data, w)
  | Some Dir => (Raise (OSError "EISDIR"), w)
  | None => (Raise (OSError "ENOENT"), w)
  end.

End PyFS.

(** ** External programs

    [subprocess.run(cmd, check=True)] either cannot start the program (an
    [OSError]), or runs it to its end; the program may change the file system
    in any way and exits with a code.  With [check=True] a nonzero code is
    raised as [CalledProcessError]. *)

Inductive ProcOutcome :=
| Exited (code : Z)
| NotStarted (errno : string).

Definition exn_str (e : Exn) : string :=
  match e with
  | OSError errno => "[" +:+ errno +:+ "]"
  | CalledProcessError _ cmd =>
      "Command '" +:+ PyStr.join " " cmd +:+ "' returned non-zero exit status"
  | ValueError msg => msg
  | UnboundLocalError var =>
      "cannot access local variable '" +:+ var +:+ "' where it is not associated with a value"
  | AttributeError attr => "object has no attribute '" +:+ attr +:+ "'"
  | KeyError => "KeyError"
  | TypeError msg => msg
  | JSONDecodeError => "JSONDecodeError"
  | RecursionError => "maximum recursion depth exceeded"
  | WinError => "WinError"
  end.

(** ** [audio_editor.py]: class [AudioTranslationEditor] *)

Record AudioTranslationEditor := mkEditor {
  bsarch_path : Path;
  bmlfuzdecode_path : Path;
  xwmaencode_path : Path;
  xtts_get_speakers_list : string;
  is_initialized : bool
}.

Section AudioEditor.

(** The environment: what a started program does to the file system and how
    it ends; the order in which the operating system lists directory entries;
    the directory of the module file ([Path(__file__).parent]). *)
Variable run_process : list string → gmap Path Node → ProcOutcome * gmap Path Node.
Variable scandir_order : ∀ A : Type, list A → list A.
Variable script_dir : Path.

Definition subprocess_run_check (cmd : list string) : M World unit := λ w,
  match run_process cmd (fs w) with
  | (Exited code, f') =>
      let w' := add_call cmd (set_fs f' w) in
      if bool_decide (code = 0%Z) then (Ok tt, w')
      else (Raise (CalledProcessError code cmd), w')
  | (NotStarted errno, _) => (Raise (OSError errno), add_call cmd w)
  end.

(** [p.iterdir()] *)
Definition iterdir (p : Path) : M World (list Path) := λ w,
  match fs w !! p with
  | Some Dir => (Ok (List.map (λ n, p ++ [n]) (scandir_order _ (PyFS.children (fs w) p))), w)
  | Some (File _) => (Raise (OSError "ENOTDIR"), w)
  | None => (Raise (OSError "ENOENT"), w)
  end.

(** [os.walk(top)]: one triple (root, directory names, file names) for every
    directory reached from [top]; nothing when [top] is not a directory.  The
    roots are given as paths ([Path(root)] in the program).  The listing is
    taken at the start of the loop; this is what the lazy [os.walk] yields as
    long as the loop body leaves the walked tree alone. *)
Definition os_walk (top : Path) : M World (list (Path * list string * list string)) := λ w,
  let f := fs w in
  let roots := List.filter (PyFS.walk_reaches f top) (map_to_list f).*1 in
  let triple root :=
    let names := scandir_order _ (PyFS.children f root) in
    (root,
     List.filter (λ n, PyFS.is_dir f (root ++ [n])) names,
     List.filter (λ n, negb (PyFS.is_dir f (root ++ [n]))) names) in
  (Ok (scandir_order _ (List.map triple roots)), w).

(** Every program that is started runs to its end. *)
Definition programs_exit : Prop :=
  ∀ cmd f, ∃ code f', run_process cmd f = (Exited code, f').

Definition logger_name : string := "AudioTranslationEditor".

Definition log_info (msg : string) : M World unit := log_msg logger_name INFO msg.
Definition log_error (msg : string) : M World unit := log_msg logger_name ERROR msg.

Definition path_exists (p : Path) : M World bool := λ w, (Ok (PyFS.exists_ (fs w) p), w).
Definition path_is_dir (p : Path) : M World bool := λ w, (Ok (PyFS.is_dir (fs w) p), w).

(** [script_dir / 'extracted_files'] *)
Definition extract_destination : Path := PyPath.div script_dir "extracted_files".

Section Methods.

Variable self : AudioTranslationEditor.

(** [delete_file] (lines 227-238) *)
Definition delete_file (file_path : Path) : M World unit :=
  try_except
    (PyFS.unlink file_path ;;
     log_info ("Deleted " +:+ PyPath.str file_path))
    is_OSError
    (λ e, log_error ("An error occurred while deleting " +:+ PyPath.str file_path
                     +:+ ": " +:+ exn_str e)).

(** [convert_xwm] (lines 210-225) *)
Definition convert_xwm (file_path : Path) : M World unit :=
  wav_file ← or_raise (PyPath.with_suffix file_path ".wav") (ValueError "empty name");
  let convert_command :=
    [PyPath.str (xwmaencode_path self); PyPath.str file_path; PyPath.str wav_file] in
  try_except
    (subprocess_run_check convert_command ;;
     log_info ("Successfully converted " +:+ PyPath.str file_path +:+ " to "
               +:+ PyPath.str wav_file))
    is_CalledProcessError
    (λ e, log_error ("An error occurred while converting " +:+ PyPath.str file_path
                     +:+ " to " +:+ PyPath.str wav_file +:+ ": " +:+ exn_str e)) ;;
  delete_file file_path.

(** [decode_fuz] (lines 183-208) *)
Definition decode_fuz (file_path : Path) : M World unit :=
  let decode_command := [PyPath.str (bmlfuzdecode_path self); PyPath.str file_path] in
  try_except
    (subprocess_run_check decode_command ;;
     log_info ("Successfully decoded " +:+ PyPath.str file_path +:+ " to .xwm"))
    is_CalledProcessError
    (λ e, log_error ("An error occurred while decoding " +:+ PyPath.str file_path
                     +:+ ": " +:+ exn_str e)) ;;
  xwm_file ← or_raise (PyPath.with_suffix file_path ".xwm") (ValueError "empty name");
  xwm_exists ← path_exists xwm_file;
  when_ xwm_exists (convert_xwm xwm_file) ;;
  delete_file file_path ;;
  lip_file ← or_raise (PyPath.with_suffix file_path ".lip") (ValueError "empty name");
  lip_exists ← path_exists lip_file;
  when_ lip_exists (delete_file lip_file).

(** [find_bsa_file] (lines 109-122): the name of the first entry whose
    suffix, in lower case, is [.bsa] *)
Definition find_bsa_file (mod_path : Path) : M World (option string) :=
  entries ← iterdir mod_path;
  mret (PyPath.name <$>
        List.find (λ file, bool_decide (PyStr.lower (PyPath.suffix file) = ".bsa")) entries).

(** Is the file name one of a loose audio file:
    [file.lower().endswith(('.fuz', '.xwm'))] *)
Definition is_audio_name (file : string) : bool :=
  PyStr.endswith (PyStr.lower file) ".fuz" || PyStr.endswith (PyStr.lower file) ".xwm".

(** The body of the inner loop of [find_audio_files] (lines 141-149), for one
    file of one directory; the local variable [audio_files_path] is the
    accumulator. *)
Definition copy_audio_file (mod_path root : Path) (audio_files_path : option Path)
    (file : string) : M World (option Path) :=
  if is_audio_name file then
    let audio_files_path' :=
      match audio_files_path with
      | None => Some root
      | Some p => Some p
      end in
    rel ← or_raise (PyPath.relative_to root mod_path) (ValueError "not in the subpath");
    let destination_path := PyPath.join extract_destination rel in
    PyFS.mkdir_parents destination_path ;;
    PyFS.copy (PyPath.div root file) (PyPath.div destination_path file) ;;
    log_info ("Copied " +:+ PyPath.str (PyPath.div root file) +:+ " to "
              +:+ PyPath.str (PyPath.div destination_path file)) ;;
    mret audio_files_path'
  else mret audio_files_path.

(** [find_audio_files] (lines 124-153) *)
Definition find_audio_files (mod_path : Path) : M World (option Path) :=
  PyFS.mkdir_exist_ok extract_destination ;;
  walk ← os_walk mod_path;
  audio_files_path ←
    for_fold walk None
      (λ acc '(root, _, files), for_fold files acc (copy_audio_file mod_path root));
  match (audio_files_path : option Path) with
  | Some _ => mret (Some extract_destination)
  | None => mret None
  end.

(** Truth value of [bsa_file], a string or [None] *)
Definition truthy (o : option string) : bool :=
  match o with
  | Some s => negb (bool_decide (s = ""))
  | None => false
  end.

(** [extract_bsa] (lines 61-107) *)
Definition extract_bsa (mod_path : Path) : M World (option Path) :=
  dest_exists ← path_exists extract_destination;
  dest_is_dir ← path_is_dir extract_destination;
  when_ (dest_exists && dest_is_dir)
    (PyFS.rmtree extract_destination ;;
     log_info ("Removed existing directory: " +:+ PyPath.str extract_destination)) ;;
  bsa_file ← find_bsa_file mod_path;
  if truthy bsa_file then
    let bsa_name := default "" bsa_file in
    let bsa_file_path := PyPath.div mod_path bsa_name in
    PyFS.mkdir_exist_ok extract_destination ;;
    let command :=
      [PyPath.str (bsarch_path self); "unpack"; PyPath.str bsa_file_path;
       PyPath.str extract_destination] in
    try_except
      (subprocess_run_check command ;;
       log_info ("Successfully extracted " +:+ bsa_name +:+ " to "
                 +:+ PyPath.str extract_destination) ;;
       mret (Some extract_destination))
      is_CalledProcessError
      (λ e, log_error ("An error occurred while extracting " +:+ bsa_name +:+ ": "
                       +:+ exn_str e) ;;
            mret None)
  else
    extracted_folder ← find_audio_files mod_path;
    match (extracted_folder : option Path) with
    | Some folder =>
        log_info ("Found .fuz or .xwm files in " +:+ PyPath.str folder) ;;
        mret (Some folder)
    | None =>
        log_error ("No .bsa or .fuz/.xwm files found in " +:+ PyPath.str mod_path) ;;
        mret None
    end.

End Methods.

End AudioEditor.


(** What [delete_file] does to the file system: a regular file at the path
    is removed, anything else stays. *)
Definition remove_file (p : Path) (f : gmap Path Node) : gmap Path Node :=
  if PyFS.is_file f p then delete p f else f.

(** A well-formed file system: every component of every existing path is an
    ordinary file name, and everything above an existing path is a
    directory. *)
Definition fs_wf (f : gmap Path Node) : bool :=
  forallb (λ k, forallb PyPath.plain_name k && forallb (PyFS.is_dir f) (PyPath.ancestors k))
          (map_to_list f).*1.

(** How the loop of [find_audio_files] moves the state: the file system
    only grows, and [audio_files_path], once set, stays set. *)
Definition copy_order : relation (option Path * World) :=
  λ x y, fs x.2 ⊆ fs y.2 ∧ (x.1 ≠ None → y.1 ≠ None).


(** ** [localisation.py]: classes [LocalisationSection] and [Localisator]

    A Python object is the dictionary of its instance attributes.  The
    classes intercept attribute lookup ([__getattribute__]), so lookup is
    modelled step by step: the instance dictionary first, then the attributes
    of the class, then what every instance inherits from [object]. *)

#[local] Unset Elimination Schemes.

Inductive Value :=
| VNone
| VStr (s : string)
| VPath (p : Path)
| VLogger (name : string)
| VMethod (cls name : string)
| VSection (attrs : gmap string Value).

#[local] Set Elimination Schemes.

(** [v == s] for a string [s] *)
Definition is_str (v : Value) (s : string) : bool :=
  match v with
  | VStr s' => bool_decide (s' = s)
  | _ => false
  end.

(** The state of a method call on a [Localisator]: the instance dictionary of
    [self], and the world. *)
Record LocState := mkLocState {
  loc_self : gmap string Value;
  loc_world : World
}.

Definition lift_world {A} (m : M World A) : M LocState A := λ s,
  let '(r, w') := m (loc_world s) in (r, mkLocState (loc_self s) w').

(** [setattr(obj, name, value)] where [obj] is an instance of one of the two
    classes (neither defines [__setattr__] or slots) and [value] is a section
    or a string: every name is stored in the instance dictionary, but for the
    three names for which [object] and [type] provide a descriptor that checks
    or forbids the assignment.  [__class__] takes a class and [__dict__] a
    dictionary ([TypeError]); [__weakref__] cannot be written
    ([AttributeError]). *)
Definition setattr_refused (name : string) : option Exn :=
  if bool_decide (name = "__class__") then
    Some (TypeError "__class__ must be set to a class")
  else if bool_decide (name = "__dict__") then
    Some (TypeError "__dict__ must be set to a dictionary")
  else if bool_decide (name = "__weakref__") then
    Some (AttributeError "__weakref__")
  else None.

(** [for key, value in lang_data.items(): setattr(root_attr, key, value)]
    (lines 93-94) on the instance dictionary of [root_attr]: the assignments
    are made one after the other, up to the first that is refused; what was
    assigned before stays. *)
Fixpoint assign_items (items : list (string * string)) (d : gmap string Value)
    : gmap string Value * option Exn :=
  match items with
  | [] => (d, None)
  | (key, value) :: rest =>
      match setattr_refused key with
      | Some e => (d, Some e)
      | None => assign_items rest (<[key := VStr value]> d)
      end
  end.

(** Every key of the items can be assigned. *)
Definition keys_assignable (items : list (string * string)) : Prop :=
  Forall (λ kv, setattr_refused kv.1 = None) items.

Section Localisation.

(** The environment: the order of directory listings; the outcome of
    [win32api.GetUserDefaultLangID()]; the table [locale.windows_locale]; the
    JSON reader ([jstyleson.load], giving the items of the top-level object in
    their order, with string values as the program's annotation
    [dict[str, str]] says); and the attributes that every instance has from
    [object] and from the class machinery ([__class__], [__dict__],
    [__doc__], [__module__], ...). *)
Variable scandir_order : ∀ A : Type, list A → list A.
Variable GetUserDefaultLangID : Result Z.
Variable windows_locale : Z → option string.
Variable json_load : string → Result (list (string * string)).
Variable object_attr : string → option Value.

(** Attributes defined in the body of class [LocalisationSection] *)
Definition section_class_attr (name : string) : option Value :=
  if bool_decide (name ∈ ["__init__"; "__repr__"; "__getattribute__"])
  then Some (VMethod "LocalisationSection" name) else None.

(** Attributes defined in the body of class [Localisator] *)
Definition localisator_class_attr (name : string) : option Value :=
  if bool_decide (name = "language") then Some (VStr "en-US")
  else if bool_decide (name ∈ ["__init__"; "__repr__"; "load_lang";
                               "get_available_langs"; "__getattribute__"])
  then Some (VMethod "Localisator" name) else None.

(** [object.__getattribute__(self, name)]; [None] stands for the
    [AttributeError]. *)
Definition object_getattribute (class_attr : string → option Value)
    (dict : gmap string Value) (name : string) : option Value :=
  match dict !! name with
  | Some v => Some v
  | None =>
      match class_attr name with
      | Some v => Some v
      | None => object_attr name
      end
  end.

(** [LocalisationSection.__init__] (lines 20-22) *)
Definition section_init (logger : Value) (name : Value) : gmap string Value :=
  <["_name" := name]> (<["log" := logger]> ∅).

(** [LocalisationSection.__repr__] (lines 24-28) *)
Definition section_repr (dict : gmap string Value) : Result string :=
  match object_getattribute section_class_attr dict "_name" with
  | Some VNone => Ok "LocalisationSection"
  | Some (VStr s) => Ok s
  | Some _ => Raise (TypeError "__repr__ returned non-string")
  | None => Raise RecursionError
  end.

(** [lg.warning(msg)] for the value [lg] of a [log] attribute.  The message
    is computed after [lg.warning] has been looked up and before the call.
    A section in the place of the logger answers the lookup of [warning]
    with a string, and calling that raises; what that section logs on the
    way is not modelled. *)
Definition call_warning (lg : Value) (msg : Result string) : M World unit :=
  match lg with
  | VLogger name =>
      match msg with
      | Ok m => log_msg name WARNING m
      | Raise e => raise e
      end
  | VSection _ =>
      match msg with
      | Ok _ => raise (TypeError "'str' object is not callable")
      | Raise e => raise e
      end
  | _ => raise (AttributeError "warning")
  end.

(** [lg.<level>(msg)] for the other levels, on the same terms *)
Definition call_log (lg : Value) (lvl : Level) (msg : string) : M World unit :=
  match lg with
  | VLogger name => log_msg name lvl msg
  | VSection _ => raise (TypeError "'str' object is not callable")
  | _ => raise (AttributeError "log method")
  end.

(** [LocalisationSection.__getattribute__] (lines 30-35).  In the handler
    [self.log] is itself looked up through this method; were [log] missing,
    that lookup would reach the handler again without end. *)
Definition section_getattribute (dict : gmap string Value) (name : string) : M World Value :=
  match object_getattribute section_class_attr dict name with
  | Some v => mret v
  | None =>
      match object_getattribute section_class_attr dict "log" with
      | Some lg =>
          call_warning lg
            (match section_repr dict with
             | Ok r => Ok ("Missing localisation for " +:+ PyStr.repr name +:+ " in "
                           +:+ r +:+ "!")
             | Raise e => Raise e
             end) ;;
          mret (VStr name)
      | None => raise RecursionError
      end
  end.

(** [Localisator.__getattribute__] (lines 99-104) *)
Definition localisator_getattribute (dict : gmap string Value) (name : string) : M World Value :=
  match object_getattribute localisator_class_attr dict name with
  | Some v => mret v
  | None =>
      match object_getattribute localisator_class_attr dict "log" with
      | Some lg =>
          call_warning lg
            (Ok ("Missing localisation section for " +:+ PyStr.repr name +:+ "!")) ;;
          mret (VSection (section_init lg (VStr name)))
      | None => raise RecursionError
      end
  end.

(** [self.<name>] inside a method of [Localisator] *)
Definition getattr (name : string) : M LocState Value := λ s,
  lift_world (localisator_getattribute (loc_self s) name) s.

(** [self.<name> = v] (the class does not intercept assignment) *)
Definition setattr (name : string) (v : Value) : M LocState unit := λ s,
  (Ok tt, mkLocState (<[name := v]> (loc_self s)) (loc_world s)).

(** A value used as a path; anything else fails at the first path operation
    applied to it. *)
Definition as_path (v : Value) : M LocState Path :=
  match v with
  | VPath p => mret p
  | _ => raise (TypeError "not a path")
  end.

(** [str(v)] inside an f-string *)
Definition value_str (v : Value) : string :=
  match v with
  | VNone => "None"
  | VStr s => s
  | VPath p => PyPath.str p
  | VLogger name => "<Logger " +:+ name +:+ ">"
  | VMethod cls name => "<bound method " +:+ cls +:+ "." +:+ name +:+ ">"
  | VSection d =>
      match section_repr d with
      | Ok r => r
      | Raise _ => "LocalisationSection"
      end
  end.

(** [self.log.<level>(msg)] *)
Definition self_log (lvl : Level) (msg : string) : M LocState unit :=
  lg ← getattr "log";
  lift_world (call_log lg lvl msg).

(** [Localisator.__init__] (lines 47-51); [self.__repr__()] is
    ["Localisation"]. *)
Definition localisator_init (lang : string) (lang_path : Path) : gmap string Value :=
  <["lang_path" := VPath (PyPath.div lang_path lang)]>
    (<["language" := VStr lang]>
       (<["log" := VLogger "Localisation"]> ∅)).

(** [p.glob(pattern)] for a pattern of one component: the entries of the
    directory [p] whose names match; nothing when [p] is not a directory. *)
Definition glob (p : Path) (pattern : string) : M World (list Path) := λ w,
  if PyFS.is_dir (fs w) p then
    (Ok (List.map (λ n, p ++ [n])
           (List.filter (PyStr.fnmatch pattern)
              (scandir_order _ (PyFS.children (fs w) p)))), w)
  else (Ok [], w).

(** The two statements of the [try] block that resolve the system language
    (lines 65-66); they assign the local variable [system_language]. *)
Definition resolve_system_language : M LocState string :=
  match GetUserDefaultLangID with
  | Ok language_id => or_raise (windows_locale language_id) KeyError
  | Raise e => raise e
  end.

(** The resolution raises: the call of the platform does, or the identifier
    it returns is not in the table. *)
Definition resolution_fails : Prop :=
  (∃ ex, GetUserDefaultLangID = Raise ex) ∨
  (∃ language_id, GetUserDefaultLangID = Ok language_id ∧
                  windows_locale language_id = None).

(** The rest of the [try] block (lines 67-69) *)
Definition use_system_language (system_language : string) : M LocState unit :=
  self_log DEBUG ("Detected system language: " +:+ system_language) ;;
  setattr "language" (VStr system_language) ;;
  lang_path ← getattr "lang_path";
  p ← as_path lang_path;
  setattr "lang_path" (VPath (PyPath.div (PyPath.parent p) system_language)).

(** The [except Exception] handler (lines 70-73).  Its last statement reads
    the local variable [system_language], which is bound only when the [try]
    block got past its second statement. *)
Definition system_language_failed (system_language : option string) (ex : Exn)
    : M LocState unit :=
  self_log ERROR ("Failed to get system language: " +:+ exn_str ex) ;;
  setattr "language" (VStr "en _US") ;;
  lang_path ← getattr "lang_path";
  p ← as_path lang_path;
  system_language' ← or_raise system_language (UnboundLocalError "system_language");
  setattr "lang_path" (VPath (PyPath.div (PyPath.parent p) system_language')).

(** The [try] statement (lines 64-73) *)
Definition detect_system_language : M LocState unit := λ s,
  match resolve_system_language s with
  | (Raise ex, s1) => system_language_failed None ex s1
  | (Ok system_language, s1) =>
      try_except (use_system_language system_language) is_Exception
        (system_language_failed (Some system_language)) s1
  end.

(** The fallback to the default language (lines 76-82) *)
Definition fall_back_to_english : M LocState unit :=
  lang_path ← getattr "lang_path";
  p ← as_path lang_path;
  is_dir ← lift_world (λ w, (Ok (PyFS.is_dir (fs w) p), w));
  when_ (negb is_dir)
    (lg ← getattr "log";
     language ← getattr "language";
     lift_world
       (call_log lg WARNING ("Failed to load language '" +:+ value_str language
                             +:+ "': Localisation does not exist!")) ;;
     self_log INFO "Falling back to 'en_US'..." ;;
     setattr "language" (VStr "en_US") ;;
     lang_path' ← getattr "lang_path";
     p' ← as_path lang_path';
     language' ← getattr "language";
     setattr "lang_path" (VPath (PyPath.div (PyPath.parent p') (value_str language')))).

(** The body of the loop over the JSON files (lines 85-94).  The stem of the
    file and the keys of the file are attribute names chosen by the files, so
    each of the assignments can be refused.  [root_attr] is the section object
    stored under the stem, so what is assigned to its attributes shows in
    [self]: the changed section is stored back, also when an assignment was
    refused and the exception leaves the section filled in part. *)
Definition load_lang_file (lang_file : Path) : M LocState unit :=
  data ← lift_world (PyFS.read_text lang_file);
  lang_data ← (λ s, (json_load data, s));
  lg ← getattr "log";
  match setattr_refused (PyPath.stem lang_file) with
  | Some e => raise e
  | None =>
      setattr (PyPath.stem lang_file)
        (VSection (section_init lg (VStr (PyPath.name lang_file)))) ;;
      root_attr ← getattr (PyPath.stem lang_file);
      getattribute ← getattr "__getattribute__";
      match root_attr with
      | VSection d =>
          let '(d', refused) :=
            assign_items lang_data (<["__getattribute__" := getattribute]> d) in
          setattr (PyPath.stem lang_file) (VSection d') ;;
          match refused with
          | Some e => raise e
          | None => mret tt
          end
      | _ => raise (AttributeError "__getattribute__")
      end
  end.

(** The loop over the JSON files (lines 84-94) *)
Definition load_lang_files : M LocState unit :=
  lang_path ← getattr "lang_path";
  p ← as_path lang_path;
  lang_files ← lift_world (glob p "*.json");
  for_each lang_files load_lang_file.

(** [Localisator.load_lang] (lines 56-94) *)
Definition load_lang : M LocState unit :=
  language ← getattr "language";
  when_ (is_str language "System") detect_system_language ;;
  fall_back_to_english ;;
  load_lang_files.

(** [Localisator.get_available_langs] (lines 96-97) *)
Definition get_available_langs : M LocState (list string) :=
  lang_path ← getattr "lang_path";
  p ← as_path lang_path;
  langs ← lift_world (glob (PyPath.parent p) "??_??");
  mret (List.map PyPath.name langs).

(** The section that [load_lang] builds from a file: the constructor, the
    assignment of [__getattribute__], then one assignment per item, up to the
    first that is refused. *)
Definition loaded_section (logger file_name : string) (items : list (string * string))
    : gmap string Value :=
  (assign_items items
     (<["__getattribute__" := VMethod "Localisator" "__getattribute__"]>
        (section_init (VLogger logger) (VStr file_name)))).1.

(** The specification's sentence on lookups, word for word: for every
    section and every attribute name that was not loaded into it, a lookup
    returns the name itself and logs exactly one warning. *)
Definition spec_lookup_of_unloaded_name : Prop :=
  ∀ (logger file_name : string) (items : list (string * string)) (name : string)
    (w : World),
    ¬ In name (List.map fst items) →
    ∃ record,
      section_getattribute (loaded_section logger file_name items) name w
        = (Ok (VStr name), add_log record w) ∧
      rec_level record = WARNING.

(** The shape that the pattern [??_??] asks of a name: five characters, the
    third an underscore. *)
Definition lang_shape (n : string) : Prop :=
  String.length n = 5 ∧ String.get 2 n = Some "_"%char.

(** A name made of ASCII characters: one byte is one character. *)
Fixpoint is_ascii (s : string) : bool :=
  match s with
  | EmptyString => true
  | String c r => Nat.ltb (nat_of_ascii c) 128 && is_ascii r
  end.

(** The specification's sentence on [get_available_langs], word for word:
    it returns exactly the names of the directories beside the language path
    whose names are two letters, an underscore and two letters. *)
Definition spec_lang_tag (is_letter : ascii → bool) (n : string) : Prop :=
  ∃ a b c d, n = String a (String b (String "_" (String c (String d "")))) ∧
             is_letter a = true ∧ is_letter b = true ∧
             is_letter c = true ∧ is_letter d = true.

Definition spec_available_langs (is_letter : ascii → bool) : Prop :=
  ∀ (dict : gmap string Value) (lang_path : Path) (w : World) (names : list string),
    dict !! "lang_path" = Some (VPath lang_path) →
    get_available_langs (mkLocState dict w) = (Ok names, mkLocState dict w) →
    ∀ n, In n names ↔
         PyFS.is_dir (fs w) (PyPath.parent lang_path ++ [n]) = true ∧
         spec_lang_tag is_letter n.

End Localisation.

(** ** [app_settings.py]: class [AppSettings]

    The panel is made of Qt widgets.  Each widget is modelled by the state
    that its documented interface exposes: a spin box keeps its value between
    its minimum and its maximum, a combo box shows one of its items, a line
    edit holds a text, a check box a truth value.  A [float] is modelled by a
    rational number. *)

Module Qt.

(** [qBound(minimum, v, maximum)] as the spin boxes apply it *)
Definition bound (minimum maximum v : Z) : Z :=
  if (v <? minimum)%Z then minimum else if (maximum <? v)%Z then maximum else v.

Record QSpinBox := mkSpinBox {
  sb_minimum : Z;
  sb_maximum : Z;
  sb_value : Z
}.

(** [QSpinBox()]: range 0 to 99, value 0 *)
Definition QSpinBox_new : QSpinBox := mkSpinBox 0 99 0.

(** [setRange(minimum, maximum)]: a maximum below the minimum becomes the
    minimum; the value is brought into the range. *)
Definition sb_setRange (minimum maximum : Z) (b : QSpinBox) : QSpinBox :=
  let maximum' := if (minimum <? maximum)%Z then maximum else minimum in
  mkSpinBox minimum maximum' (bound minimum maximum' (sb_value b)).

(** [setValue(v)], also what an edit by the user amounts to.  The argument is
    a C [int] in Qt: the binding raises [OverflowError] for a Python integer
    outside -2^31 .. 2^31-1, so the function says what the widget does for the
    integers inside that range. *)
Definition sb_setValue (v : Z) (b : QSpinBox) : QSpinBox :=
  mkSpinBox (sb_minimum b) (sb_maximum b) (bound (sb_minimum b) (sb_maximum b) v).

Definition qbound (minimum maximum v : Q) : Q :=
  if Qlt_le_dec v minimum then minimum
  else if Qlt_le_dec maximum v then maximum else v.

(** Rounding to the two decimals of a [QDoubleSpinBox], on rational numbers.
    Qt rounds the binary [double]; the two agree on the numbers of hundredths
    (which are their own rounding), and may differ by one hundredth on a
    number that lies half way between two of them. *)
Definition round2 (q : Q) : Q := Qmake (Qfloor (q * 100 + (1 # 2))%Q) 100.

Record QDoubleSpinBox := mkDoubleSpinBox {
  dsb_minimum : Q;
  dsb_maximum : Q;
  dsb_value : Q
}.

(** [QDoubleSpinBox()]: range 0.0 to 99.99, value 0.0 *)
Definition QDoubleSpinBox_new : QDoubleSpinBox :=
  mkDoubleSpinBox 0%Q (9999 # 100)%Q 0%Q.

(** [setRange(minimum, maximum)]: both are rounded first *)
Definition dsb_setRange (minimum maximum : Q) (b : QDoubleSpinBox) : QDoubleSpinBox :=
  let minimum' := round2 minimum in
  let maximum' := if Qlt_le_dec minimum' (round2 maximum) then round2 maximum else minimum' in
  mkDoubleSpinBox minimum' maximum' (qbound minimum' maximum' (dsb_value b)).

(** [setValue(v)]: the value is rounded, then brought into the range *)
Definition dsb_setValue (v : Q) (b : QDoubleSpinBox) : QDoubleSpinBox :=
  mkDoubleSpinBox (dsb_minimum b) (dsb_maximum b)
    (qbound (dsb_minimum b) (dsb_maximum b) (round2 v)).

(** A combo box that cannot be edited: its items and the index of the
    current one, if any. *)
Record QComboBox := mkComboBox {
  cb_items : list string;
  cb_index : option nat
}.

Definition QComboBox_new : QComboBox := mkComboBox [] None.

(** [addItems(texts)]: the first item of a box that was empty becomes the
    current one. *)
Definition cb_addItems (texts : list string) (b : QComboBox) : QComboBox :=
  let items := cb_items b ++ texts in
  mkComboBox items
    (match cb_index b, items with
     | None, _ :: _ => Some O
     | i, _ => i
     end).

Definition cb_addItem (text : string) (b : QComboBox) : QComboBox :=
  cb_addItems [text] b.

(** [findText(text)]: the index of the first item equal to the text *)
Fixpoint find_text (text : string) (items : list string) : option nat :=
  match items with
  | [] => None
  | item :: rest =>
      if bool_decide (item = text) then Some O else S <$> find_text text rest
  end.

(** [setCurrentText(text)]: selects the item with that text, if there is
    one. *)
Definition cb_setCurrentText (text : string) (b : QComboBox) : QComboBox :=
  match find_text text (cb_items b) with
  | Some i => mkComboBox (cb_items b) (Some i)
  | None => b
  end.

(** The user picks the item at an index. *)
Definition cb_select (i : nat) (b : QComboBox) : QComboBox :=
  if Nat.ltb i (length (cb_items b)) then mkComboBox (cb_items b) (Some i) else b.

(** [currentText()]: empty when there is no current item *)
Definition cb_currentText (b : QComboBox) : string :=
  match cb_index b with
  | Some i => List.nth i (cb_items b) ""
  | None => ""
  end.

End Qt.

Module PyStrCase.

Definition upper_ascii (c : ascii) : ascii :=
  let n := nat_of_ascii c in
  if Nat.leb 97 n && Nat.leb n 122 then ascii_of_nat (n - 32) else c.

(** [s.capitalize()] *)
Definition capitalize (s : string) : string :=
  match s with
  | EmptyString => EmptyString
  | String c r => String (upper_ascii c) (PyStr.lower r)
  end.

End PyStrCase.

(** [app.app_config], with the types of its six entries *)
Record AppConfig := mkAppConfig {
  cfg_keep_logs_num : Z;
  cfg_log_level : string;
  cfg_language : string;
  cfg_accent_color : string;
  cfg_detector_confidence : Q;
  cfg_auto_bind_nxm : bool
}.

(** The widgets that [get_settings] reads *)
Record AppSettings := mkAppSettings {
  logs_num_box : Qt.QSpinBox;
  log_level_box : Qt.QComboBox;
  app_lang_box : Qt.QComboBox;
  accent_color_entry : string;
  confidence_box : Qt.QDoubleSpinBox;
  bind_nxm_checkbox : bool
}.

(** A value of the mapping that [get_settings] returns *)
Inductive SettingValue :=
| SInt (n : Z)
| SStr (s : string)
| SFloat (q : Q)
| SBool (b : bool).

(** What the user can do to the panel between its construction and a call of
    [get_settings]; [ChooseColor] is the colour dialog accepted with a colour
    name. *)
Inductive Edit :=
| EditLogsNum (v : Z)
| SelectLogLevel (i : nat)
| SelectLanguage (i : nat)
| EditAccentColor (text : string)
| ChooseColor (name : string)
| EditConfidence (v : Q)
| SetAutoBind (checked : bool).

Section Settings.

(** [utils.LOG_LEVELS.values()] and [app.loc.get_available_langs()] *)
Variable LOG_LEVELS_values : list string.
Variable available_langs : list string.

(** [AppSettings.__init__] (lines 27-108), as far as the six widgets go *)
Definition AppSettings_init (app_config : AppConfig) : AppSettings :=
  {| logs_num_box :=
       Qt.sb_setValue (cfg_keep_logs_num app_config)
         (Qt.sb_setRange (-1) 100 Qt.QSpinBox_new);
     log_level_box :=
       Qt.cb_setCurrentText (PyStrCase.capitalize (cfg_log_level app_config))
         (Qt.cb_addItems (List.map PyStrCase.capitalize LOG_LEVELS_values)
            Qt.QComboBox_new);
     app_lang_box :=
       Qt.cb_setCurrentText (cfg_language app_config)
         (Qt.cb_addItems available_langs (Qt.cb_addItem "System" Qt.QComboBox_new));
     accent_color_entry := cfg_accent_color app_config;
     confidence_box :=
       Qt.dsb_setValue (cfg_detector_confidence app_config)
         (Qt.dsb_setRange 0%Q 1%Q Qt.QDoubleSpinBox_new);
     bind_nxm_checkbox := cfg_auto_bind_nxm app_config |}.

Definition apply_edit (panel : AppSettings) (e : Edit) : AppSettings :=
  match e with
  | EditLogsNum v =>
      {| logs_num_box := Qt.sb_setValue v (logs_num_box panel);
         log_level_box := log_level_box panel;
         app_lang_box := app_lang_box panel;
         accent_color_entry := accent_color_entry panel;
         confidence_box := confidence_box panel;
         bind_nxm_checkbox := bind_nxm_checkbox panel |}
  | SelectLogLevel i =>
      {| logs_num_box := logs_num_box panel;
         log_level_box := Qt.cb_select i (log_level_box panel);
         app_lang_box := app_lang_box panel;
         accent_color_entry := accent_color_entry panel;
         confidence_box := confidence_box panel;
         bind_nxm_checkbox := bind_nxm_checkbox panel |}
  | SelectLanguage i =>
      {| logs_num_box := logs_num_box panel;
         log_level_box := log_level_box panel;
         app_lang_box := Qt.cb_select i (app_lang_box panel);
         accent_color_entry := accent_color_entry panel;
         confidence_box := confidence_box panel;
         bind_nxm_checkbox := bind_nxm_checkbox panel |}
  | EditAccentColor text | ChooseColor text =>
      {| logs_num_box := logs_num_box panel;
         log_level_box := log_level_box panel;
         app_lang_box := app_lang_box panel;
         accent_color_entry := text;
         confidence_box := confidence_box panel;
         bind_nxm_checkbox := bind_nxm_checkbox panel |}
  | EditConfidence v =>
      {| logs_num_box := logs_num_box panel;
         log_level_box := log_level_box panel;
         app_lang_box := app_lang_box panel;
         accent_color_entry := accent_color_entry panel;
         confidence_box := Qt.dsb_setValue v (confidence_box panel);
         bind_nxm_checkbox := bind_nxm_checkbox panel |}
  | SetAutoBind checked =>
      {| logs_num_box := logs_num_box panel;
         log_level_box := log_level_box panel;
         app_lang_box := app_lang_box panel;
         accent_color_entry := accent_color_entry panel;
         confidence_box := confidence_box panel;
         bind_nxm_checkbox := checked |}
  end.

(** The panel after its construction and a run of edits *)
Definition panel_after (app_config : AppConfig) (edits : list Edit) : AppSettings :=
  fold_left apply_edit edits (AppSettings_init app_config).

End Settings.

(** [AppSettings.get_settings] (lines 117-125): a dictionary literal, its
    items in the order of the source *)
Definition get_settings (self : AppSettings) : list (string * SettingValue) :=
  [("keep_logs_num", SInt (Qt.sb_value (logs_num_box self)));
   ("log_level", SStr (PyStr.lower (Qt.cb_currentText (log_level_box self))));
   ("language", SStr (Qt.cb_currentText (app_lang_box self)));
   ("accent_color", SStr (accent_color_entry self));
   ("detector_confidence", SFloat (Qt.dsb_value (confidence_box self)));
   ("auto_bind_nxm", SBool (bind_nxm_checkbox self))].

(** The ranges that the constructor gives the two spin boxes, and that every
    later change of their values respects. *)
Definition spin_boxes_in_range (panel : AppSettings) : Prop :=
  (Qt.sb_minimum (logs_num_box panel) = -1 ∧
   Qt.sb_maximum (logs_num_box panel) = 100 ∧
   -1 ≤ Qt.sb_value (logs_num_box panel) ≤ 100)%Z ∧
  (0 <= Qt.dsb_minimum (confidence_box panel) ∧
   Qt.dsb_maximum (confidence_box panel) <= 1 ∧
   Qt.dsb_minimum (confidence_box panel) <= Qt.dsb_value (confidence_box panel) ∧
   Qt.dsb_value (confidence_box panel) <= Qt.dsb_maximum (confidence_box panel))%Q.

(** ** Sample data

    A small installation on which the properties below are exercised. *)

(** The letters of the ASCII alphabet *)
Definition is_letter (c : ascii) : bool :=
  let n := nat_of_ascii c in
  (Nat.leb 65 n && Nat.leb n 90) || (Nat.leb 97 n && Nat.leb n 122).

Module Sample.

Definition editor : AudioTranslationEditor :=
  mkEditor ["tools"; "BSArch.exe"] ["tools"; "BmlFuzDecode.exe"]
           ["tools"; "xWMAEncode.exe"] "http://localhost:8020/speakers_list" true.

(** Directory entries come in the order of the map. *)
Definition listing (A : Type) (l : list A) : list A := l.

(** A program that changes nothing and exits with code 1 *)
Definition failing_tool (cmd : list string) (f : gmap Path Node)
    : ProcOutcome * gmap Path Node := (Exited 1, f).

(** A program that changes nothing and exits with code 0 *)
Definition quiet_tool (cmd : list string) (f : gmap Path Node)
    : ProcOutcome * gmap Path Node := (Exited 0, f).

Definition script_dir : Path := ["app"; "translation_audio"].

(** A mod with an archive, and a mod with loose voice files three
    directories deep *)
Definition disk : gmap Path Node :=
  list_to_map
    [([], Dir); (["app"], Dir); (["app"; "translation_audio"], Dir);
     (["packed"], Dir); (["packed"; "Voices.BSA"], File "archive");
     (["packed"; "readme.txt"], File "text");
     (["loose"], Dir); (["loose"; "sound"], Dir); (["loose"; "sound"; "voice"], Dir);
     (["loose"; "sound"; "voice"; "npc"], Dir);
     (["loose"; "sound"; "voice"; "npc"; "line01.fuz"], File "fuz-1");
     (["loose"; "sound"; "voice"; "npc"; "line01.lip"], File "lip-1");
     (["loose"; "sound"; "voice"; "npc"; "line02.XWM"], File "xwm-2");
     (["loose"; "sound"; "voice"; "npc"; "notes.txt"], File "text")].

Definition world : World := mkWorld disk [] [].

(** Localisation files: two languages, and two entries beside them whose
    names have the shape of a language tag *)
Definition loc_disk : gmap Path Node :=
  list_to_map
    [([], Dir); (["loc"], Dir);
     (["loc"; "en_US"], Dir);
     (["loc"; "en_US"; "main.json"], File "{main}");
     (["loc"; "en_US"; "settings.json"], File "{settings}");
     (["loc"; "de_DE"], Dir);
     (["loc"; "12_34"], Dir);
     (["loc"; "ab_cd"], File "a file");
     (["loc"; "notes"], Dir)].

Definition loc_world : World := mkWorld loc_disk [] [].

Definition json_load (data : string) : Result (list (string * string)) :=
  if bool_decide (data = "{main}") then Ok [("title", "Hello"); ("quit", "Quit")]
  else if bool_decide (data = "{settings}") then Ok [("language", "Language")]
  else Raise JSONDecodeError.

(** The locale table knows German only. *)
Definition windows_locale (language_id : Z) : option string :=
  if bool_decide (language_id = 1031%Z) then Some "de_DE" else None.

(** What is inherited from [object]: the names between double underscores,
    and no ordinary name. *)
Definition object_attr (name : string) : option Value :=
  if PyStr.startswith name "__" && PyStr.endswith name "__"
  then Some (VMethod "object" name) else None.

(** A section fresh from its constructor: nothing is loaded into it. *)
Definition fresh_section : gmap string Value :=
  section_init (VLogger "Localisation") (VStr "main.json").

End Sample.

(** ** [audio_editor.py]: the constructor and its two checks

    The constructor asks the speech service for its list of speakers.  The
    answer of the network is a parameter: the request either gets a response
    with a status code, or fails before there is one (no connection, a
    malformed address, ...).  [requests] raises a [RequestException] in the
    second case, and [raise_for_status] raises one (an [HTTPError]) for the
    status codes 400 to 599; the text is the one the exception prints. *)

Inductive HttpOutcome :=
| Responded (status_code : Z) (error_text : string)
| RequestFailed (error_text : string).

(** [response.raise_for_status()] returns *)
Definition status_ok (status_code : Z) : bool :=
  negb ((400 <=? status_code)%Z && (status_code <? 600)%Z).

(** The world together with the addresses that were requested, oldest
    first. *)
Record NetWorld := mkNetWorld {
  net_world : World;
  net_requests : list string
}.

Definition lift_net {A} (m : M World A) : M NetWorld A := λ s,
  let '(r, w') := m (net_world s) in (r, mkNetWorld w' (net_requests s)).

(** An argument of the constructor: a string or a [Path] *)
Inductive PathArg :=
| ArgStr (s : string)
| ArgPath (p : Path).

(** [Path(a) if not isinstance(a, Path) else a] *)
Definition as_Path (a : PathArg) : Path :=
  match a with
  | ArgStr s => PyPath.parts_of s
  | ArgPath p => p
  end.

Section Construction.

Variable requests_get : string → HttpOutcome.

(** [validate_paths] (lines 34-44) *)
Definition validate_paths (self : AudioTranslationEditor) : M World bool :=
  bsarch_exists ← path_exists (bsarch_path self);
  if negb bsarch_exists then
    log_error ("BSArch path does not exist: " +:+ PyPath.str (bsarch_path self)) ;;
    mret false
  else
    bmlfuzdecode_exists ← path_exists (bmlfuzdecode_path self);
    if negb bmlfuzdecode_exists then
      log_error ("BmlFuzDecode path does not exist: "
                 +:+ PyPath.str (bmlfuzdecode_path self)) ;;
      mret false
    else
      xwmaencode_exists ← path_exists (xwmaencode_path self);
      if negb xwmaencode_exists then
        log_error ("xWMAEncode path does not exist: "
                   +:+ PyPath.str (xwmaencode_path self)) ;;
        mret false
      else mret true.

(** [requests.get(url)] followed by [response.raise_for_status()], under
    [except RequestException]: the text of the exception, if one is raised *)
Definition get_and_check (url : string) : M NetWorld (option string) := λ s,
  let s' := mkNetWorld (net_world s) (net_requests s ++ [url]) in
  match requests_get url with
  | Responded status_code error_text =>
      if status_ok status_code then (Ok None, s') else (Ok (Some error_text), s')
  | RequestFailed error_text => (Ok (Some error_text), s')
  end.

(** [check_if_xtts_is_running] (lines 46-59) *)
Definition check_if_xtts_is_running (self : AudioTranslationEditor) : M NetWorld bool :=
  e ← get_and_check (xtts_get_speakers_list self);
  match (e : option string) with
  | None => mret true
  | Some text =>
      lift_net (log_error ("Could not connect to XTTS API server: " +:+ text)) ;;
      mret false
  end.

(** [AudioTranslationEditor.__init__] (lines 22-32).  [and] evaluates its
    second operand only when the first is true. *)
Definition AudioTranslationEditor_init (bsarch bmlfuzdecode xwmaencode : PathArg)
    (xtts_url : string) : M NetWorld AudioTranslationEditor :=
  let self :=
    mkEditor (as_Path bsarch) (as_Path bmlfuzdecode) (as_Path xwmaencode)
             (xtts_url +:+ "/speakers_list") false in
  valid ← lift_net (validate_paths self);
  initialized ← (if (valid : bool) then check_if_xtts_is_running self else mret false);
  mret (mkEditor (bsarch_path self) (bmlfuzdecode_path self) (xwmaencode_path self)
          (xtts_get_speakers_list self) initialized).

End Construction.

(** ** [audio_editor.py]: [convert_audio_files] *)

Section Conversion.

Variable run_process : list string → gmap Path Node → ProcOutcome * gmap Path Node.
Variable scandir_order : ∀ A : Type, list A → list A.
Variable self : AudioTranslationEditor.

(** Is the suffix, in lower case, one that [convert_audio_files] acts on? *)
Definition is_convertible (file_path : Path) : bool :=
  bool_decide (PyStr.lower (PyPath.suffix file_path) ∈ [".fuz"; ".xwm"; ".lip"]).

(** The body of the inner loop (lines 167-176), for one file of one
    directory; the local variable [audio_files_found] is the accumulator. *)
Definition convert_file (subdir : Path) (audio_files_found : bool) (file : string)
    : M World bool :=
  let file_path := PyPath.div subdir file in
  if bool_decide (PyStr.lower (PyPath.suffix file_path) = ".fuz") then
    decode_fuz run_process self file_path ;; mret true
  else if bool_decide (PyStr.lower (PyPath.suffix file_path) = ".xwm") then
    convert_xwm run_process self file_path ;; mret true
  else if bool_decide (PyStr.lower (PyPath.suffix file_path) = ".lip") then
    delete_file file_path ;; mret true
  else mret audio_files_found.

(** [for subdir, _, files in os.walk(top): for file in files: body], with the
    walk as lazy as it is: a directory is listed when the walk reaches it,
    after the body has run for everything that was listed before, its files
    are handed to the body, and then the walk goes down into the directories
    of that listing, one after the other; a path that is no directory (any
    more) yields nothing.  The body changes the file system while the walk
    is under way, and the programs it starts may make the tree deeper
    without end, so the depth of the walk is bounded by [fuel]; [None] says
    that the bound was reached. *)
Fixpoint walk_fold {B} (fuel : nat) (body : Path → B → string → M World B)
    (top : Path) (acc : B) : M World (option B) := λ w,
  match fs w !! top with
  | Some Dir =>
      match fuel with
      | O => (Ok None, w)
      | S fuel' =>
          let names := scandir_order _ (PyFS.children (fs w) top) in
          let dirs := List.filter (λ n, PyFS.is_dir (fs w) (top ++ [n])) names in
          let files := List.filter (λ n, negb (PyFS.is_dir (fs w) (top ++ [n]))) names in
          (acc' ← for_fold files acc (body top);
           for_fold dirs (Some acc')
             (λ (r : option B) d,
                match r with
                | Some a => walk_fold fuel' body (top ++ [d]) a
                | None => mret None
                end)) w
      end
  | _ => (Ok (Some acc), w)
  end.

(** [convert_audio_files] (lines 155-181) *)
Definition convert_audio_files (fuel : nat) (extract_path : Path) : M World (option bool) :=
  audio_files_found ← walk_fold fuel convert_file extract_path false;
  match (audio_files_found : option bool) with
  | Some true => mret (Some true)
  | Some false =>
      log_error ("No .bsa or .fuz/.xwm files found in " +:+ PyPath.str extract_path) ;;
      mret (Some false)
  | None => mret None
  end.

(** No program can be started (the tools are not installed). *)
Definition programs_missing : Prop :=
  ∀ cmd f, ∃ errno f', run_process cmd f = (NotStarted errno, f').

End Conversion.

(** ** [localisation.py]: what a loaded section answers *)

(** The last value that the items give a key *)
Definition last_value (items : list (string * string)) (key : string) : option string :=
  snd <$> List.find (λ kv, bool_decide (kv.1 = key)) (rev items).

(** More sample data: tools that are not installed, a locale table that
    knows French only, and two configurations of the settings panel. *)

Module SampleMore.

(** No program can be started. *)
Definition missing_tool (cmd : list string) (f : gmap Path Node)
    : ProcOutcome * gmap Path Node := (NotStarted "ENOENT", f).

Definition windows_locale_fr (language_id : Z) : option string :=
  if bool_decide (language_id = 1036%Z) then Some "fr_FR" else None.

Definition LOG_LEVELS_values : list string :=
  ["debug"; "info"; "warning"; "error"; "critical"].

Definition available_langs : list string := ["de_DE"; "en_US"].

(** A configuration that the widgets can show *)
Definition app_config : AppConfig :=
  mkAppConfig 5 "info" "de_DE" "#8197ec" (80 # 100) false.


(** The English files, with one more that does not parse *)
Definition broken_disk : gmap Path Node :=
  <[["loc"; "en_US"; "broken.json"] := File "{oops"]> Sample.loc_disk.

Definition broken_world : World := mkWorld broken_disk [] [].

End SampleMore.
(** * Properties *)

(** ** Evaluating the path and string operations *)

Example suffix_ex1 : PyPath.suffix ["Sound"; "Voice"; "line01.FUZ"] = ".FUZ".
Proof. reflexivity. Qed.
Example suffix_ex2 : PyPath.suffix ["a"; ".bsa"] = "".
Proof. reflexivity. Qed.
Example suffix_ex3 : PyPath.suffix ["a"; "archive.tar.bsa"] = ".bsa".
Proof. reflexivity. Qed.
Example suffix_ex4 : PyPath.suffix ["a"; "dot."] = "".
Proof. reflexivity. Qed.
Example with_suffix_ex1 :
  PyPath.with_suffix ["v"; "line01.fuz"] ".xwm" = Some ["v"; "line01.xwm"].
Proof. reflexivity. Qed.
Example with_suffix_ex2 : PyPath.with_suffix ["v"; "line01"] ".wav" = Some ["v"; "line01.wav"].
Proof. reflexivity. Qed.
Example with_suffix_ex3 : PyPath.with_suffix [] ".wav" = None.
Proof. reflexivity. Qed.
Example div_ex1 : PyPath.div ["app"; "loc"] "en_US" = ["app"; "loc"; "en_US"].
Proof. reflexivity. Qed.
Example div_ex2 : PyPath.div ["app"; "loc"] "a/./b//c" = ["app"; "loc"; "a"; "b"; "c"].
Proof. reflexivity. Qed.
Example fnmatch_ex1 : PyStr.fnmatch "??_??" "en_US" = true.
Proof. reflexivity. Qed.
Example fnmatch_ex2 : PyStr.fnmatch "*.json" "main.page.json" = true.
Proof. reflexivity. Qed.
Example fnmatch_ex3 : PyStr.fnmatch "*.json" "main.jsonx" = false.
Proof. reflexivity. Qed.
Example ancestors_ex : PyPath.ancestors ["a"; "b"] = [[]; ["a"]].
Proof. reflexivity. Qed.

(** ** Reasoning about [M] *)

Section MonadLaws.

Context {S : Type}.

Lemma bind_ok {A B} (m : M S A) (k : A → M S B) s a s' :
  m s = (Ok a, s') → (m ≫= k) s = k a s'.
Proof. intros H. unfold mbind, M_bind. by rewrite H. Qed.

Lemma bind_raise {A B} (m : M S A) (k : A → M S B) s e s' :
  m s = (Raise e, s') → (m ≫= k) s = (Raise e, s').
Proof. intros H. unfold mbind, M_bind. by rewrite H. Qed.

Lemma bind_ret {A B} (a : A) (k : A → M S B) s : (mret a ≫= k) s = k a s.
Proof. reflexivity. Qed.

Lemma or_raise_Some {A} (a : A) e : or_raise (S := S) (Some a) e = mret a.
Proof. reflexivity. Qed.

Lemma try_ok {A} (body : M S A) catch handler s a s' :
  body s = (Ok a, s') → try_except body catch handler s = (Ok a, s').
Proof. intros H. unfold try_except. by rewrite H. Qed.

Lemma try_caught {A} (body : M S A) catch handler s e s' :
  body s = (Raise e, s') → catch e = true →
  try_except body catch handler s = handler e s'.
Proof. intros H Hc. unfold try_except. by rewrite H, Hc. Qed.

Lemma try_uncaught {A} (body : M S A) catch handler s e s' :
  body s = (Raise e, s') → catch e = false →
  try_except body catch handler s = (Raise e, s').
Proof. intros H Hc. unfold try_except. by rewrite H, Hc. Qed.

End MonadLaws.

Lemma is_file_remove_file p f : PyFS.is_file (remove_file p f) p = false.
Proof.
  unfold remove_file. destruct (PyFS.is_file f p) eqn:E; [|done].
  unfold PyFS.is_file. by rewrite lookup_delete_eq.
Qed.

Lemma is_file_remove_file_other p q f :
  PyFS.is_file f p = false → PyFS.is_file (remove_file q f) p = false.
Proof.
  intros H. unfold remove_file. destruct (PyFS.is_file f q); [|done].
  unfold PyFS.is_file in *. destruct (decide (q = p)) as [->|Hne].
  - by rewrite lookup_delete_eq.
  - by rewrite lookup_delete_ne.
Qed.

Section AudioEditorFacts.

Variable run_process : list string → gmap Path Node → ProcOutcome * gmap Path Node.
Variable self : AudioTranslationEditor.

(** [delete_file] never raises; it changes nothing but the file system (as
    [remove_file] says) and the log. *)
Lemma delete_file_spec p w :
  ∃ w', delete_file p w = (Ok tt, w') ∧
        fs w' = remove_file p (fs w) ∧ calls w' = calls w.
Proof.
  unfold delete_file, remove_file, PyFS.is_file, try_except, PyFS.unlink.
  unfold mbind, M_bind.
  destruct (fs w !! p) as [[|data]|] eqn:E; cbn; eauto.
Qed.

End AudioEditorFacts.

(** ** Facts about names and suffixes *)

Section NameFacts.

Lemma app_cons c a b : String c a +:+ b = String c (a +:+ b).
Proof. reflexivity. Qed.

Lemma app_nil b : "" +:+ b = b.
Proof. reflexivity. Qed.

Lemma len_app a b : PyStr.len (a +:+ b) = PyStr.len a + PyStr.len b.
Proof.
  unfold PyStr.len. induction a as [|c a IH]; [done|].
  rewrite app_cons. cbn. by rewrite IH.
Qed.

Lemma drop_app_len a b : PyStr.drop (PyStr.len a) (a +:+ b) = b.
Proof.
  induction a as [|c a IH]; [by destruct b|]. by rewrite app_cons.
Qed.

Lemma len_take i s : i ≤ PyStr.len s → PyStr.len (PyStr.take i s) = i.
Proof.
  revert i. induction s as [|c s IH]; intros [|i] H; cbn in *; try done; try lia.
  rewrite IH; [done|]. unfold PyStr.len in *. lia.
Qed.

Lemma len_drop i s : PyStr.len (PyStr.drop i s) = PyStr.len s - i.
Proof.
  revert i. induction s as [|c s IH]; intros [|i]; cbn; try done.
Qed.

Lemma rfind_app ch a b :
  PyStr.rfind ch (a +:+ b) =
  match PyStr.rfind ch b with
  | Some j => Some (PyStr.len a + j)
  | None => PyStr.rfind ch a
  end.
Proof.
  induction a as [|c a IH].
  - rewrite app_nil. by destruct (PyStr.rfind ch b).
  - rewrite app_cons. cbn. rewrite IH. by destruct (PyStr.rfind ch b).
Qed.

Lemma rfind_lt ch s i : PyStr.rfind ch s = Some i → i < PyStr.len s.
Proof.
  revert i. induction s as [|c s IH]; intros i; cbn; [done|].
  destruct (PyStr.rfind ch s) as [j|].
  - intros [= <-]. specialize (IH j eq_refl). unfold PyStr.len in *. lia.
  - case_bool_decide; [|done]. intros [= <-]. lia.
Qed.

Lemma len_0 s : PyStr.len s = 0 → s = "".
Proof. by destruct s. Qed.

(** Appending a suffix (a dot followed by characters other than dots) to a
    name makes it the suffix of the result. *)
Lemma suffix_of_name_app base sfx :
  base ≠ "" → PyStr.rfind "."%char sfx = Some 0 → 2 ≤ PyStr.len sfx →
  PyPath.suffix_of_name (base +:+ sfx) = sfx.
Proof.
  intros Hbase Hdot Hlen.
  assert (0 < PyStr.len base) as Hpos.
  { destruct (PyStr.len base) eqn:E; [|lia]. by apply len_0 in E. }
  unfold PyPath.suffix_of_name, PyPath.suffix_at.
  rewrite rfind_app, Hdot, Nat.add_0_r, len_app.
  replace (0 <? PyStr.len base)%nat with true by (symmetry; apply Nat.ltb_lt; lia).
  replace (PyStr.len base <? PyStr.len base + PyStr.len sfx - 1)%nat with true
    by (symmetry; apply Nat.ltb_lt; lia).
  cbn. apply drop_app_len.
Qed.

(** The part of a name that [with_suffix] keeps is not empty. *)
Lemma with_suffix_base_nonempty nm :
  nm ≠ "" →
  (if bool_decide (PyPath.suffix_of_name nm = "") then nm
   else PyStr.take (PyStr.len nm - PyStr.len (PyPath.suffix_of_name nm)) nm) ≠ "".
Proof.
  intros Hnm. case_bool_decide as Hs; [done|].
  unfold PyPath.suffix_of_name, PyPath.suffix_at in *.
  destruct (PyStr.rfind "."%char nm) as [i|] eqn:Hr; [|done].
  destruct (Nat.ltb_spec 0 i) as [H0|]; [|done].
  destruct (Nat.ltb_spec i (PyStr.len nm - 1)) as [H1|]; [|done]. cbn [andb] in *.
  rewrite len_drop. intros Hempty.
  assert (PyStr.len (PyStr.take (PyStr.len nm - (PyStr.len nm - i)) nm) = 0)
    as Hl by by rewrite Hempty.
  rewrite len_take in Hl; lia.
Qed.

Lemma parent_snoc (p : Path) x : PyPath.parent (p ++ [x]) = p.
Proof. apply removelast_last. Qed.

Lemma name_snoc (p : Path) x : PyPath.name (p ++ [x]) = x.
Proof. apply last_last. Qed.

(** [with_suffix] on a path with a name: the result lies in the same
    directory and carries the new suffix. *)
Lemma with_suffix_spec p sfx :
  PyPath.name p ≠ "" → PyStr.rfind "."%char sfx = Some 0 → 2 ≤ PyStr.len sfx →
  ∃ q, PyPath.with_suffix p sfx = Some q ∧
       PyPath.parent q = PyPath.parent p ∧ PyPath.suffix q = sfx ∧
       PyPath.name q ≠ "".
Proof.
  intros Hnm Hdot Hlen. unfold PyPath.with_suffix.
  rewrite bool_decide_eq_false_2 by done.
  eexists. split; [done|]. rewrite parent_snoc. split; [done|].
  unfold PyPath.suffix. rewrite name_snoc.
  pose proof (with_suffix_base_nonempty _ Hnm) as Hb.
  case_bool_decide.
  - split; [by apply suffix_of_name_app|]. by destruct (PyPath.name p).
  - split; [by apply suffix_of_name_app|].
    intros E. apply (f_equal PyStr.len) in E. rewrite len_app in E. cbn in E. lia.
Qed.

End NameFacts.

(** ** [convert_xwm] and [decode_fuz] *)

Section ConversionFacts.

Variable run_process : list string → gmap Path Node → ProcOutcome * gmap Path Node.
Variable self : AudioTranslationEditor.

(** [subprocess.run(cmd, check=True)] under [except CalledProcessError],
    for a program that ran to its end. *)
Lemma run_try {A} cmd w code f' (k : unit → M World A) (h : Exn → M World A) :
  run_process cmd (fs w) = (Exited code, f') →
  try_except (subprocess_run_check run_process cmd ≫= k) is_CalledProcessError h w =
  if bool_decide (code = 0%Z)
  then try_except (k tt) is_CalledProcessError h (add_call cmd (set_fs f' w))
  else h (CalledProcessError code cmd) (add_call cmd (set_fs f' w)).
Proof.
  intros Hrun. unfold try_except, mbind, M_bind, subprocess_run_check.
  rewrite Hrun. by case_bool_decide.
Qed.

(** A program that ran to its end, whatever its exit code, lets
    [subprocess_run_check] wrapped in [except CalledProcessError] return. *)
Lemma run_caught cmd w code f' (ok : M World unit) (failed : Exn → M World unit) :
  run_process cmd (fs w) = (Exited code, f') →
  (∀ w0, ∃ w1, ok w0 = (Ok tt, w1) ∧ fs w1 = fs w0 ∧ calls w1 = calls w0) →
  (∀ e w0, ∃ w1, failed e w0 = (Ok tt, w1) ∧ fs w1 = fs w0 ∧ calls w1 = calls w0) →
  ∃ w', try_except (subprocess_run_check run_process cmd ;; ok)
          is_CalledProcessError failed w = (Ok tt, w') ∧
        fs w' = f' ∧ calls w' = calls w ++ [cmd].
Proof.
  intros Hrun Hok Hfailed.
  unfold try_except, mbind, M_bind, subprocess_run_check. rewrite Hrun.
  case_bool_decide; cbn.
  - destruct (Hok (add_call cmd (set_fs f' w))) as (w1 & -> & Hf & Hc).
    exists w1. by rewrite Hf, Hc.
  - destruct (Hfailed (CalledProcessError code cmd) (add_call cmd (set_fs f' w)))
      as (w1 & -> & Hf & Hc).
    exists w1. by rewrite Hf, Hc.
Qed.

Tactic Notation "run_caught_in_goal" constr(w) constr(code) constr(f') constr(Hrun)
    "as" simple_intropattern(H) :=
  lazymatch goal with
  | |- context [try_except (_ ≫= λ _, ?ok) _ ?h] =>
      destruct (run_caught _ w code f' ok h Hrun) as H;
      [intros; by eexists | intros; by eexists |]
  end.

Lemma log_msg_spec logger lvl msg w0 :
  ∃ w1, log_msg logger lvl msg w0 = (Ok tt, w1) ∧ fs w1 = fs w0 ∧ calls w1 = calls w0.
Proof. by eexists. Qed.

(** [if p.exists(): self.delete_file(p)] acts on the file system as
    [delete_file] alone does. *)
Lemma when_exists_delete_spec p w :
  ∃ w', when_ (PyFS.exists_ (fs w) p) (delete_file p) w = (Ok tt, w') ∧
        fs w' = remove_file p (fs w) ∧ calls w' = calls w.
Proof.
  destruct (PyFS.exists_ (fs w) p) eqn:Hex; cbn.
  - apply delete_file_spec.
  - exists w. repeat split; try done.
    unfold remove_file, PyFS.is_file. unfold PyFS.exists_ in Hex.
    apply bool_decide_eq_false in Hex.
    destruct (fs w !! p) eqn:E; [|done]. destruct Hex. by eexists.
Qed.

(** The encoder ran to its end: [convert_xwm] returns, has started exactly
    that one program, and has removed the input. *)
Lemma convert_xwm_spec file_path wav_file w code f' :
  PyPath.with_suffix file_path ".wav" = Some wav_file →
  run_process [PyPath.str (xwmaencode_path self); PyPath.str file_path;
               PyPath.str wav_file] (fs w) = (Exited code, f') →
  ∃ w', convert_xwm run_process self file_path w = (Ok tt, w') ∧
        calls w' = calls w ++ [[PyPath.str (xwmaencode_path self);
                                PyPath.str file_path; PyPath.str wav_file]] ∧
        fs w' = remove_file file_path f'.
Proof.
  intros Hwav Hrun. unfold convert_xwm. rewrite Hwav, or_raise_Some, bind_ret.
  run_caught_in_goal w code f' Hrun as (w1 & Hw1 & Hf1 & Hc1).
  erewrite bind_ok; [|exact Hw1].
  destruct (delete_file_spec file_path w1) as (w2 & Hw2 & Hf2 & Hc2).
  exists w2. by rewrite Hw2, Hf2, Hc2, Hf1, Hc1.
Qed.

(** C1. For every path that names a file, [convert_xwm] starts the encoder
    with an output path that lies beside the input and ends in [.wav]; and
    whatever the exit code of the encoder, zero or not, it then returns,
    having started that one program and having deleted the input: no regular
    file is left at the input path. *)
Theorem convert_xwm_deletes_input (file_path : Path) (w : World) :
  PyPath.name file_path ≠ "" →
  ∃ wav_file,
    PyPath.with_suffix file_path ".wav" = Some wav_file ∧
    PyPath.parent wav_file = PyPath.parent file_path ∧
    PyPath.suffix wav_file = ".wav" ∧
    ∀ code f',
      run_process [PyPath.str (xwmaencode_path self); PyPath.str file_path;
                   PyPath.str wav_file] (fs w) = (Exited code, f') →
      ∃ w', convert_xwm run_process self file_path w = (Ok tt, w') ∧
            calls w' = calls w ++ [[PyPath.str (xwmaencode_path self);
                                    PyPath.str file_path; PyPath.str wav_file]] ∧
            fs w' = remove_file file_path f' ∧
            PyFS.is_file (fs w') file_path = false.
Proof.
  intros Hname.
  destruct (with_suffix_spec file_path ".wav" Hname) as (wav & Hwav & Hpar & Hsfx & _);
    [done | cbn; lia |].
  exists wav. repeat split; try done.
  intros code f' Hrun.
  destruct (convert_xwm_spec _ _ _ _ _ Hwav Hrun) as (w' & Hw' & Hc & Hf).
  exists w'. repeat split; try done. rewrite Hf. apply is_file_remove_file.
Qed.

(** C2. For every path whose suffix is [.fuz] (in any case), and programs
    that run to their end with whatever exit code: [decode_fuz] returns; no
    regular file is left at the [.fuz] path nor at the [.lip] path of the same
    stem; when the [.xwm] path of the same stem exists after the decoder has
    run, [convert_xwm] is run on it (and leaves no regular file there), and
    otherwise the decoder is the only program started. *)
Theorem decode_fuz_deletes_input (file_path : Path) (w : World) :
  PyStr.lower (PyPath.suffix file_path) = ".fuz" →
  programs_exit run_process →
  ∃ xwm_file lip_file code f1 w',
    PyPath.with_suffix file_path ".xwm" = Some xwm_file ∧
    PyPath.with_suffix file_path ".lip" = Some lip_file ∧
    run_process [PyPath.str (bmlfuzdecode_path self); PyPath.str file_path] (fs w)
      = (Exited code, f1) ∧
    decode_fuz run_process self file_path w = (Ok tt, w') ∧
    PyFS.is_file (fs w') file_path = false ∧
    PyFS.is_file (fs w') lip_file = false ∧
    if PyFS.exists_ f1 xwm_file then
      ∃ w1 w2,
        fs w1 = f1 ∧
        calls w1 = calls w ++ [[PyPath.str (bmlfuzdecode_path self); PyPath.str file_path]] ∧
        convert_xwm run_process self xwm_file w1 = (Ok tt, w2) ∧
        fs w' = remove_file lip_file (remove_file file_path (fs w2)) ∧
        calls w' = calls w2 ∧
        PyFS.is_file (fs w') xwm_file = false
    else
      fs w' = remove_file lip_file (remove_file file_path f1) ∧
      calls w' = calls w ++ [[PyPath.str (bmlfuzdecode_path self); PyPath.str file_path]].
Proof.
  intros Hfuz Hexit.
  assert (PyPath.name file_path ≠ "") as Hname.
  { intros E. unfold PyPath.suffix in Hfuz. by rewrite E in Hfuz. }
  destruct (with_suffix_spec file_path ".xwm" Hname) as (xwm & Hxwm & _ & _ & Hxname);
    [done | cbn; lia |].
  destruct (with_suffix_spec file_path ".lip" Hname) as (lip & Hlip & _ & _ & _);
    [done | cbn; lia |].
  destruct (Hexit [PyPath.str (bmlfuzdecode_path self); PyPath.str file_path] (fs w))
    as (code & f1 & Hrun).
  assert (∃ w1 k, decode_fuz run_process self file_path w = k w1 ∧
                   (∀ w0, k w0 =
                      (xwm_file ← or_raise (PyPath.with_suffix file_path ".xwm")
                                    (ValueError "empty name");
                       xwm_exists ← path_exists xwm_file;
                       when_ xwm_exists (convert_xwm run_process self xwm_file) ;;
                       delete_file file_path ;;
                       lip_file ← or_raise (PyPath.with_suffix file_path ".lip")
                                    (ValueError "empty name");
                       lip_exists ← path_exists lip_file;
                       when_ lip_exists (delete_file lip_file)) w0) ∧
                   fs w1 = f1 ∧
                   calls w1 = calls w ++ [[PyPath.str (bmlfuzdecode_path self);
                                           PyPath.str file_path]])
    as (w1 & k & Hstart & Hk & Hf1 & Hc1).
  { unfold decode_fuz.
    run_caught_in_goal w code f1 Hrun as (w1 & Hw1 & Hf1 & Hc1).
    erewrite bind_ok; [|exact Hw1]. eexists w1, _. split; [reflexivity|]. done. }
  (* the conversion of the companion file, when there is one *)
  assert (∃ w2, when_ (PyFS.exists_ (fs w1) xwm) (convert_xwm run_process self xwm) w1
                  = (Ok tt, w2) ∧
                if PyFS.exists_ f1 xwm then
                  convert_xwm run_process self xwm w1 = (Ok tt, w2) ∧
                  PyFS.is_file (fs w2) xwm = false
                else w2 = w1) as (w2 & Hw2 & Hconv).
  { rewrite Hf1. destruct (PyFS.exists_ f1 xwm) eqn:Hex; cbn; [|by eexists].
    destruct (with_suffix_spec xwm ".wav" Hxname) as (wav & Hwav & _); [done | cbn; lia |].
    destruct (Hexit [PyPath.str (xwmaencode_path self); PyPath.str xwm; PyPath.str wav]
                (fs w1)) as (code2 & f2 & Hrun2).
    destruct (convert_xwm_spec _ _ _ _ _ Hwav Hrun2) as (w2 & Hw2 & _ & Hf2).
    exists w2. repeat split; try done. rewrite Hf2. apply is_file_remove_file. }
  destruct (delete_file_spec file_path w2) as (w3 & Hw3 & Hf3 & Hc3).
  destruct (when_exists_delete_spec lip w3) as (w4 & Hw4 & Hf4 & Hc4).
  assert (decode_fuz run_process self file_path w = (Ok tt, w4)) as Hrun_all.
  { rewrite Hstart, Hk, Hxwm, or_raise_Some, bind_ret.
    erewrite (bind_ok (path_exists xwm)); [|reflexivity].
    erewrite bind_ok; [|exact Hw2].
    erewrite bind_ok; [|exact Hw3].
    rewrite Hlip, or_raise_Some, bind_ret.
    erewrite (bind_ok (path_exists lip)); [|reflexivity]. exact Hw4. }
  exists xwm, lip, code, f1, w4. repeat split; try done.
  - rewrite Hf4, Hf3. apply is_file_remove_file_other, is_file_remove_file.
  - rewrite Hf4. apply is_file_remove_file.
  - destruct (PyFS.exists_ f1 xwm).
    + destruct Hconv as [Hconv Hgone]. exists w1, w2. repeat split; try done.
      * by rewrite Hf4, Hf3.
      * by rewrite Hc4, Hc3.
      * rewrite Hf4, Hf3. by do 2 apply is_file_remove_file_other.
    + subst w2. split.
      * by rewrite Hf4, Hf3, Hf1.
      * by rewrite Hc4, Hc3, Hc1.
Qed.

End ConversionFacts.

(** ** Facts about the file-system operations *)

Section FsFacts.

Implicit Types (f : gmap Path Node) (p k : Path) (n : string).

Lemma relative_to_spec k p rel : PyPath.relative_to k p = Some rel ↔ k = p ++ rel.
Proof.
  revert k. induction p as [|c p IH]; intros k; cbn.
  - split; [by intros [= ->]|by intros ->].
  - destruct k as [|c' k]; [done|]. case_bool_decide as Hc.
    + subst c'. rewrite IH. split; [by intros ->|by intros [= ->]].
    + split; [done|]. intros [= -> _]. done.
Qed.

Lemma child_name_spec p k n : PyFS.child_name p k = Some n ↔ k = p ++ [n].
Proof.
  unfold PyFS.child_name.
  destruct (PyPath.relative_to k p) as [rel|] eqn:E.
  - apply relative_to_spec in E as ->.
    destruct rel as [|n' [|]]; split; try done.
    + intros H. apply (f_equal length) in H. rewrite !length_app in H. cbn in H. lia.
    + by intros [= ->].
    + by intros [= ->]%app_inv_head.
    + intros H. apply app_inv_head in H. done.
  - split; [done|]. intros ->.
    assert (PyPath.relative_to (p ++ [n]) p = Some [n]) as H by by apply relative_to_spec.
    congruence.
Qed.

Lemma children_spec f p n : In n (PyFS.children f p) ↔ is_Some (f !! (p ++ [n])).
Proof.
  unfold PyFS.children. rewrite <- list_elem_of_In, list_elem_of_omap. split.
  - intros (k & Hk & Hn). apply child_name_spec in Hn as ->.
    apply list_elem_of_fmap in Hk as ([k' x] & -> & Hx).
    apply elem_of_map_to_list in Hx. by eexists.
  - intros [x Hx]. exists (p ++ [n]). split; [|by apply child_name_spec].
    apply list_elem_of_fmap. exists (p ++ [n], x). split; [done|].
    by apply elem_of_map_to_list.
Qed.

Lemma prefix_snoc_inv (a b : Path) x : a `prefix_of` b ++ [x] → a `prefix_of` b ∨ a = b ++ [x].
Proof.
  intros [r Hr]. destruct (decide (r = [])) as [->|Hne].
  - right. by rewrite app_nil_r in Hr.
  - left. destruct (exists_last Hne) as (r' & y & ->).
    rewrite app_assoc in Hr. apply app_inj_tail in Hr as [-> _]. by eexists.
Qed.

(** [mkdir(exist_ok=True)] where nothing is in the way *)
Lemma mkdir_exist_ok_fresh p w :
  fs w !! p = None → fs w !! PyPath.parent p = Some Dir →
  PyFS.mkdir_exist_ok p w = (Ok tt, set_fs (<[p := Dir]> (fs w)) w).
Proof.
  intros Hp Hpar. unfold PyFS.mkdir_exist_ok, try_except, PyFS.os_mkdir.
  by rewrite Hp, Hpar.
Qed.

(** [mkdir(exist_ok=True)] on a directory *)
Lemma mkdir_exist_ok_dir p w :
  fs w !! p = Some Dir → PyFS.mkdir_exist_ok p w = (Ok tt, w).
Proof.
  intros Hp. unfold PyFS.mkdir_exist_ok, try_except, PyFS.os_mkdir, PyFS.is_dir.
  rewrite Hp. cbn. by rewrite bool_decide_eq_true_2.
Qed.

Lemma bind_path_exists {B} p (k : bool → M World B) w :
  (path_exists p ≫= k) w = k (PyFS.exists_ (fs w) p) w.
Proof. reflexivity. Qed.

Lemma bind_path_is_dir {B} p (k : bool → M World B) w :
  (path_is_dir p ≫= k) w = k (PyFS.is_dir (fs w) p) w.
Proof. reflexivity. Qed.

End FsFacts.


(** ** Loops *)

Section LoopFacts.

Context {S A B : Type}.

Lemma for_fold_app (l1 l2 : list A) (acc : B) (body : B → A → M S B) s :
  for_fold (l1 ++ l2) acc body s =
  (acc' ← for_fold l1 acc body; for_fold l2 acc' body) s.
Proof.
  revert acc s. induction l1 as [|x l1 IH]; intros acc s; [done|].
  cbn [for_fold app]. unfold mbind, M_bind in *.
  destruct (body acc x s) as [[acc'|e] s']; [apply IH|done].
Qed.

(** A loop whose every round keeps an invariant and moves the state along
    a preorder returns, and what a round has established and the preorder
    preserves still holds at the end. *)
Lemma for_fold_invariant (Inv : B → S → Prop) (R : B * S → B * S → Prop)
    `{!PreOrder R} (Post : A → B → S → Prop) (l : list A) (body : B → A → M S B) :
  (∀ x acc s, In x l → Inv acc s →
     ∃ acc' s', body acc x s = (Ok acc', s') ∧ Inv acc' s' ∧
                R (acc, s) (acc', s') ∧ Post x acc' s') →
  (∀ x acc s acc' s', Post x acc s → R (acc, s) (acc', s') → Post x acc' s') →
  ∀ acc s, Inv acc s →
    ∃ acc' s', for_fold l acc body s = (Ok acc', s') ∧ Inv acc' s' ∧
               R (acc, s) (acc', s') ∧ ∀ x, In x l → Post x acc' s'.
Proof.
  intros Hstep Hstable. induction l as [|x l IH]; intros acc s HI.
  - exists acc, s. repeat split; try done.
  - destruct (Hstep x acc s) as (acc1 & s1 & Hb & HI1 & HR1 & HP1); [by left|done|].
    destruct IH with (acc := acc1) (s := s1) as (acc2 & s2 & Hl & HI2 & HR2 & HP2).
    { intros y acc' s' Hy. apply Hstep. by right. }
    { done. }
    exists acc2, s2. cbn [for_fold]. erewrite bind_ok; [|exact Hb].
    repeat split; try done.
    + by etrans.
    + intros y [<-|Hy]; [by eapply Hstable|by apply HP2].
Qed.

End LoopFacts.

(** The two nested loops of [find_audio_files] are one loop over the pairs
    of a directory and one of its files. *)
Lemma for_fold_nested {S B} (walk : list (Path * list string * list string))
    (acc : B) (body : Path → B → string → M S B) s :
  for_fold walk acc (λ acc '(root, _, files), for_fold files acc (body root)) s =
  for_fold (flat_map (λ '(root, _, files), List.map (pair root) files) walk) acc
    (λ acc '(root, file), body root acc file) s.
Proof.
  revert acc s. induction walk as [|[[root dirs] files] walk IH]; intros acc s; [done|].
  cbn [for_fold flat_map]. rewrite for_fold_app. unfold mbind, M_bind.
  assert (∀ acc s, for_fold (List.map (pair root) files) acc
                     (λ acc '(root, file), body root acc file) s
                   = for_fold files acc (body root) s) as ->.
  { clear. induction files as [|file files IH]; intros acc s; [done|].
    cbn [for_fold List.map]. unfold mbind, M_bind.
    destruct (body root acc file s) as [[acc'|e] s']; [apply IH|done]. }
  destruct (for_fold files acc (body root) s) as [[acc'|e] s']; [apply IH|done].
Qed.

(** ** Well-formed file systems and directory walks *)

Section WalkFacts.

Implicit Types (f : gmap Path Node) (p k : Path) (n : string).

Lemma ancestors_spec (a p : Path) : In a (PyPath.ancestors p) ↔ a `prefix_of` p ∧ a ≠ p.
Proof.
  revert a. induction p as [|c p IH]; intros a; cbn.
  - split; [done|]. intros [[r Hr] Hne]. destruct a; [done|]. discriminate.
  - split.
    + intros [<-|Hin]; [split; [apply prefix_nil|done]|].
      apply in_map_iff in Hin as (a' & <- & Ha'). apply IH in Ha' as [Hpre Hne].
      split; [by apply prefix_cons|]. by intros [= ->].
    + intros [Hpre Hne]. destruct a as [|c' a]; [by left|]. right.
      pose proof (prefix_cons_inv_1 _ _ _ _ Hpre) as ->.
      apply prefix_cons_inv_2 in Hpre. apply in_map_iff. exists a. split; [done|].
      apply IH. split; [done|]. by intros ->.
Qed.

Lemma fs_wf_spec f k :
  fs_wf f = true → is_Some (f !! k) →
  Forall (λ n, PyPath.plain_name n = true) k ∧
  ∀ a, a `prefix_of` k → a ≠ k → f !! a = Some Dir.
Proof.
  unfold fs_wf. rewrite forallb_forall. intros Hwf [x Hx].
  specialize (Hwf k). rewrite andb_true_iff, !forallb_forall in Hwf.
  destruct Hwf as [Hplain Hanc].
  { rewrite <- list_elem_of_In. apply list_elem_of_fmap. exists (k, x).
    split; [done|]. by apply elem_of_map_to_list. }
  split.
  - apply Forall_forall. intros n Hn. apply Hplain. by apply list_elem_of_In.
  - intros a Hpre Hne. specialize (Hanc a). unfold PyFS.is_dir in Hanc.
    rewrite bool_decide_eq_true in Hanc. apply Hanc, ancestors_spec. done.
Qed.

Lemma walk_reaches_spec f top k :
  PyFS.walk_reaches f top k = true ↔
  ∃ rel, k = top ++ rel ∧ ∀ pre, pre `prefix_of` rel → f !! (top ++ pre) = Some Dir.
Proof.
  unfold PyFS.walk_reaches.
  destruct (PyPath.relative_to k top) as [rel|] eqn:E.
  - apply relative_to_spec in E as ->.
    rewrite andb_true_iff, forallb_forall. unfold PyFS.is_dir. split.
    + intros [Hanc Hk]. exists rel. split; [done|]. intros pre Hpre.
      destruct (decide (pre = rel)) as [->|Hne]; [by rewrite bool_decide_eq_true in Hk|].
      specialize (Hanc pre). rewrite bool_decide_eq_true in Hanc.
      apply Hanc, ancestors_spec. done.
    + intros (rel' & ->%app_inv_head & Hall). split.
      * intros a [Hpre _]%ancestors_spec. rewrite bool_decide_eq_true. by apply Hall.
      * rewrite bool_decide_eq_true. by apply Hall.
  - split; [done|]. intros (rel & -> & _).
    assert (PyPath.relative_to (top ++ rel) top = Some rel) as H by by apply relative_to_spec.
    congruence.
Qed.

Lemma split_sep_plain n : PyStr.contains "/"%char n = false → PyPath.split_sep n = [n].
Proof.
  induction n as [|c n IH]; [done|]. cbn. intros [Hc Hn]%orb_false_iff.
  rewrite Hc, IH; done.
Qed.

(** [p / name] for an ordinary file name *)
Lemma div_plain p n : PyPath.plain_name n = true → PyPath.div p n = p ++ [n].
Proof.
  unfold PyPath.plain_name, PyPath.div, PyPath.parts_of.
  intros [Hkept Hsep]%andb_true_iff. apply negb_true_iff in Hsep.
  rewrite split_sep_plain by done. cbn [List.filter]. rewrite Hkept.
  destruct n as [|c n]; [done|]. cbn in Hsep. apply orb_false_iff in Hsep as [Hc _].
  unfold PyStr.startswith. cbn. rewrite bool_decide_eq_false_2; [done|].
  intros [= ->]. done.
Qed.

End WalkFacts.

(** ** Making directories and copying files *)

Section MkdirFacts.

Implicit Types (f : gmap Path Node) (p k base rel : Path) (n : string).

Lemma mkdir_parents_aux_dir fuel p w :
  fs w !! p = Some Dir → PyFS.mkdir_parents_aux fuel p w = (Ok tt, w).
Proof.
  intros Hp.
  assert (PyFS.os_mkdir p w = (Raise (OSError "EEXIST"), w)) as Hmk.
  { unfold PyFS.os_mkdir. by rewrite Hp. }
  destruct fuel; cbn [PyFS.mkdir_parents_aux];
    (erewrite try_caught; [|exact Hmk|done]);
    rewrite bool_decide_eq_false_2 by done;
    unfold PyFS.is_dir; by rewrite bool_decide_eq_true_2.
Qed.

(** [mkdir(parents=True, exist_ok=True)] below an existing directory [base],
    when no regular file is in the way: it returns, the path is a directory
    afterwards, and all it has done is to add directories between [base] and
    the path where nothing was. *)
Lemma mkdir_parents_aux_spec fuel base rel w :
  length rel ≤ fuel →
  fs w !! base = Some Dir →
  (∀ pre, pre `prefix_of` rel →
     fs w !! (base ++ pre) = None ∨ fs w !! (base ++ pre) = Some Dir) →
  ∃ w', PyFS.mkdir_parents_aux fuel (base ++ rel) w = (Ok tt, w') ∧
        calls w' = calls w ∧
        fs w' !! (base ++ rel) = Some Dir ∧
        ∀ k, fs w' !! k = fs w !! k ∨
             (fs w !! k = None ∧ fs w' !! k = Some Dir ∧
              ∃ pre, pre `prefix_of` rel ∧ k = base ++ pre).
Proof.
  revert rel w. induction fuel as [|fuel IH]; intros rel w Hlen Hbase Hpre.
  - destruct rel; [|cbn in Hlen; lia]. rewrite app_nil_r.
    exists w. rewrite mkdir_parents_aux_dir by done. repeat split; try done. by left.
  - destruct (Hpre rel) as [Hnone|Hdir]; [done| |].
    2:{ exists w. rewrite mkdir_parents_aux_dir by done. repeat split; try done.
        by left. }
    destruct (decide (rel = [])) as [->|Hne].
    { rewrite app_nil_r in Hnone. congruence. }
    destruct (exists_last Hne) as (rel' & c & ->).
    assert (PyPath.parent (base ++ rel' ++ [c]) = base ++ rel') as Hparent.
    { by rewrite app_assoc, parent_snoc. }
    assert (length rel' ≤ fuel) as Hlen'.
    { rewrite length_app in Hlen. cbn in Hlen. lia. }
    assert (rel' `prefix_of` rel' ++ [c]) as Hpre' by by eexists.
    cbn [PyFS.mkdir_parents_aux].
    destruct (Hpre rel') as [Hpnone|Hpdir]; [done| |].
    + (* the parent is missing too: make it first *)
      assert (PyFS.os_mkdir (base ++ rel' ++ [c]) w = (Raise (OSError "ENOENT"), w)) as Hmk.
      { unfold PyFS.os_mkdir. by rewrite Hnone, Hparent, Hpnone. }
      erewrite try_caught; [|exact Hmk|done].
      rewrite bool_decide_eq_true_2 by done.
      rewrite bool_decide_eq_false_2.
      2:{ rewrite Hparent. intros E. apply (f_equal length) in E.
          rewrite !length_app in E. cbn in E. lia. }
      rewrite Hparent.
      destruct (IH rel' w) as (w1 & Hw1 & Hc1 & Hd1 & Hch1); [done|done| |].
      { intros pre Hp. apply Hpre. by etrans. }
      erewrite bind_ok; [|exact Hw1].
      assert (fs w1 !! (base ++ rel' ++ [c]) = None) as Hnone1.
      { destruct (Hch1 (base ++ rel' ++ [c])) as [->|(_ & _ & pre & Hp & E)]; [done|].
        apply app_inv_head in E. subst pre. by apply prefix_snoc_not in Hp. }
      rewrite mkdir_exist_ok_fresh by (by rewrite ?Hparent).
      eexists. split; [done|]. cbn. split; [done|]. split; [apply lookup_insert_eq|].
      intros k. destruct (decide (k = base ++ rel' ++ [c])) as [->|Hk].
      * right. rewrite lookup_insert_eq. repeat split; try done.
        by exists (rel' ++ [c]).
      * rewrite lookup_insert_ne by done.
        destruct (Hch1 k) as [->|(? & ? & pre & Hp & ->)]; [by left|right].
        repeat split; try done. exists pre. split; [by etrans|done].
    + (* the parent is a directory *)
      unfold try_except, PyFS.os_mkdir. rewrite Hnone, Hparent, Hpdir.
      eexists. split; [done|]. cbn. split; [done|]. split; [apply lookup_insert_eq|].
      intros k. destruct (decide (k = base ++ rel' ++ [c])) as [->|Hk].
      * right. rewrite lookup_insert_eq. repeat split; try done.
        by exists (rel' ++ [c]).
      * left. by rewrite lookup_insert_ne.
Qed.

(** [shutil.copy] of a regular file to a path that is free, or holds a
    regular file, in an existing directory *)
Lemma copy_spec src dst data w :
  fs w !! src = Some (File data) →
  fs w !! dst ≠ Some Dir →
  dst ≠ src →
  fs w !! PyPath.parent dst = Some Dir →
  PyFS.copy src dst w = (Ok tt, set_fs (<[dst := File data]> (fs w)) w).
Proof.
  intros Hsrc Hdst Hne Hpar. unfold PyFS.copy, PyFS.is_dir. rewrite Hsrc.
  rewrite (bool_decide_eq_false_2 (fs w !! dst = Some Dir)) by done. cbn zeta.
  rewrite (bool_decide_eq_false_2 (dst = src)) by done. rewrite Hpar.
  by destruct (fs w !! dst) as [[|]|].
Qed.

End MkdirFacts.

(** ** [extract_bsa] *)

Section ExtractFacts.

Variable run_process : list string → gmap Path Node → ProcOutcome * gmap Path Node.
Variable scandir_order : ∀ A : Type, list A → list A.
Variable script_dir : Path.
Variable self : AudioTranslationEditor.

Hypothesis scandir_order_perm : ∀ (A : Type) (l : list A), scandir_order A l ≡ₚ l.

#[local] Abbreviation workspace := (extract_destination script_dir).

Lemma workspace_eq : workspace = script_dir ++ ["extracted_files"].
Proof. reflexivity. Qed.

Lemma in_scandir_order {A} (l : list A) x : In x (scandir_order A l) ↔ In x l.
Proof. rewrite <- !list_elem_of_In. by rewrite scandir_order_perm. Qed.

(** The first step of [extract_bsa]: an existing workspace directory is
    removed with all it holds; everything outside the workspace stays. *)
Lemma remove_workspace_spec w :
  PyFS.is_file (fs w) workspace = false →
  ∃ w1,
    when_ (PyFS.exists_ (fs w) workspace && PyFS.is_dir (fs w) workspace)
      (PyFS.rmtree workspace ;;
       log_info ("Removed existing directory: " +:+ PyPath.str workspace)) w
    = (Ok tt, w1) ∧
    calls w1 = calls w ∧
    fs w1 !! workspace = None ∧
    (∀ k, ¬ workspace `prefix_of` k → fs w1 !! k = fs w !! k) ∧
    (∀ k, fs w1 !! k = None ∨ fs w1 !! k = fs w !! k) ∧
    (∀ k, workspace `prefix_of` k →
       fs w1 !! k = None ∨ (fs w !! workspace = None ∧ fs w1 !! k = fs w !! k)).
Proof.
  intros Hfile.
  unfold PyFS.exists_, PyFS.is_dir, PyFS.is_file in *.
  destruct (fs w !! workspace) as [[|data]|] eqn:E; [|done|].
  - rewrite bool_decide_eq_true_2 by by eexists.
    rewrite bool_decide_eq_true_2 by done. cbn.
    unfold PyFS.rmtree, mbind, M_bind. rewrite E. cbn.
    eexists. split; [done|]. cbn. repeat split.
    + apply map_lookup_filter_None. right. intros x _ Hn. by apply Hn.
    + intros k Hk. rewrite map_lookup_filter.
      destruct (fs w !! k) eqn:Ek; cbn; [|done].
      by rewrite option_guard_True.
    + intros k. rewrite map_lookup_filter.
      destruct (fs w !! k) eqn:Ek; cbn; [|by left].
      case_guard; [by right|by left].
    + intros k Hk. left. apply map_lookup_filter_None. right. intros x _ Hn.
      by apply Hn.
  - rewrite bool_decide_eq_false_2 by by intros [? ?].
    cbn. eexists. repeat split; try done; [by right|]. intros k Hk. by right.
Qed.

(** [find_bsa_file] on a directory that holds an archive: it returns the
    name of one of the archives. *)
Lemma find_bsa_file_some mod_path w :
  fs w !! mod_path = Some Dir →
  (∃ n, is_Some (fs w !! (mod_path ++ [n])) ∧
        PyStr.lower (PyPath.suffix_of_name n) = ".bsa") →
  ∃ bsa_file,
    find_bsa_file scandir_order mod_path w = (Ok (Some bsa_file), w) ∧
    is_Some (fs w !! (mod_path ++ [bsa_file])) ∧
    PyStr.lower (PyPath.suffix_of_name bsa_file) = ".bsa".
Proof.
  intros Hmod (n & Hn & Hbsa). unfold find_bsa_file, iterdir, mbind, M_bind.
  rewrite Hmod.
  set (entries := List.map _ _).
  destruct (List.find _ entries) as [file|] eqn:Hfind.
  - apply find_some in Hfind as [Hin Hsfx]. apply bool_decide_eq_true in Hsfx.
    apply in_map_iff in Hin as (n' & <- & Hn').
    apply in_scandir_order, children_spec in Hn'.
    exists n'. cbn. unfold PyPath.suffix in Hsfx. rewrite name_snoc in *. done.
  - exfalso. assert (In (mod_path ++ [n]) entries) as Hin.
    { apply in_map_iff. exists n. split; [done|].
      by apply in_scandir_order, children_spec. }
    apply (find_none _ _ Hfind) in Hin. apply bool_decide_eq_false in Hin.
    apply Hin. unfold PyPath.suffix. by rewrite name_snoc.
Qed.

(** C4. For every mod directory that has an entry with suffix [.bsa] (in any
    case): [extract_bsa] starts exactly one program, the extractor with the
    arguments [unpack], the path of an archive of the directory and the path
    of the workspace; it returns the workspace path when the extractor exits
    with code zero and [None] when it exits with another code. *)
Theorem extract_bsa_archive (mod_path : Path) (w : World) :
  programs_exit run_process →
  fs w !! mod_path = Some Dir →
  (∃ n, is_Some (fs w !! (mod_path ++ [n])) ∧
        PyStr.lower (PyPath.suffix_of_name n) = ".bsa") →
  fs w !! script_dir = Some Dir →
  PyFS.is_file (fs w) workspace = false →
  ¬ workspace `prefix_of` mod_path →
  ∃ bsa_file f code f' w',
    is_Some (fs w !! (mod_path ++ [bsa_file])) ∧
    PyStr.lower (PyPath.suffix_of_name bsa_file) = ".bsa" ∧
    f !! workspace = Some Dir ∧
    run_process [PyPath.str (bsarch_path self); "unpack";
                 PyPath.str (PyPath.div mod_path bsa_file);
                 PyPath.str workspace] f = (Exited code, f') ∧
    extract_bsa run_process scandir_order script_dir self mod_path w
      = (Ok (if bool_decide (code = 0%Z) then Some workspace else None), w') ∧
    calls w' = calls w ++ [[PyPath.str (bsarch_path self); "unpack";
                            PyPath.str (PyPath.div mod_path bsa_file);
                            PyPath.str workspace]] ∧
    fs w' = f'.
Proof.
  intros Hexit Hmod (n & Hn & Hbsa) Hscript Hfile Hout.
  destruct (remove_workspace_spec w Hfile) as (w1 & Hw1 & Hc1 & Hgone & Hkeep & Hsub & _).
  assert (¬ workspace `prefix_of` mod_path ++ [n]) as Hout_n.
  { intros [H| H]%prefix_snoc_inv; [done|].
    rewrite workspace_eq in H. apply app_inj_tail in H as [_ <-]. done. }
  destruct (find_bsa_file_some mod_path w1) as (bsa_file & Hfind & Hin & Hsfx).
  { by rewrite Hkeep. }
  { exists n. by rewrite Hkeep. }
  assert (is_Some (fs w !! (mod_path ++ [bsa_file]))) as Hin0.
  { destruct (Hsub (mod_path ++ [bsa_file])) as [E|E]; rewrite E in Hin; [|done].
    by destruct Hin. }
  assert (bsa_file ≠ "") as Hne by (by intros ->).
  pose proof (mkdir_exist_ok_fresh workspace w1 Hgone) as Hmk.
  rewrite workspace_eq, parent_snoc, <- workspace_eq in Hmk.
  rewrite Hkeep in Hmk by (rewrite workspace_eq; apply prefix_snoc_not).
  specialize (Hmk Hscript).
  set (cmd := [PyPath.str (bsarch_path self); "unpack";
               PyPath.str (PyPath.div mod_path bsa_file); PyPath.str workspace]).
  destruct (Hexit cmd (<[workspace := Dir]> (fs w1))) as (code & f' & Hrun).
  assert (∃ w', extract_bsa run_process scandir_order script_dir self mod_path w
                  = (Ok (if bool_decide (code = 0%Z) then Some workspace else None), w') ∧
                calls w' = calls w ++ [cmd] ∧ fs w' = f') as (w' & Hw' & Hc' & Hf').
  { unfold extract_bsa. rewrite bind_path_exists, bind_path_is_dir.
    erewrite bind_ok; [|exact Hw1].
    erewrite bind_ok; [|exact Hfind].
    cbn [truthy default]. rewrite bool_decide_eq_false_2 by done. cbn [negb].
    erewrite bind_ok; [|exact Hmk].
    fold cmd.
    rewrite (run_try run_process cmd (set_fs (<[workspace := Dir]> (fs w1)) w1)
               code f' _ _ Hrun).
    case_bool_decide; cbn; eexists; repeat split; cbn; by rewrite Hc1. }
  exists bsa_file, (<[workspace := Dir]> (fs w1)), code, f', w'.
  repeat split; try done. apply lookup_insert_eq.
Qed.

(** Two directories neither of which lies in the other share no path. *)
Lemma disjoint_below (a b : Path) :
  ¬ a `prefix_of` b → ¬ b `prefix_of` a → ∀ x, ¬ a `prefix_of` b ++ x.
Proof.
  intros Hab Hba x Hpre.
  destruct (prefix_weak_total a b (b ++ x)) as [|]; [done|by eexists|done|done].
Qed.

#[local] Instance copy_order_preorder : PreOrder copy_order.
Proof.
  split.
  - intros [acc s]. by split.
  - intros [a1 s1] [a2 s2] [a3 s3] [H1 H1'] [H2 H2']. split; [by etrans|auto].
Qed.

(** [find_audio_files] on a well-formed mod tree and an absent workspace:
    every loose audio file of the tree is copied to the same relative place
    in the workspace, nothing outside the workspace changes, and the result
    is the workspace exactly when there was such a file.  The workspace
    mirrors the mod tree: whatever it holds is at the same relative place in
    the mod tree, and its regular files all have audio names. *)
Lemma find_audio_files_full mod_path w1 :
  fs w1 !! mod_path = Some Dir →
  (∀ k, mod_path `prefix_of` k → is_Some (fs w1 !! k) →
     Forall (λ n, PyPath.plain_name n = true) k ∧
     ∀ a, a `prefix_of` k → a ≠ k → fs w1 !! a = Some Dir) →
  (∀ k, workspace `prefix_of` k → fs w1 !! k = None) →
  fs w1 !! script_dir = Some Dir →
  ¬ workspace `prefix_of` mod_path →
  ¬ mod_path `prefix_of` workspace →
  ∃ r w',
    find_audio_files scandir_order script_dir mod_path w1 = (Ok r, w') ∧
    calls w' = calls w1 ∧
    (∀ k, ¬ workspace `prefix_of` k → fs w' !! k = fs w1 !! k) ∧
    (∀ rel file data,
       is_audio_name file = true →
       fs w1 !! (mod_path ++ rel ++ [file]) = Some (File data) →
       fs w' !! (workspace ++ rel ++ [file]) = Some (File data) ∧
       fs w' !! (workspace ++ rel) = Some Dir) ∧
    (r = Some workspace ↔
     ∃ rel file data, is_audio_name file = true ∧
                      fs w1 !! (mod_path ++ rel ++ [file]) = Some (File data)) ∧
    (r = None ∨ r = Some workspace) ∧
    (∀ rel x, fs w' !! (workspace ++ rel) = Some x →
              fs w1 !! (mod_path ++ rel) = Some x) ∧
    (∀ rel file data, fs w' !! (workspace ++ rel ++ [file]) = Some (File data) →
                      is_audio_name file = true).
Proof.
  intros Hmod Hwf Hempty Hscript Hout Hin.
  pose proof (disjoint_below _ _ Hout Hin) as Hsrc_out.
  unfold find_audio_files.
  (* the workspace is created *)
  assert (PyFS.mkdir_exist_ok workspace w1
          = (Ok tt, set_fs (<[workspace := Dir]> (fs w1)) w1)) as Hmk.
  { apply mkdir_exist_ok_fresh; [by apply Hempty|].
    rewrite workspace_eq, parent_snoc. done. }
  erewrite bind_ok; [|exact Hmk].
  set (w2 := set_fs (<[workspace := Dir]> (fs w1)) w1).
  assert (∀ k, ¬ workspace `prefix_of` k → fs w2 !! k = fs w1 !! k) as Hw2.
  { intros k Hk. cbn. apply lookup_insert_ne. by intros <-. }
  erewrite bind_ok; [|reflexivity].
  set (walk := scandir_order _ _).
  pose (pairs := flat_map (λ '(root, _, files), List.map (pair root) files) walk).
  (* what the walk lists *)
  assert (∀ root file, In (root, file) pairs →
            ∃ rel data, root = mod_path ++ rel ∧
                        (∀ pre, pre `prefix_of` rel → fs w1 !! (mod_path ++ pre) = Some Dir) ∧
                        fs w1 !! (root ++ [file]) = Some (File data) ∧
                        PyPath.plain_name file = true) as Hpairs.
  { intros root file Hp. apply in_flat_map in Hp as ([[root' dirs] files] & Ht & Hf).
    apply in_map_iff in Hf as (file' & Heq & Hfile). injection Heq as -> ->.
    apply in_scandir_order, in_map_iff in Ht as (root0 & Heq & Hroot).
    injection Heq as -> <- <-.
    apply filter_In in Hroot as [_ (rel & -> & Hdirs)%walk_reaches_spec].
    apply filter_In in Hfile as [Hchild Hnodir].
    apply in_scandir_order, children_spec in Hchild as [x Hx].
    apply negb_true_iff in Hnodir. unfold PyFS.is_dir in Hnodir.
    apply bool_decide_eq_false in Hnodir.
    rewrite <- app_assoc in Hx, Hnodir.
    rewrite Hw2 in Hx by apply Hsrc_out.
    destruct x as [|data]; [by rewrite Hw2 in Hnodir by apply Hsrc_out|].
    exists rel, data. repeat split.
    - intros pre Hpre. rewrite <- Hw2 by apply Hsrc_out. by apply Hdirs.
    - by rewrite <- app_assoc.
    - destruct (Hwf (mod_path ++ rel ++ [file])) as [Hplain _];
        [by eexists|by eexists|].
      rewrite !Forall_app in Hplain. destruct Hplain as (_ & _ & Hplain).
      by inversion Hplain. }
  assert (∀ rel file data,
            fs w1 !! (mod_path ++ rel ++ [file]) = Some (File data) →
            In (mod_path ++ rel, file) pairs) as Hcover.
  { intros rel file data Hfile.
    destruct (Hwf (mod_path ++ rel ++ [file])) as [_ Hanc]; [by eexists|by eexists|].
    assert (∀ pre, pre `prefix_of` rel → fs w1 !! (mod_path ++ pre) = Some Dir) as Hdirs.
    { intros pre [r ->]. apply Hanc.
      - rewrite <- !app_assoc. apply prefix_app, prefix_app_r. done.
      - intros E. apply app_inv_head in E. apply (f_equal length) in E.
        rewrite !length_app in E. cbn in E. lia. }
    apply in_flat_map.
    eexists (mod_path ++ rel, _, _). split.
    - apply in_scandir_order, in_map_iff. exists (mod_path ++ rel). split; [done|].
      apply filter_In. split.
      + rewrite <- list_elem_of_In. apply list_elem_of_fmap.
        exists (mod_path ++ rel, Dir). split; [done|].
        apply elem_of_map_to_list. rewrite Hw2 by apply Hsrc_out. by apply Hdirs.
      + apply walk_reaches_spec. exists rel. split; [done|]. intros pre Hpre.
        rewrite Hw2 by apply Hsrc_out. by apply Hdirs.
    - apply in_map_iff. exists file. split; [done|]. apply filter_In. split.
      + apply in_scandir_order, children_spec. rewrite <- app_assoc.
        rewrite Hw2 by apply Hsrc_out. by eexists.
      + apply negb_true_iff. unfold PyFS.is_dir. apply bool_decide_eq_false_2.
        rewrite <- app_assoc, Hw2 by apply Hsrc_out. by rewrite Hfile. }
  (* the loop *)
  set (Inv := λ (acc : option Path) (s : World),
         calls s = calls w1 ∧
         (∀ k, ¬ workspace `prefix_of` k → fs s !! k = fs w1 !! k) ∧
         (∀ rel x, fs s !! (workspace ++ rel) = Some x →
                   fs w1 !! (mod_path ++ rel) = Some x) ∧
         fs s !! workspace = Some Dir ∧
         (acc ≠ None → ∃ rel file data, is_audio_name file = true ∧
                         fs w1 !! (mod_path ++ rel ++ [file]) = Some (File data)) ∧
         (∀ rel file data, fs s !! (workspace ++ rel ++ [file]) = Some (File data) →
                           is_audio_name file = true)).
  set (Post := λ (x : Path * string) (acc : option Path) (s : World),
         is_audio_name x.2 = true →
         acc ≠ None ∧
         ∀ rel data, x.1 = mod_path ++ rel →
                     fs w1 !! (x.1 ++ [x.2]) = Some (File data) →
                     fs s !! (workspace ++ rel ++ [x.2]) = Some (File data) ∧
                     fs s !! (workspace ++ rel) = Some Dir).
  destruct (for_fold_invariant Inv copy_order Post pairs
              (λ acc '(root, file), copy_audio_file script_dir mod_path root acc file))
    with (acc := @None Path) (s := w2) as (acc' & w' & Hloop & HInv & _ & HPost).
  { (* one round *)
    intros [root file] acc s Hp (Hcalls & Hkeep & Hmirror & Hws & Hacc & Haud).
    destruct (Hpairs root file Hp) as (rel & data & -> & Hdirs & Hfile & Hplain).
    unfold copy_audio_file.
    destruct (is_audio_name file) eqn:Haudio.
    2:{ exists acc, s. split; [done|]. split; [done|]. split; [done|].
        intros H. cbn in H. congruence. }
    assert (PyPath.relative_to (mod_path ++ rel) mod_path = Some rel) as ->
      by by apply relative_to_spec.
    rewrite or_raise_Some, bind_ret. unfold PyPath.join, PyFS.mkdir_parents.
    destruct (mkdir_parents_aux_spec (length (workspace ++ rel)) workspace rel s)
      as (s1 & Hs1 & Hcalls1 & Hdest & Hchange); [rewrite length_app; lia|done| |].
    { intros pre Hpre. destruct (fs s !! (workspace ++ pre)) as [x|] eqn:E; [|by left].
      right. apply Hmirror in E. rewrite Hdirs in E by done. congruence. }
    erewrite bind_ok; [|exact Hs1].
    rewrite !div_plain by done. rewrite <- !app_assoc.
    assert (∀ k, ¬ workspace `prefix_of` k → fs s1 !! k = fs s !! k) as Hkeep1.
    { intros k Hk. destruct (Hchange k) as [|(_ & _ & pre & _ & ->)]; [done|].
      destruct Hk. by eexists. }
    assert (∀ rel' x, fs s1 !! (workspace ++ rel') = Some x →
                      fs w1 !! (mod_path ++ rel') = Some x) as Hmirror1.
    { intros rel' x Hx. destruct (Hchange (workspace ++ rel'))
        as [E|(_ & E & pre & Hpre & ->%app_inv_head)].
      - apply Hmirror. by rewrite <- E.
      - rewrite Hdirs by done. congruence. }
    erewrite bind_ok; [|apply (copy_spec _ _ data)].
    2:{ rewrite Hkeep1, Hkeep by apply Hsrc_out. by rewrite <- app_assoc in Hfile. }
    2:{ intros E. apply Hmirror1 in E. rewrite <- app_assoc in Hfile. congruence. }
    2:{ intros E. apply (Hsrc_out (rel ++ [file])). rewrite <- E. by eexists. }
    2:{ by rewrite app_assoc, parent_snoc. }
    eexists _, _. split; [reflexivity|].
    unfold Inv, Post, copy_order. cbn [fs set_fs add_log calls fst snd].
    assert (∀ k x, fs s !! k = Some x →
                   <[workspace ++ rel ++ [file] := File data]> (fs s1) !! k = Some x) as Hgrow.
    { intros k x Hx. destruct (decide (k = workspace ++ rel ++ [file])) as [->|Hk].
      - rewrite lookup_insert_eq. apply Hmirror in Hx.
        rewrite <- app_assoc in Hfile. congruence.
      - rewrite lookup_insert_ne by done.
        destruct (Hchange k) as [->|(E & _)]; [done|congruence]. }
    split; [|split].
    - (* the invariant *)
      repeat split.
      + by rewrite Hcalls1.
      + intros k Hk. rewrite lookup_insert_ne; [by rewrite Hkeep1, Hkeep|].
        intros <-. destruct Hk. by eexists.
      + intros rel' x. destruct (decide (rel' = rel ++ [file])) as [->|Hne].
        * rewrite lookup_insert_eq. intros [= <-]. by rewrite <- app_assoc in Hfile.
        * rewrite lookup_insert_ne by (by intros ?%app_inv_head). apply Hmirror1.
      + apply Hgrow, Hws.
      + intros _. exists rel, file, data. by rewrite <- app_assoc in Hfile.
      + intros rel' file' data'.
        destruct (decide (rel' ++ [file'] = rel ++ [file])) as [E|Hne].
        * apply app_inj_tail in E as [_ ->]. done.
        * rewrite lookup_insert_ne by (by intros ?%app_inv_head).
          destruct (Hchange (workspace ++ rel' ++ [file'])) as [->|(_ & -> & _)];
            [apply Haud|done].
    - (* the order *)
      split; cbn.
      + apply map_subseteq_spec, Hgrow.
      + by destruct acc.
    - (* what the round has done *)
      intros _. cbn. split; [by destruct acc|].
      intros rel' data' ->%app_inv_head Hfile'. rewrite Hfile in Hfile'.
      injection Hfile' as <-. rewrite lookup_insert_eq. split; [done|].
      rewrite lookup_insert_ne; [done|].
      intros E. apply app_inv_head in E. apply (f_equal length) in E.
      rewrite length_app in E. cbn in E. lia. }
  { (* what a round has done stays *)
    intros [root file] acc s acc2 s2 HP [Hsub Hacc] Haudio. cbn in *.
    destruct (HP Haudio) as [Hset Hcopied]. split; [auto|].
    intros rel data Hroot Hfile. destruct (Hcopied rel data Hroot Hfile) as [H1 H2].
    split; eapply lookup_weaken; eauto. }
  { (* the invariant holds at the start *)
    repeat split; try done.
    - intros rel x. cbn. destruct (decide (rel = [])) as [->|Hne].
      + rewrite !app_nil_r, lookup_insert_eq. by intros [= <-].
      + rewrite lookup_insert_ne.
        2:{ intros E. rewrite <- (app_nil_r workspace) in E at 1.
            by apply app_inv_head in E. }
        rewrite Hempty by by eexists. done.
    - cbn. apply lookup_insert_eq.
    - intros rel file data. cbn. rewrite lookup_insert_ne.
      2:{ intros E. rewrite <- (app_nil_r workspace) in E at 1.
          apply app_inv_head in E. by destruct rel. }
      rewrite Hempty by by eexists. done. }
  erewrite bind_ok; [|rewrite for_fold_nested; exact Hloop].
  destruct HInv as (Hcalls & Hkeep & Hmirror & Hws & Hacc & Haud).
  exists (match acc' with Some _ => Some workspace | None => None end), w'.
  split; [by destruct acc'|]. split; [done|]. split; [done|].
  split; [|split; [|split; [|by split]]].
  - intros rel file data Haudio Hfile.
    destruct (HPost (mod_path ++ rel, file)) as [_ Hcopied];
      [by eapply Hcover|done|].
    apply Hcopied; [done|]. cbn [fst snd]. by rewrite <- app_assoc.
  - split.
    + destruct acc'; [|done]. intros _. by apply Hacc.
    + intros (rel & file & data & Haudio & Hfile).
      destruct (HPost (mod_path ++ rel, file)) as [Hset _];
        [by eapply Hcover|done|]. by destruct acc'.
  - destruct acc'; [by right|by left].
Qed.

Lemma find_audio_files_spec mod_path w1 :
  fs w1 !! mod_path = Some Dir →
  (∀ k, mod_path `prefix_of` k → is_Some (fs w1 !! k) →
     Forall (λ n, PyPath.plain_name n = true) k ∧
     ∀ a, a `prefix_of` k → a ≠ k → fs w1 !! a = Some Dir) →
  (∀ k, workspace `prefix_of` k → fs w1 !! k = None) →
  fs w1 !! script_dir = Some Dir →
  ¬ workspace `prefix_of` mod_path →
  ¬ mod_path `prefix_of` workspace →
  ∃ r w',
    find_audio_files scandir_order script_dir mod_path w1 = (Ok r, w') ∧
    calls w' = calls w1 ∧
    (∀ k, ¬ workspace `prefix_of` k → fs w' !! k = fs w1 !! k) ∧
    (∀ rel file data,
       is_audio_name file = true →
       fs w1 !! (mod_path ++ rel ++ [file]) = Some (File data) →
       fs w' !! (workspace ++ rel ++ [file]) = Some (File data) ∧
       fs w' !! (workspace ++ rel) = Some Dir) ∧
    (r = Some workspace ↔
     ∃ rel file data, is_audio_name file = true ∧
                      fs w1 !! (mod_path ++ rel ++ [file]) = Some (File data)) ∧
    (r = None ∨ r = Some workspace).
Proof.
  intros Hmod Hwf Hempty Hscript Hout Hin.
  destruct (find_audio_files_full mod_path w1 Hmod Hwf Hempty Hscript Hout Hin)
    as (r & w' & H1 & H2 & H3 & H4 & H5 & H6 & _).
  by exists r, w'.
Qed.

(** [find_bsa_file] on a directory without an archive *)
Lemma find_bsa_file_none mod_path w :
  fs w !! mod_path = Some Dir →
  (∀ n, is_Some (fs w !! (mod_path ++ [n])) →
        PyStr.lower (PyPath.suffix_of_name n) ≠ ".bsa") →
  find_bsa_file scandir_order mod_path w = (Ok None, w).
Proof.
  intros Hmod Hnone. unfold find_bsa_file, iterdir, mbind, M_bind. rewrite Hmod.
  destruct (List.find _ _) as [file|] eqn:Hfind; [|done].
  apply find_some in Hfind as [Hin Hsfx]. apply bool_decide_eq_true_1 in Hsfx.
  apply in_map_iff in Hin as (n & <- & Hn).
  apply in_scandir_order, children_spec in Hn.
  unfold PyPath.suffix in Hsfx. rewrite name_snoc in Hsfx. by destruct (Hnone n).
Qed.

(** C5. For every mod directory (of a well-formed file system, apart from
    the workspace) no entry of which has the suffix [.bsa]: [extract_bsa]
    starts no program; every regular file of the tree whose name ends in
    [.fuz] or [.xwm] (in any case) is afterwards in the workspace, with the
    same content, at the path it has relative to the mod directory, below
    directories of the same names; the result is the workspace path when the
    tree holds such a file and [None] when it holds none. *)
Theorem extract_bsa_loose_files (mod_path : Path) (w : World) :
  fs_wf (fs w) = true →
  fs w !! mod_path = Some Dir →
  (∀ n, is_Some (fs w !! (mod_path ++ [n])) →
        PyStr.lower (PyPath.suffix_of_name n) ≠ ".bsa") →
  fs w !! script_dir = Some Dir →
  PyFS.is_file (fs w) workspace = false →
  ¬ workspace `prefix_of` mod_path →
  ¬ mod_path `prefix_of` workspace →
  ∃ r w',
    extract_bsa run_process scandir_order script_dir self mod_path w = (Ok r, w') ∧
    calls w' = calls w ∧
    (∀ rel file data,
       is_audio_name file = true →
       fs w !! (mod_path ++ rel ++ [file]) = Some (File data) →
       fs w' !! (workspace ++ rel ++ [file]) = Some (File data) ∧
       fs w' !! (workspace ++ rel) = Some Dir) ∧
    ((∃ rel file data, is_audio_name file = true ∧
                       fs w !! (mod_path ++ rel ++ [file]) = Some (File data)) →
     r = Some workspace) ∧
    ((∀ rel file data, fs w !! (mod_path ++ rel ++ [file]) = Some (File data) →
                       is_audio_name file = false) →
     r = None).
Proof.
  intros Hwf Hmod Hnobsa Hscript Hfile Hout Hin.
  pose proof (disjoint_below _ _ Hout Hin) as Hsrc_out.
  destruct (remove_workspace_spec w Hfile)
    as (w1 & Hw1 & Hc1 & Hgone & Hkeep & Hsub & Hunder).
  assert (∀ k, workspace `prefix_of` k → fs w1 !! k = None) as Hempty.
  { intros k Hk. destruct (Hunder k Hk) as [|[Hnows ->]]; [done|].
    destruct (fs w !! k) as [x|] eqn:E; [|done].
    destruct (decide (workspace = k)) as [<-|Hne]; [congruence|].
    destruct (fs_wf_spec (fs w) k Hwf) as [_ Hanc]; [by eexists|].
    rewrite (Hanc workspace) in Hnows; done. }
  assert (fs w1 !! mod_path = Some Dir) as Hmod1 by by rewrite Hkeep.
  assert (find_bsa_file scandir_order mod_path w1 = (Ok None, w1)) as Hfind.
  { apply find_bsa_file_none; [done|]. intros n Hn. apply Hnobsa.
    by destruct (Hsub (mod_path ++ [n])) as [E|E]; rewrite E in Hn; [destruct Hn|]. }
  destruct (find_audio_files_spec mod_path w1)
    as (r & w2 & Hfaf & Hc2 & Hkeep2 & Hcopied & Hres & Hshape); try done.
  { intros k [x ->] Hk.
    assert (is_Some (fs w !! (mod_path ++ x))) as Hk0 by by rewrite <- Hkeep.
    destruct (fs_wf_spec _ _ Hwf Hk0) as [Hplain Hanc]. split; [done|].
    intros a Ha Hne. rewrite Hkeep; [by apply Hanc|].
    intros Hws. apply (Hsrc_out x). by etrans. }
  { rewrite Hkeep; [done|]. rewrite workspace_eq. apply prefix_snoc_not. }
  assert (∃ w', extract_bsa run_process scandir_order script_dir self mod_path w
                = (Ok r, w') ∧ calls w' = calls w2 ∧ fs w' = fs w2)
    as (w' & Hrun & Hc' & Hf').
  { unfold extract_bsa. rewrite bind_path_exists, bind_path_is_dir.
    erewrite bind_ok; [|exact Hw1].
    erewrite bind_ok; [|exact Hfind]. cbn [truthy].
    erewrite bind_ok; [|exact Hfaf].
    destruct r; eexists; split; done. }
  exists r, w'. split; [done|]. split; [by rewrite Hc', Hc2|]. split; [|split].
  - intros rel file data Haudio Hsrc. rewrite Hf'. apply Hcopied; [done|].
    by rewrite Hkeep.
  - intros (rel & file & data & Haudio & Hsrc). apply Hres.
    exists rel, file, data. by rewrite Hkeep.
  - intros Hnone. destruct Hshape as [|Hr]; [done|].
    apply Hres in Hr as (rel & file & data & Haudio & Hsrc).
    rewrite Hkeep in Hsrc by done. apply Hnone in Hsrc. congruence.
Qed.

End ExtractFacts.

(** ** Localisation: attribute lookup *)

Section LocalisationFacts.

Variable scandir_order : ∀ A : Type, list A → list A.
Variable GetUserDefaultLangID : Result Z.
Variable windows_locale : Z → option string.
Variable json_load : string → Result (list (string * string)).
Variable object_attr : string → option Value.

Hypothesis scandir_order_perm : ∀ (A : Type) (l : list A), scandir_order A l ≡ₚ l.

#[local] Abbreviation getattr' := (getattr object_attr).
#[local] Abbreviation load_lang' :=
  (load_lang scandir_order GetUserDefaultLangID windows_locale json_load object_attr).

(** An attribute of the instance dictionary is found, without a log record. *)
Lemma getattr_found name v dict w :
  dict !! name = Some v →
  getattr' name (mkLocState dict w) = (Ok v, mkLocState dict w).
Proof.
  intros H. unfold getattr, lift_world, localisator_getattribute, object_getattribute.
  cbn. by rewrite H.
Qed.

Lemma bind_getattr_found {B} name v dict w (k : Value → M LocState B) :
  dict !! name = Some v →
  (getattr' name ≫= k) (mkLocState dict w) = k v (mkLocState dict w).
Proof. intros H. erewrite bind_ok; [done|]. by apply getattr_found. Qed.

Lemma bind_setattr {B} name v dict w (k : unit → M LocState B) :
  (setattr name v ≫= k) (mkLocState dict w) = k tt (mkLocState (<[name := v]> dict) w).
Proof. reflexivity. Qed.

Lemma bind_self_log {B} lvl msg n dict w (k : unit → M LocState B) :
  dict !! "log" = Some (VLogger n) →
  (self_log object_attr lvl msg ≫= k) (mkLocState dict w)
  = k tt (mkLocState dict (add_log (mkLogRecord n lvl msg) w)).
Proof.
  intros H. unfold self_log. erewrite bind_ok; [done|].
  by rewrite (bind_getattr_found _ _ _ _ _ H).
Qed.

(** C6, as amended.  For every section whose [log] attribute is a logger and
    whose name prints, and every name that is not an attribute of the section
    object (it was not loaded into it, and it is none of the attributes the
    object has anyway: [log], [_name], the methods of the class, what every
    object has), the lookup returns the looked-up name itself and adds exactly
    one record, a warning, to the log. *)
Theorem section_lookup_missing (dict : gmap string Value) (name logger text : string)
    (w : World) :
  object_getattribute object_attr section_class_attr dict name = None →
  dict !! "log" = Some (VLogger logger) →
  section_repr object_attr dict = Ok text →
  section_getattribute object_attr dict name w =
    (Ok (VStr name),
     add_log (mkLogRecord logger WARNING
                ("Missing localisation for " +:+ PyStr.repr name +:+ " in "
                 +:+ text +:+ "!")) w) ∧
  log (add_log (mkLogRecord logger WARNING
                  ("Missing localisation for " +:+ PyStr.repr name +:+ " in "
                   +:+ text +:+ "!")) w)
    = log w ++ [mkLogRecord logger WARNING
                  ("Missing localisation for " +:+ PyStr.repr name +:+ " in "
                   +:+ text +:+ "!")].
Proof.
  intros Hmissing Hlog Hrepr. split; [|done].
  unfold section_getattribute. rewrite Hmissing.
  unfold object_getattribute at 1. rewrite Hlog, Hrepr. done.
Qed.

(** ** Localisation: [load_lang] *)

(** C10. When the language of the [Localisator] is ["System"] and the
    resolution of the system language raises (the call of the platform, or
    the lookup in the locale table), [load_lang] ends with an exception, and
    the [language] attribute then holds ["en _US"], a text with a space in
    it, and no longer what it held before the call. *)
Theorem load_lang_failure_overwrites_language (dict : gmap string Value)
    (logger : string) (lang_path : Path) (w : World) :
  dict !! "language" = Some (VStr "System") →
  dict !! "log" = Some (VLogger logger) →
  dict !! "lang_path" = Some (VPath lang_path) →
  resolution_fails GetUserDefaultLangID windows_locale →
  ∃ w',
    load_lang' (mkLocState dict w)
      = (Raise (UnboundLocalError "system_language"),
         mkLocState (<["language" := VStr "en _US"]> dict) w') ∧
    <["language" := VStr "en _US"]> dict !! "language" = Some (VStr "en _US") ∧
    <["language" := VStr "en _US"]> dict !! "language" ≠ dict !! "language" ∧
    PyStr.contains " "%char "en _US" = true.
Proof.
  intros Hlang Hlog Hpath Hfail.
  assert (∃ ex, ∀ s, resolve_system_language GetUserDefaultLangID windows_locale s
                     = (Raise ex, s)) as [ex Hraise].
  { unfold resolve_system_language.
    destruct Hfail as [[ex ->]|(language_id & -> & ->)]; by eexists. }
  eexists. split; [|split; [apply lookup_insert_eq|split; [|done]]].
  - unfold load_lang. rewrite (bind_getattr_found _ _ _ _ _ Hlang). cbn [is_str].
    rewrite bool_decide_eq_true_2 by done. cbn [when_].
    erewrite bind_raise; [done|].
    unfold detect_system_language. rewrite Hraise.
    unfold system_language_failed.
    rewrite (bind_self_log _ _ _ _ _ _ Hlog), bind_setattr.
    rewrite (bind_getattr_found _ (VPath lang_path));
      [|by rewrite lookup_insert_ne]. done.
  - rewrite lookup_insert_eq, Hlang. by intros [= ?].
Qed.

(** What [glob] lists: the entries of the directory whose names match. *)
Lemma glob_spec p pattern w :
  ∃ l, glob scandir_order p pattern w = (Ok l, w) ∧
       ∀ q, In q l ↔ ∃ n, q = p ++ [n] ∧ fs w !! p = Some Dir ∧
                          is_Some (fs w !! (p ++ [n])) ∧
                          PyStr.fnmatch pattern n = true.
Proof.
  unfold glob, PyFS.is_dir. case_bool_decide as Hdir.
  - eexists. split; [done|]. intros q. rewrite in_map_iff. split.
    + intros (n & <- & Hn). apply filter_In in Hn as [Hn Hmatch].
      rewrite <- list_elem_of_In, scandir_order_perm, list_elem_of_In in Hn.
      apply children_spec in Hn. by exists n.
    + intros (n & -> & _ & Hn & Hmatch). exists n. split; [done|].
      apply filter_In. split; [|done].
      rewrite <- list_elem_of_In, scandir_order_perm, list_elem_of_In.
      by apply children_spec.
  - exists []. split; [done|]. intros q. split; [done|]. by intros (n & _ & ? & _).
Qed.

Lemma fnmatch_any p s :
  PyStr.fnmatch (String "?" p) s =
  match s with
  | EmptyString => false
  | String _ r => PyStr.fnmatch p r
  end.
Proof.
  cbn [PyStr.fnmatch]. rewrite bool_decide_eq_false_2 by done.
  destruct s; [done|]. by rewrite bool_decide_eq_true_2.
Qed.

Lemma fnmatch_nil s : PyStr.fnmatch "" s = bool_decide (s = "").
Proof. reflexivity. Qed.

Lemma fnmatch_underscore p s :
  PyStr.fnmatch (String "_" p) s =
  match s with
  | EmptyString => false
  | String c r => bool_decide ("_"%char = c) && PyStr.fnmatch p r
  end.
Proof.
  cbn [PyStr.fnmatch]. rewrite bool_decide_eq_false_2 by done.
  destruct s; [done|]. by rewrite bool_decide_eq_false_2.
Qed.

(** The pattern [??_??] asks for five characters, the third an underscore,
    and for nothing else. *)
Lemma fnmatch_lang_shape n : PyStr.fnmatch "??_??" n = true ↔ lang_shape n.
Proof.
  unfold lang_shape. split.
  - intros H. destruct n as [|c1 [|c2 [|c3 [|c4 [|c5 [|c6 n]]]]]];
      repeat (rewrite fnmatch_any in H || rewrite fnmatch_underscore in H
              || rewrite fnmatch_nil in H);
      rewrite ?andb_false_r in H; try done.
    apply andb_true_iff in H as [H3 _].
    rewrite bool_decide_eq_true in H3. by subst c3.
  - intros [Hlen Hget]. destruct n as [|c1 [|c2 [|c3 [|c4 [|c5 [|c6 n]]]]]]; try done.
    cbn in Hget. injection Hget as ->.
    repeat (rewrite fnmatch_any || rewrite fnmatch_underscore || rewrite fnmatch_nil).
    by rewrite !bool_decide_eq_true_2.
Qed.

(** C9, as amended.  [get_available_langs] returns names of entries of the
    parent of the language path, and of the entries whose names are made of
    ASCII characters it returns exactly those, directories or not, whose
    names have five characters, the third an underscore; the other four
    characters may be any. *)
Theorem get_available_langs_lists_shaped_entries (dict : gmap string Value)
    (lang_path : Path) (w : World) :
  dict !! "lang_path" = Some (VPath lang_path) →
  ∃ names,
    get_available_langs scandir_order object_attr (mkLocState dict w)
      = (Ok names, mkLocState dict w) ∧
    (∀ n, In n names → is_Some (fs w !! (PyPath.parent lang_path ++ [n]))) ∧
    ∀ n, is_ascii n = true →
         (In n names ↔
          fs w !! PyPath.parent lang_path = Some Dir ∧
          is_Some (fs w !! (PyPath.parent lang_path ++ [n])) ∧
          lang_shape n).
Proof.
  intros Hpath.
  destruct (glob_spec (PyPath.parent lang_path) "??_??" w) as (l & Hglob & Hl).
  exists (List.map PyPath.name l). split; [|split].
  - unfold get_available_langs.
    rewrite (bind_getattr_found _ _ _ _ _ Hpath). cbn [as_path]. rewrite bind_ret.
    erewrite bind_ok; [done|]. unfold lift_world. cbn [loc_world loc_self].
    by rewrite Hglob.
  - intros n. rewrite in_map_iff.
    intros (q & <- & (n' & -> & Hdir & Hn & Hmatch)%Hl). by rewrite name_snoc.
  - intros n _. rewrite in_map_iff. split.
    + intros (q & <- & (n' & -> & Hdir & Hn & Hmatch)%Hl).
      rewrite name_snoc. by apply fnmatch_lang_shape in Hmatch.
    + intros (Hdir & Hn & Hshape). exists (PyPath.parent lang_path ++ [n]).
      split; [apply name_snoc|]. apply Hl. exists n.
      by apply fnmatch_lang_shape in Hshape.
Qed.

(** The fallback and the loading loop, from any state of the object whose
    language directory is missing: the fallback is logged, [language] becomes
    ["en_US"], [lang_path] the directory [en_US] beside the missing one, and
    the loop runs over the JSON files of that directory. *)
Lemma fall_back_then_load (dict : gmap string Value) (lang logger : string) (p : Path)
    (w : World) :
  dict !! "language" = Some (VStr lang) →
  dict !! "log" = Some (VLogger logger) →
  dict !! "lang_path" = Some (VPath p) →
  PyFS.is_dir (fs w) p = false →
  let dict_en :=
    <["lang_path" := VPath (PyPath.parent p ++ ["en_US"])]>
      (<["language" := VStr "en_US"]> dict) in
  let w_en :=
    add_log (mkLogRecord logger INFO "Falling back to 'en_US'...")
      (add_log (mkLogRecord logger WARNING
                  ("Failed to load language '" +:+ lang
                   +:+ "': Localisation does not exist!")) w) in
  ∃ lang_files : list Path,
    glob scandir_order (PyPath.parent p ++ ["en_US"]) "*.json" w_en
      = (Ok lang_files, w_en) ∧
    (∀ q, In q lang_files ↔
          ∃ n, q = PyPath.parent p ++ ["en_US"; n] ∧
               fs w !! (PyPath.parent p ++ ["en_US"]) = Some Dir ∧
               is_Some (fs w !! q) ∧ PyStr.fnmatch "*.json" n = true) ∧
    (fall_back_to_english object_attr ;;
     load_lang_files scandir_order json_load object_attr) (mkLocState dict w)
      = for_each lang_files (load_lang_file json_load object_attr)
          (mkLocState dict_en w_en).
Proof.
  intros Hd_lang Hd_log Hd_path Hnodir dict_en w_en.
  destruct (glob_spec (PyPath.parent p ++ ["en_US"]) "*.json" w_en)
    as (lang_files & Hglob & Hfiles).
  exists lang_files. split; [done|]. split.
  { intros q. rewrite Hfiles. split; intros (n & -> & Hrest); exists n;
      (split; [by rewrite <- app_assoc|]); cbn [fs w_en add_log] in *;
      by rewrite <- ?app_assoc in *. }
  (* the fallback *)
  assert (fall_back_to_english object_attr (mkLocState dict w)
          = (Ok tt, mkLocState dict_en w_en)) as Hfall.
  { unfold fall_back_to_english.
    rewrite (bind_getattr_found _ _ _ _ _ Hd_path). cbn [as_path]. rewrite bind_ret.
    erewrite bind_ok; [|reflexivity]. cbn [fs loc_world]. rewrite Hnodir.
    cbn [negb when_].
    rewrite (bind_getattr_found _ _ _ _ _ Hd_log).
    rewrite (bind_getattr_found _ _ _ _ _ Hd_lang).
    erewrite bind_ok; [|reflexivity]. cbn [loc_self loc_world value_str].
    rewrite (bind_self_log _ _ _ _ _ _ Hd_log), bind_setattr.
    rewrite (bind_getattr_found _ (VPath p)); [|by rewrite lookup_insert_ne].
    cbn [as_path]. rewrite bind_ret.
    rewrite (bind_getattr_found _ (VStr "en_US")); [|by rewrite lookup_insert_eq].
    done. }
  erewrite bind_ok; [|exact Hfall].
  (* the loop over the files of the default language *)
  unfold load_lang_files.
  rewrite (bind_getattr_found _ (VPath (PyPath.parent p ++ ["en_US"])));
    [|by apply lookup_insert_eq]. cbn [as_path]. rewrite bind_ret.
  erewrite bind_ok; [done|]. unfold lift_world. cbn [loc_world loc_self].
  by rewrite Hglob.
Qed.

Lemma init_language lang root : localisator_init lang root !! "language" = Some (VStr lang).
Proof.
  unfold localisator_init. rewrite lookup_insert_ne by done. apply lookup_insert_eq.
Qed.

Lemma init_log lang root :
  localisator_init lang root !! "log" = Some (VLogger "Localisation").
Proof.
  unfold localisator_init. rewrite !lookup_insert_ne by done. apply lookup_insert_eq.
Qed.

Lemma init_lang_path lang root :
  localisator_init lang root !! "lang_path" = Some (VPath (PyPath.div root lang)).
Proof. apply lookup_insert_eq. Qed.

(** C7. For every language tag (a single ordinary name other than the
    sentinel ["System"]) whose directory below the localisation root is not
    there: [load_lang] logs the fallback, sets [language] to ["en_US"] and
    [lang_path] to the directory [en_US] of the root, and then loads the JSON
    files that [glob] finds in that directory. *)
Theorem load_lang_falls_back_to_default (lang : string) (root : Path) (w : World) :
  PyPath.plain_name lang = true →
  lang ≠ "System" →
  PyFS.is_dir (fs w) (root ++ [lang]) = false →
  let dict_en :=
    <["lang_path" := VPath (root ++ ["en_US"])]>
      (<["language" := VStr "en_US"]> (localisator_init lang root)) in
  let w_en :=
    add_log (mkLogRecord "Localisation" INFO "Falling back to 'en_US'...")
      (add_log (mkLogRecord "Localisation" WARNING
                  ("Failed to load language '" +:+ lang
                   +:+ "': Localisation does not exist!")) w) in
  dict_en !! "language" = Some (VStr "en_US") ∧
  dict_en !! "lang_path" = Some (VPath (root ++ ["en_US"])) ∧
  ∃ lang_files : list Path,
    glob scandir_order (root ++ ["en_US"]) "*.json" w_en = (Ok lang_files, w_en) ∧
    (∀ q, In q lang_files ↔
          ∃ n, q = root ++ ["en_US"; n] ∧ fs w !! (root ++ ["en_US"]) = Some Dir ∧
               is_Some (fs w !! q) ∧ PyStr.fnmatch "*.json" n = true) ∧
    load_lang' (mkLocState (localisator_init lang root) w)
      = for_each lang_files (load_lang_file json_load object_attr)
          (mkLocState dict_en w_en).
Proof.
  intros Hplain Hlang Hnodir dict_en w_en.
  split; [unfold dict_en; rewrite lookup_insert_ne by done; apply lookup_insert_eq|].
  split; [by apply lookup_insert_eq|].
  pose proof (init_lang_path lang root) as Hd_path. rewrite div_plain in Hd_path by done.
  destruct (fall_back_then_load _ _ _ _ w (init_language lang root) (init_log lang root)
              Hd_path Hnodir) as (lang_files & Hglob & Hfiles & Hrun).
  rewrite parent_snoc in Hglob, Hfiles, Hrun.
  exists lang_files. split; [exact Hglob|]. split; [exact Hfiles|].
  unfold load_lang. rewrite (bind_getattr_found _ _ _ _ _ (init_language lang root)).
  cbn [is_str]. rewrite bool_decide_eq_false_2 by done. cbn [when_]. rewrite bind_ret.
  exact Hrun.
Qed.

(** X18. The same for the sentinel: when the language is ["System"] and the
    platform names a language (one ordinary name) whose directory is not
    there, [load_lang] logs the detected language, then falls back in the same
    way: it logs the fallback, sets [language] to ["en_US"] and [lang_path] to
    the directory [en_US] of the root, and loads the JSON files that [glob]
    finds there. *)
Lemma load_lang_system_falls_back_to_default (language_id : Z) (tag : string)
    (root : Path) (w : World) :
  GetUserDefaultLangID = Ok language_id →
  windows_locale language_id = Some tag →
  PyPath.plain_name tag = true →
  PyFS.is_dir (fs w) (root ++ [tag]) = false →
  let dict_tag :=
    <["lang_path" := VPath (root ++ [tag])]>
      (<["language" := VStr tag]> (localisator_init "System" root)) in
  let dict_en :=
    <["lang_path" := VPath (root ++ ["en_US"])]>
      (<["language" := VStr "en_US"]> dict_tag) in
  let w_en :=
    add_log (mkLogRecord "Localisation" INFO "Falling back to 'en_US'...")
      (add_log (mkLogRecord "Localisation" WARNING
                  ("Failed to load language '" +:+ tag
                   +:+ "': Localisation does not exist!"))
         (add_log (mkLogRecord "Localisation" DEBUG
                     ("Detected system language: " +:+ tag)) w)) in
  ∃ lang_files : list Path,
    glob scandir_order (root ++ ["en_US"]) "*.json" w_en = (Ok lang_files, w_en) ∧
    load_lang' (mkLocState (localisator_init "System" root) w)
      = for_each lang_files (load_lang_file json_load object_attr)
          (mkLocState dict_en w_en).
Proof.
  intros Hid Htag Hplain Hnodir dict_tag dict_en w_en.
  set (w_tag := add_log (mkLogRecord "Localisation" DEBUG
                           ("Detected system language: " +:+ tag)) w).
  assert (dict_tag !! "language" = Some (VStr tag)) as Hd_lang.
  { unfold dict_tag. rewrite lookup_insert_ne by done. apply lookup_insert_eq. }
  assert (dict_tag !! "log" = Some (VLogger "Localisation")) as Hd_log.
  { unfold dict_tag. rewrite !lookup_insert_ne by done. apply init_log. }
  assert (dict_tag !! "lang_path" = Some (VPath (root ++ [tag]))) as Hd_path
    by apply lookup_insert_eq.
  destruct (fall_back_then_load _ _ _ _ w_tag Hd_lang Hd_log Hd_path Hnodir)
    as (lang_files & Hglob & _ & Hrun).
  rewrite parent_snoc in Hglob, Hrun.
  exists lang_files. split; [exact Hglob|].
  unfold load_lang.
  rewrite (bind_getattr_found _ _ _ _ _ (init_language "System" root)).
  cbn [is_str]. rewrite bool_decide_eq_true_2 by done. cbn [when_].
  erewrite bind_ok; [exact Hrun|].
  unfold detect_system_language, resolve_system_language. rewrite Hid, Htag.
  cbn [or_raise]. unfold mret at 1, M_ret.
  apply try_ok. unfold use_system_language.
  rewrite (bind_self_log _ _ _ _ _ _ (init_log "System" root)), bind_setattr.
  rewrite (bind_getattr_found _ (VPath (root ++ ["System"])));
    [|by rewrite lookup_insert_ne]. cbn [as_path]. rewrite bind_ret.
  by rewrite parent_snoc, div_plain.
Qed.

(** When no key is refused, the assignments are one insertion per item. *)
Lemma assign_items_assignable (items : list (string * string)) (d : gmap string Value) :
  keys_assignable items →
  assign_items items d = (fold_left (λ d kv, <[kv.1 := VStr kv.2]> d) items d, None).
Proof.
  unfold keys_assignable. intros Hkeys. revert d.
  induction Hkeys as [|[key value] items Hkey Hkeys IH]; intros d; [done|].
  cbn in Hkey. cbn [assign_items fold_left fst snd]. by rewrite Hkey, IH.
Qed.

(** What [load_lang_file] does for one readable file whose content parses and
    whose stem can be assigned: the section it stores under the stem of the
    file is [loaded_section], and it raises when a key was refused. *)
Lemma load_lang_file_spec (dict : gmap string Value) (logger data : string)
    (lang_file : Path) (items : list (string * string)) (w : World) :
  dict !! "log" = Some (VLogger logger) →
  dict !! "__getattribute__" = None →
  PyPath.stem lang_file ≠ "__getattribute__" →
  setattr_refused (PyPath.stem lang_file) = None →
  fs w !! lang_file = Some (File data) →
  json_load data = Ok items →
  load_lang_file json_load object_attr lang_file (mkLocState dict w)
  = (match (assign_items items
              (<["__getattribute__" := VMethod "Localisator" "__getattribute__"]>
                 (section_init (VLogger logger) (VStr (PyPath.name lang_file))))).2 with
     | Some e => Raise e
     | None => Ok tt
     end,
     mkLocState
       (<[PyPath.stem lang_file :=
            VSection (loaded_section logger (PyPath.name lang_file) items)]> dict) w).
Proof.
  intros Hlog Hga Hstem Hrefused Hfile Hjson. unfold load_lang_file.
  erewrite bind_ok; [|unfold lift_world, PyFS.read_text; cbn; by rewrite Hfile].
  erewrite bind_ok; [|by rewrite Hjson].
  rewrite (bind_getattr_found _ _ _ _ _ Hlog), Hrefused, bind_setattr.
  rewrite (bind_getattr_found _ (VSection (section_init (VLogger logger)
                                             (VStr (PyPath.name lang_file)))));
    [|by apply lookup_insert_eq].
  erewrite bind_ok.
  2:{ unfold getattr, lift_world, localisator_getattribute, object_getattribute.
      cbn [loc_self loc_world]. rewrite lookup_insert_ne by done. rewrite Hga.
      reflexivity. }
  unfold loaded_section.
  destruct (assign_items items _) as [d' refused]. cbn [fst snd].
  rewrite bind_setattr, insert_insert_eq. by destruct refused.
Qed.

(** A loaded key named [log] puts a string in the place of the logger: the
    lookup of a missing name then raises instead of returning the name. *)
Lemma section_lookup_raises_without_logger (dict : gmap string Value)
    (name text : string) (w : World) :
  object_getattribute object_attr section_class_attr dict name = None →
  dict !! "log" = Some (VStr text) →
  section_getattribute object_attr dict name w = (Raise (AttributeError "warning"), w).
Proof.
  intros Hmissing Hlog. unfold section_getattribute. rewrite Hmissing.
  unfold object_getattribute at 1. by rewrite Hlog.
Qed.

End LocalisationFacts.

(** ** The settings panel *)

Section SettingsFacts.

Variable LOG_LEVELS_values : list string.
Variable available_langs : list string.

Lemma bound_in_range lo hi v : (lo ≤ hi → lo ≤ Qt.bound lo hi v ≤ hi)%Z.
Proof.
  intros H. unfold Qt.bound.
  destruct (Z.ltb_spec v lo); [lia|]. destruct (Z.ltb_spec hi v); lia.
Qed.

Lemma qbound_in_range lo hi v :
  (lo <= hi → lo <= Qt.qbound lo hi v ∧ Qt.qbound lo hi v <= hi)%Q.
Proof.
  intros H. unfold Qt.qbound.
  destruct (Qlt_le_dec v lo); [split; [apply Qle_refl|done]|].
  destruct (Qlt_le_dec hi v); [split; [done|apply Qle_refl]|]. done.
Qed.

Lemma init_in_range app_config :
  spin_boxes_in_range (AppSettings_init LOG_LEVELS_values available_langs app_config).
Proof.
  split; cbn.
  - repeat split; try done; apply (bound_in_range (-1) 100); lia.
  - assert (Qt.round2 0 <= Qt.round2 1)%Q as Hle by done.
    destruct (Qlt_le_dec (Qt.round2 0) (Qt.round2 1)) as [_|Hgt].
    + repeat split; try done; by apply qbound_in_range.
    + repeat split; try done; apply qbound_in_range; apply Qle_refl.
Qed.

Lemma apply_edit_in_range panel e :
  spin_boxes_in_range panel → spin_boxes_in_range (apply_edit panel e).
Proof.
  intros [(Hmin & Hmax & Hval) (Hlo & Hhi & Hv1 & Hv2)].
  destruct e; split; cbn; try done.
  - rewrite Hmin, Hmax. repeat split; try done; apply (bound_in_range (-1) 100); lia.
  - repeat split; try done; apply qbound_in_range; exact (Qle_trans _ _ _ Hv1 Hv2).
Qed.

Lemma panel_after_in_range app_config edits :
  spin_boxes_in_range (panel_after LOG_LEVELS_values available_langs app_config edits).
Proof.
  unfold panel_after.
  generalize (init_in_range app_config).
  generalize (AppSettings_init LOG_LEVELS_values available_langs app_config).
  induction edits as [|e edits IH]; intros panel Hok; [done|].
  cbn. by apply IH, apply_edit_in_range.
Qed.

(** C8. Whatever configuration the panel was built from and whatever the
    user has done to its widgets since, [get_settings] returns a mapping with
    exactly the six keys [keep_logs_num], [log_level], [language],
    [accent_color], [detector_confidence], [auto_bind_nxm], whose values are
    an integer between -1 and 100, three strings, a number between 0 and 1,
    and a truth value. *)
Theorem get_settings_keys_and_types (app_config : AppConfig) (edits : list Edit) :
  let panel := panel_after LOG_LEVELS_values available_langs app_config edits in
  List.map fst (get_settings panel) =
    ["keep_logs_num"; "log_level"; "language"; "accent_color";
     "detector_confidence"; "auto_bind_nxm"] ∧
  ∃ (n : Z) (level lang color : string) (c : Q) (b : bool),
    get_settings panel =
      [("keep_logs_num", SInt n); ("log_level", SStr level); ("language", SStr lang);
       ("accent_color", SStr color); ("detector_confidence", SFloat c);
       ("auto_bind_nxm", SBool b)] ∧
    (-1 ≤ n ≤ 100)%Z ∧ (0 <= c)%Q ∧ (c <= 1)%Q.
Proof.
  intros panel. split; [done|].
  destruct (panel_after_in_range app_config edits)
    as [(_ & _ & Hval) (Hlo & Hhi & Hv1 & Hv2)].
  fold panel in Hval, Hlo, Hhi, Hv1, Hv2.
  do 6 eexists. split; [done|]. split; [done|].
  split; [exact (Qle_trans _ _ _ Hlo Hv1)|exact (Qle_trans _ _ _ Hv2 Hhi)].
Qed.

End SettingsFacts.

(** ** The properties on the sample data *)

Ltac by_computation := vm_compute; reflexivity.

Lemma listing_perm (A : Type) (l : list A) : Sample.listing A l ≡ₚ l.
Proof. reflexivity. Defined.

Lemma failing_tool_exits : programs_exit Sample.failing_tool.
Proof. intros cmd f. by exists 1%Z, f. Defined.

Lemma quiet_tool_exits : programs_exit Sample.quiet_tool.
Proof. intros cmd f. by exists 0%Z, f. Defined.

(** The encoder fails on [line02.XWM]: the file is deleted all the same. *)
Lemma convert_xwm_deletes_input_witness :
  ∃ w', convert_xwm Sample.failing_tool Sample.editor
          ["loose"; "sound"; "voice"; "npc"; "line02.XWM"] Sample.world = (Ok tt, w') ∧
        PyFS.is_file (fs w') ["loose"; "sound"; "voice"; "npc"; "line02.XWM"] = false.
Proof.
  destruct (convert_xwm_deletes_input Sample.failing_tool Sample.editor
              ["loose"; "sound"; "voice"; "npc"; "line02.XWM"] Sample.world)
    as (wav & Hwav & _ & _ & Hall); [intros E; discriminate E|].
  destruct (Hall 1%Z (fs Sample.world) eq_refl) as (w' & Hrun & _ & _ & Hgone).
  exists w'. split; [exact Hrun|exact Hgone].
Defined.

(** The decoder fails on [line01.fuz]: the file and its [.lip] companion are
    deleted all the same. *)
Lemma decode_fuz_deletes_input_witness :
  ∃ w', decode_fuz Sample.failing_tool Sample.editor
          ["loose"; "sound"; "voice"; "npc"; "line01.fuz"] Sample.world = (Ok tt, w') ∧
        PyFS.is_file (fs w') ["loose"; "sound"; "voice"; "npc"; "line01.fuz"] = false ∧
        PyFS.is_file (fs w') ["loose"; "sound"; "voice"; "npc"; "line01.lip"] = false.
Proof.
  destruct (decode_fuz_deletes_input Sample.failing_tool Sample.editor
              ["loose"; "sound"; "voice"; "npc"; "line01.fuz"] Sample.world)
    as (xwm & lip & code & f1 & w' & _ & Hlip & _ & Hrun & Hgone & Hlipgone & _);
    [by_computation|exact failing_tool_exits|].
  assert (PyPath.with_suffix ["loose"; "sound"; "voice"; "npc"; "line01.fuz"] ".lip"
          = Some ["loose"; "sound"; "voice"; "npc"; "line01.lip"]) as E by by_computation.
  rewrite E in Hlip. injection Hlip as <-.
  exists w'. split; [exact Hrun|]. split; [exact Hgone|exact Hlipgone].
Defined.

(** The mod [packed] holds [Voices.BSA]: the extractor is started once and,
    as it exits with code 0, the workspace is returned. *)
Lemma extract_bsa_archive_witness :
  ∃ w', extract_bsa Sample.quiet_tool Sample.listing Sample.script_dir Sample.editor
          ["packed"] Sample.world
        = (Ok (Some ["app"; "translation_audio"; "extracted_files"]), w') ∧
        calls w' = [["tools/BSArch.exe"; "unpack"; "packed/Voices.BSA";
                     "app/translation_audio/extracted_files"]].
Proof.
  destruct (extract_bsa_archive Sample.quiet_tool Sample.listing Sample.script_dir
              Sample.editor listing_perm ["packed"] Sample.world)
    as (bsa_file & f & code & f' & w' & Hin & Hsfx & _ & Hrun & Hres & Hcalls & _).
  - exact quiet_tool_exits.
  - by_computation.
  - exists "Voices.BSA". split; [exists (File "archive")|]; by_computation.
  - by_computation.
  - by_computation.
  - intros [k Hk]. discriminate Hk.
  - injection Hrun as <- _. exists w'. split; [exact Hres|].
    apply children_spec in Hin.
    assert (PyFS.children (fs Sample.world) ["packed"] = ["readme.txt"; "Voices.BSA"])
      as Hlist by by_computation.
    rewrite Hlist in Hin.
    destruct Hin as [<-|[<-|[]]]; [|exact Hcalls].
    assert (PyStr.lower (PyPath.suffix_of_name "readme.txt") = ".txt")
      as Htxt by by_computation.
    rewrite Htxt in Hsfx. discriminate Hsfx.
Defined.

(** The mod [loose] has no archive but voice files three directories deep:
    they are copied to the same place below the workspace. *)
Lemma extract_bsa_loose_files_witness :
  ∃ w', extract_bsa Sample.failing_tool Sample.listing Sample.script_dir Sample.editor
          ["loose"] Sample.world
        = (Ok (Some ["app"; "translation_audio"; "extracted_files"]), w') ∧
        fs w' !! ["app"; "translation_audio"; "extracted_files";
                  "sound"; "voice"; "npc"; "line01.fuz"] = Some (File "fuz-1") ∧
        fs w' !! ["app"; "translation_audio"; "extracted_files";
                  "sound"; "voice"; "npc"; "line02.XWM"] = Some (File "xwm-2").
Proof.
  destruct (extract_bsa_loose_files Sample.failing_tool Sample.listing Sample.script_dir
              Sample.editor listing_perm ["loose"] Sample.world)
    as (r & w' & Hrun & _ & Hcopied & Hsome & _).
  - by_computation.
  - by_computation.
  - intros n Hn Hbsa. apply children_spec in Hn.
    assert (PyFS.children (fs Sample.world) ["loose"] = ["sound"]) as Hlist
      by by_computation.
    rewrite Hlist in Hn. destruct Hn as [<-|[]].
    assert (PyStr.lower (PyPath.suffix_of_name "sound") = "") as Hsfx by by_computation.
    rewrite Hsfx in Hbsa. discriminate Hbsa.
  - by_computation.
  - by_computation.
  - intros [k Hk]. discriminate Hk.
  - intros [k Hk]. discriminate Hk.
  - exists w'. rewrite Hsome in Hrun.
    2:{ exists ["sound"; "voice"; "npc"], "line01.fuz", "fuz-1". split; by_computation. }
    split; [exact Hrun|]. split.
    + apply (Hcopied ["sound"; "voice"; "npc"] "line01.fuz" "fuz-1"); by_computation.
    + apply (Hcopied ["sound"; "voice"; "npc"] "line02.XWM" "xwm-2"); by_computation.
Defined.

(** C6, the counterexample.  The section loaded from [main.json] holds the
    keys [title] and [quit]; [log] was not loaded into it, yet the lookup of
    [log] returns the logger, not the name, and logs nothing: the sentence of
    the specification does not hold of every name that was not loaded. *)
Lemma section_lookup_counterexample :
  ¬ spec_lookup_of_unloaded_name Sample.object_attr.
Proof.
  intros Hspec.
  destruct (Hspec "Localisation" "main.json" [("title", "Hello"); ("quit", "Quit")]
              "log" Sample.loc_world)
    as (record & Hlookup & _).
  { intros [E|[E|[]]]; discriminate E. }
  assert (section_getattribute Sample.object_attr
            (loaded_section "Localisation" "main.json"
               [("title", "Hello"); ("quit", "Quit")]) "log" Sample.loc_world
          = (Ok (VLogger "Localisation"), Sample.loc_world)) as E by by_computation.
  rewrite E in Hlookup. discriminate Hlookup.
Qed.

(** A name that no section has, looked up in a fresh section *)
Lemma section_lookup_missing_witness :
  section_getattribute Sample.object_attr Sample.fresh_section "title" Sample.loc_world
  = (Ok (VStr "title"),
     add_log (mkLogRecord "Localisation" WARNING
                "Missing localisation for 'title' in main.json!") Sample.loc_world).
Proof.
  destruct (section_lookup_missing Sample.object_attr Sample.fresh_section
              "title" "Localisation" "main.json" Sample.loc_world) as [Hlookup _];
    [by_computation|by_computation|by_computation|].
  exact Hlookup.
Defined.

(** C9, the counterexample.  Beside the languages lie a regular file
    [ab_cd] and a directory [12_34]; [get_available_langs] lists both, though
    one is no directory and the other is not made of letters. *)
Lemma get_available_langs_counterexample :
  ¬ spec_available_langs Sample.listing Sample.object_attr is_letter.
Proof.
  intros Hspec.
  assert (localisator_init "en_US" ["loc"] !! "lang_path" = Some (VPath ["loc"; "en_US"]))
    as Hpath by by_computation.
  assert (get_available_langs Sample.listing Sample.object_attr
            (mkLocState (localisator_init "en_US" ["loc"]) Sample.loc_world)
          = (Ok ["ab_cd"; "en_US"; "de_DE"; "12_34"],
             mkLocState (localisator_init "en_US" ["loc"]) Sample.loc_world))
    as Hrun by by_computation.
  pose proof (Hspec _ _ _ _ Hpath Hrun "ab_cd") as [Hlisted _].
  destruct Hlisted as [Hdir _]; [by left|].
  assert (PyFS.is_dir (fs Sample.loc_world) (PyPath.parent ["loc"; "en_US"] ++ ["ab_cd"])
          = false) as E by by_computation.
  rewrite E in Hdir. discriminate Hdir.
Qed.

(** The entries that [get_available_langs] lists on the sample disk *)
Lemma get_available_langs_witness :
  ∃ names,
    get_available_langs Sample.listing Sample.object_attr
      (mkLocState (localisator_init "en_US" ["loc"]) Sample.loc_world)
    = (Ok names, mkLocState (localisator_init "en_US" ["loc"]) Sample.loc_world) ∧
    In "de_DE" names ∧ In "ab_cd" names ∧ In "12_34" names ∧ ¬ In "notes" names.
Proof.
  assert (localisator_init "en_US" ["loc"] !! "lang_path" = Some (VPath ["loc"; "en_US"]))
    as Hpath by by_computation.
  destruct (get_available_langs_lists_shaped_entries Sample.listing Sample.object_attr
              listing_perm (localisator_init "en_US" ["loc"]) ["loc"; "en_US"]
              Sample.loc_world Hpath) as (names & Hrun & _ & Hnames).
  exists names. split; [exact Hrun|].
  assert (fs Sample.loc_world !! PyPath.parent ["loc"; "en_US"] = Some Dir)
    as Hparent by by_computation.
  split; [|split; [|split]].
  - apply Hnames; [by_computation|].
    split; [exact Hparent|]. split; [exists Dir|split]; by_computation.
  - apply Hnames; [by_computation|]. split; [exact Hparent|].
    split; [exists (File "a file")|split]; by_computation.
  - apply Hnames; [by_computation|].
    split; [exact Hparent|]. split; [exists Dir|split]; by_computation.
  - intros Hin. apply Hnames in Hin as (_ & _ & _ & Hthird); [|by_computation].
    discriminate Hthird.
Defined.

(** C3.  The language is ["System"] and the resolution of the system
    language raises (the platform call fails; or the identifier 7 is not in
    the locale table): [load_lang] does not fall back but raises
    [UnboundLocalError] to its caller. *)
Theorem load_lang_resolution_failure_raises :
  (load_lang Sample.listing (Raise WinError) Sample.windows_locale Sample.json_load
     Sample.object_attr
     (mkLocState (localisator_init "System" ["loc"]) Sample.loc_world)).1
  = Raise (UnboundLocalError "system_language") ∧
  (load_lang Sample.listing (Ok 7%Z) Sample.windows_locale Sample.json_load
     Sample.object_attr
     (mkLocState (localisator_init "System" ["loc"]) Sample.loc_world)).1
  = Raise (UnboundLocalError "system_language").
Proof. split; by_computation. Qed.

(** The platform call fails on a [Localisator] made for ["System"]. *)
Lemma load_lang_failure_overwrites_language_witness :
  ∃ s',
    load_lang Sample.listing (Raise WinError) Sample.windows_locale Sample.json_load
      Sample.object_attr
      (mkLocState (localisator_init "System" ["loc"]) Sample.loc_world)
    = (Raise (UnboundLocalError "system_language"), s') ∧
    loc_self s' !! "language" = Some (VStr "en _US").
Proof.
  destruct (load_lang_failure_overwrites_language Sample.listing (Raise WinError)
              Sample.windows_locale Sample.json_load Sample.object_attr
              (localisator_init "System" ["loc"]) "Localisation" ["loc"; "System"]
              Sample.loc_world) as (w' & Hrun & Hlang & _);
    [by_computation|by_computation|by_computation|left; by eexists|].
  eexists. split; [exact Hrun|exact Hlang].
Defined.

(** French is asked for and is not there: the English files are loaded. *)
Lemma load_lang_falls_back_to_default_witness :
  ∃ s' main,
    load_lang Sample.listing (Ok 1031%Z) Sample.windows_locale Sample.json_load
      Sample.object_attr
      (mkLocState (localisator_init "fr_FR" ["loc"]) Sample.loc_world)
    = (Ok tt, s') ∧
    loc_self s' !! "language" = Some (VStr "en_US") ∧
    loc_self s' !! "lang_path" = Some (VPath ["loc"; "en_US"]) ∧
    loc_self s' !! "main" = Some (VSection main) ∧
    main !! "title" = Some (VStr "Hello").
Proof.
  destruct (load_lang_falls_back_to_default Sample.listing (Ok 1031%Z)
              Sample.windows_locale Sample.json_load Sample.object_attr listing_perm
              "fr_FR" ["loc"] Sample.loc_world)
    as (_ & _ & lang_files & Hglob & _ & Hrun);
    [by_computation|intros E; discriminate E|by_computation|].
  rewrite Hrun. clear Hrun.
  assert (lang_files = [["loc"; "en_US"; "settings.json"]; ["loc"; "en_US"; "main.json"]])
    as ->.
  { match type of Hglob with
    | ?g = (_, ?w) =>
        assert (g = (Ok [["loc"; "en_US"; "settings.json"]; ["loc"; "en_US"; "main.json"]], w))
          as E by by_computation
    end.
    rewrite E in Hglob. by injection Hglob. }
  match goal with
  | |- ∃ s' main, ?run = _ ∧ _ =>
      let r := eval vm_compute in run in
      match r with
      | (_, ?s) =>
          match eval vm_compute in (loc_self s !! "main") with
          | Some (VSection ?d) =>
              exists s, d; split; [by_computation|]
          end
      end
  end.
  repeat split; by_computation.
Defined.

(** * Further properties of the code *)

(** ** [delete_file], [validate_paths] and the constructor *)

Section EditorMoreFacts.

Variable run_process : list string → gmap Path Node → ProcOutcome * gmap Path Node.
Variable requests_get : string → HttpOutcome.
Variable self : AudioTranslationEditor.

(** X1. [delete_file] never raises and writes exactly one log record.  A
    regular file at the path is removed and the record is an [INFO]; in every
    other case (nothing there, or a directory) the record is an [ERROR] and
    the path is left as it was.  No other path changes, and no program is
    started. *)
Theorem delete_file_removes_only_target (p : Path) (w : World) :
  ∃ w' record,
    delete_file p w = (Ok tt, w') ∧
    calls w' = calls w ∧
    log w' = log w ++ [record] ∧
    rec_level record = (if PyFS.is_file (fs w) p then INFO else ERROR) ∧
    fs w' !! p = (if PyFS.is_file (fs w) p then None else fs w !! p) ∧
    ∀ q, q ≠ p → fs w' !! q = fs w !! q.
Proof.
  unfold delete_file, PyFS.is_file, try_except, PyFS.unlink, mbind, M_bind.
  destruct (fs w !! p) as [[|data]|] eqn:E; cbn; eexists _, _;
    (split; [reflexivity|]); cbn; (split; [done|]); (split; [done|]);
    (split; [done|]).
  - by split.
  - split; [apply lookup_delete_eq|]. intros q Hq. by apply lookup_delete_ne.
  - by split.
Qed.

(** X2. [validate_paths] returns [True] exactly when the three tool paths
    exist.  It checks them in the order extractor, decoder, encoder and stops
    at the first that is missing: that one is reported by one [ERROR] record,
    the ones after it are not looked at.  The file system is not changed. *)
Theorem validate_paths_reports_first_missing (w : World) :
  let bsarch_exists := PyFS.exists_ (fs w) (bsarch_path self) in
  let bmlfuzdecode_exists := PyFS.exists_ (fs w) (bmlfuzdecode_path self) in
  let xwmaencode_exists := PyFS.exists_ (fs w) (xwmaencode_path self) in
  ∃ w',
    validate_paths self w
      = (Ok (bsarch_exists && bmlfuzdecode_exists && xwmaencode_exists), w') ∧
    fs w' = fs w ∧ calls w' = calls w ∧
    log w' = log w ++
      (if negb bsarch_exists then
         [mkLogRecord "AudioTranslationEditor" ERROR
            ("BSArch path does not exist: " +:+ PyPath.str (bsarch_path self))]
       else if negb bmlfuzdecode_exists then
         [mkLogRecord "AudioTranslationEditor" ERROR
            ("BmlFuzDecode path does not exist: "
             +:+ PyPath.str (bmlfuzdecode_path self))]
       else if negb xwmaencode_exists then
         [mkLogRecord "AudioTranslationEditor" ERROR
            ("xWMAEncode path does not exist: " +:+ PyPath.str (xwmaencode_path self))]
       else []).
Proof.
  intros e1 e2 e3. unfold validate_paths. rewrite bind_path_exists. fold e1.
  destruct e1; cbn [negb andb]; [|by eexists].
  rewrite bind_path_exists. fold e2.
  destruct e2; cbn [negb andb]; [|by eexists].
  rewrite bind_path_exists. fold e3.
  destruct e3; cbn [negb andb]; [|by eexists].
  exists w. by rewrite app_nil_r.
Qed.

(** What [validate_paths] leaves behind: the file system as it was, and one
    [ERROR] record when it returns [False]. *)
Lemma validate_paths_run (editor : AudioTranslationEditor) (w : World) :
  ∃ w',
    validate_paths editor w
      = (Ok (PyFS.exists_ (fs w) (bsarch_path editor)
             && PyFS.exists_ (fs w) (bmlfuzdecode_path editor)
             && PyFS.exists_ (fs w) (xwmaencode_path editor)), w') ∧
    fs w' = fs w ∧ calls w' = calls w ∧
    ∃ records,
      log w' = log w ++ records ∧
      Forall (λ r, rec_level r = ERROR) records ∧
      length records =
        (if PyFS.exists_ (fs w) (bsarch_path editor)
            && PyFS.exists_ (fs w) (bmlfuzdecode_path editor)
            && PyFS.exists_ (fs w) (xwmaencode_path editor) then 0 else 1).
Proof.
  unfold validate_paths. rewrite bind_path_exists.
  destruct (PyFS.exists_ (fs w) (bsarch_path editor)); cbn [negb andb].
  2:{ eexists. repeat (split; [done|]). eexists [_]. by repeat constructor. }
  rewrite bind_path_exists.
  destruct (PyFS.exists_ (fs w) (bmlfuzdecode_path editor)); cbn [negb andb].
  2:{ eexists. repeat (split; [done|]). eexists [_]. by repeat constructor. }
  rewrite bind_path_exists.
  destruct (PyFS.exists_ (fs w) (xwmaencode_path editor)); cbn [negb andb].
  2:{ eexists. repeat (split; [done|]). eexists [_]. by repeat constructor. }
  exists w. repeat (split; [done|]). exists []. by rewrite app_nil_r.
Qed.

(** X3. The constructor never raises.  It stores the three paths and the
    address [<xtts_url>/speakers_list], and [is_initialized] is true exactly
    when the three tool paths exist and the request to that address is
    answered with a status code outside 400..599.  The request is sent only
    when the three paths exist.  When [is_initialized] is false exactly one
    [ERROR] record was logged, otherwise none. *)
Theorem init_checks_service_only_with_tools (bsarch bmlfuzdecode xwmaencode : PathArg)
    (xtts_url : string) (s : NetWorld) :
  let url := xtts_url +:+ "/speakers_list" in
  let tools_exist :=
    PyFS.exists_ (fs (net_world s)) (as_Path bsarch)
    && PyFS.exists_ (fs (net_world s)) (as_Path bmlfuzdecode)
    && PyFS.exists_ (fs (net_world s)) (as_Path xwmaencode) in
  let service_answers :=
    match requests_get url with
    | Responded status_code _ => status_ok status_code
    | RequestFailed _ => false
    end in
  ∃ editor s' records,
    AudioTranslationEditor_init requests_get bsarch bmlfuzdecode xwmaencode xtts_url s
      = (Ok editor, s') ∧
    bsarch_path editor = as_Path bsarch ∧
    bmlfuzdecode_path editor = as_Path bmlfuzdecode ∧
    xwmaencode_path editor = as_Path xwmaencode ∧
    xtts_get_speakers_list editor = url ∧
    is_initialized editor = tools_exist && service_answers ∧
    net_requests s' = net_requests s ++ (if tools_exist then [url] else []) ∧
    fs (net_world s') = fs (net_world s) ∧
    calls (net_world s') = calls (net_world s) ∧
    log (net_world s') = log (net_world s) ++ records ∧
    Forall (λ r, rec_level r = ERROR) records ∧
    length records = (if is_initialized editor then 0 else 1).
Proof.
  intros url tools_exist service_answers.
  destruct (validate_paths_run
              (mkEditor (as_Path bsarch) (as_Path bmlfuzdecode) (as_Path xwmaencode)
                 url false) (net_world s))
    as (w1 & Hvalid & Hfs1 & Hcalls1 & recs & Hlog1 & Herr1 & Hlen1).
  cbn [bsarch_path bmlfuzdecode_path xwmaencode_path] in Hvalid, Hlen1.
  fold tools_exist in Hvalid, Hlen1.
  unfold AudioTranslationEditor_init. fold url.
  erewrite bind_ok; [|unfold lift_net; by rewrite Hvalid].
  cbn [bsarch_path bmlfuzdecode_path xwmaencode_path xtts_get_speakers_list].
  destruct tools_exist; cbn [andb].
  - destruct recs; [|done]. rewrite app_nil_r in Hlog1.
    unfold check_if_xtts_is_running, get_and_check, lift_net, mbind, M_bind.
    cbn [xtts_get_speakers_list net_world net_requests]. subst service_answers.
    destruct (requests_get url) as [status_code text|text];
      [destruct (status_ok status_code)|].
    + eexists _, _, []. split; [reflexivity|]. cbn. rewrite !app_nil_r.
      repeat (split; [done|]). by split.
    + eexists _, _, [_]. split; [reflexivity|]. cbn. rewrite Hlog1.
      repeat (split; [done|]). split; [by repeat constructor|done].
    + eexists _, _, [_]. split; [reflexivity|]. cbn. rewrite Hlog1.
      repeat (split; [done|]). split; [by repeat constructor|done].
  - eexists _, _, recs. split; [reflexivity|]. cbn. rewrite app_nil_r.
    repeat (split; [done|]). exact Hlen1.
Qed.

(** X7. Only a program that ran and failed is caught.  When the tools
    cannot be started, [convert_xwm] (on a path that has a name) and
    [decode_fuz] raise the [OSError] of the failed start to their caller;
    nothing was deleted and nothing was logged. *)
Theorem conversion_raises_when_tools_missing (file_path : Path) (w : World) :
  programs_missing run_process →
  PyPath.name file_path ≠ "" →
  (∃ errno w',
     convert_xwm run_process self file_path w = (Raise (OSError errno), w') ∧
     fs w' = fs w ∧ log w' = log w) ∧
  (∃ errno w',
     decode_fuz run_process self file_path w = (Raise (OSError errno), w') ∧
     fs w' = fs w ∧ log w' = log w).
Proof.
  intros Hmissing Hname. split.
  - destruct (with_suffix_spec file_path ".wav" Hname) as (wav & Hwav & _);
      [done | cbn; lia |].
    destruct (Hmissing [PyPath.str (xwmaencode_path self); PyPath.str file_path;
                        PyPath.str wav] (fs w)) as (errno & f' & Hrun).
    exists errno, (add_call [PyPath.str (xwmaencode_path self); PyPath.str file_path;
                             PyPath.str wav] w).
    split; [|done].
    unfold convert_xwm. rewrite Hwav, or_raise_Some, bind_ret.
    unfold try_except, mbind, M_bind, subprocess_run_check. by rewrite Hrun.
  - destruct (Hmissing [PyPath.str (bmlfuzdecode_path self); PyPath.str file_path]
                (fs w)) as (errno & f' & Hrun).
    exists errno, (add_call [PyPath.str (bmlfuzdecode_path self); PyPath.str file_path] w).
    split; [|done].
    unfold decode_fuz, try_except, mbind, M_bind, subprocess_run_check.
    by rewrite Hrun.
Qed.

End EditorMoreFacts.

(** ** [find_bsa_file] and [extract_bsa]: errors, and what the workspace holds *)

Section ExtractMoreFacts.

Variable run_process : list string → gmap Path Node → ProcOutcome * gmap Path Node.
Variable scandir_order : ∀ A : Type, list A → list A.
Variable script_dir : Path.
Variable self : AudioTranslationEditor.

Hypothesis scandir_order_perm : ∀ (A : Type) (l : list A), scandir_order A l ≡ₚ l.

#[local] Abbreviation workspace := (extract_destination script_dir).

(** X4. On a directory, [find_bsa_file] returns the name of an entry of the
    directory itself whose suffix is [.bsa] in any case, and [None] only when
    the directory has no such entry (archives further down are not looked
    for).  On a path that is no directory it raises [OSError]. *)
Theorem find_bsa_file_result (mod_path : Path) (w : World) :
  (fs w !! mod_path = Some Dir →
   ∃ r, find_bsa_file scandir_order mod_path w = (Ok r, w) ∧
        match r with
        | Some bsa_file =>
            is_Some (fs w !! (mod_path ++ [bsa_file])) ∧
            PyStr.lower (PyPath.suffix_of_name bsa_file) = ".bsa"
        | None =>
            ∀ n, is_Some (fs w !! (mod_path ++ [n])) →
                 PyStr.lower (PyPath.suffix_of_name n) ≠ ".bsa"
        end) ∧
  (fs w !! mod_path ≠ Some Dir →
   ∃ errno, find_bsa_file scandir_order mod_path w = (Raise (OSError errno), w)).
Proof.
  split.
  - intros Hmod. unfold find_bsa_file, iterdir, mbind, M_bind. rewrite Hmod.
    destruct (List.find _ _) as [file|] eqn:Hfind.
    + apply find_some in Hfind as [Hin Hsfx]. apply bool_decide_eq_true_1 in Hsfx.
      apply in_map_iff in Hin as (n & <- & Hn).
      apply (in_scandir_order _ scandir_order_perm), children_spec in Hn.
      eexists. split; [done|]. cbn. unfold PyPath.suffix in Hsfx.
      rewrite name_snoc in *. done.
    + eexists. split; [done|]. intros n Hn Hbsa.
      assert (In (mod_path ++ [n])
                (List.map (λ n, mod_path ++ [n])
                   (scandir_order _ (PyFS.children (fs w) mod_path)))) as Hin.
      { apply in_map_iff. exists n. split; [done|].
        by apply (in_scandir_order _ scandir_order_perm), children_spec. }
      apply (find_none _ _ Hfind) in Hin. apply bool_decide_eq_false_1 in Hin.
      apply Hin. unfold PyPath.suffix. by rewrite name_snoc.
  - intros Hmod. unfold find_bsa_file, iterdir, mbind, M_bind.
    destruct (fs w !! mod_path) as [[|data]|]; [done|by eexists|by eexists].
Qed.

(** The first step of [extract_bsa], whatever is at the workspace path: the
    file system only shrinks, and a workspace directory is gone with all it
    held. *)
Lemma cleanup_shrinks w :
  ∃ w1,
    when_ (PyFS.exists_ (fs w) workspace && PyFS.is_dir (fs w) workspace)
      (PyFS.rmtree workspace ;;
       log_info ("Removed existing directory: " +:+ PyPath.str workspace)) w
    = (Ok tt, w1) ∧
    calls w1 = calls w ∧
    (∀ k, fs w1 !! k = None ∨ fs w1 !! k = fs w !! k) ∧
    (fs w !! workspace = Some Dir → ∀ k, workspace `prefix_of` k → fs w1 !! k = None).
Proof.
  destruct (PyFS.is_file (fs w) workspace) eqn:Hfile.
  - unfold PyFS.is_file in Hfile. unfold PyFS.exists_, PyFS.is_dir.
    destruct (fs w !! workspace) as [[|data]|] eqn:E; [done| |done].
    rewrite (bool_decide_eq_false_2 (Some (File data) = Some Dir)) by done.
    rewrite andb_false_r. exists w. repeat split; try done. by right.
  - destruct (remove_workspace_spec script_dir w Hfile)
      as (w1 & Hw1 & Hc1 & _ & _ & Hsub & Hunder).
    exists w1. split; [done|]. split; [done|]. split; [done|].
    intros Hws k Hk. destruct (Hunder k Hk) as [|[? _]]; [done|congruence].
Qed.

(** X5. [extract_bsa] does not turn every failure into [None].  When the
    mod path is not a directory, or lies inside the workspace directory
    (which the first step removes), the listing of the mod directory raises
    [OSError] and [extract_bsa] passes it on to its caller.  No program was
    started, and nothing was added to the file system. *)
Theorem extract_bsa_raises_without_mod_directory (mod_path : Path) (w : World) :
  fs w !! mod_path ≠ Some Dir ∨
  (workspace `prefix_of` mod_path ∧ fs w !! workspace = Some Dir) →
  ∃ errno w',
    extract_bsa run_process scandir_order script_dir self mod_path w
      = (Raise (OSError errno), w') ∧
    calls w' = calls w ∧
    ∀ k, fs w' !! k = None ∨ fs w' !! k = fs w !! k.
Proof.
  intros Hmod.
  destruct (cleanup_shrinks w) as (w1 & Hw1 & Hc1 & Hsub & Hgone).
  assert (fs w1 !! mod_path ≠ Some Dir) as Hmod1.
  { destruct Hmod as [Hmod|[Hpre Hws]].
    - destruct (Hsub mod_path) as [E|E]; rewrite E; done.
    - by rewrite (Hgone Hws mod_path Hpre). }
  assert (∃ errno, find_bsa_file scandir_order mod_path w1
                   = (Raise (OSError errno), w1)) as [errno Hfind].
  { unfold find_bsa_file, iterdir, mbind, M_bind.
    destruct (fs w1 !! mod_path) as [[|data]|]; [done|by eexists|by eexists]. }
  exists errno, w1. split; [|by split].
  unfold extract_bsa. rewrite bind_path_exists, bind_path_is_dir.
  erewrite bind_ok; [|exact Hw1]. by erewrite bind_raise.
Qed.

(** [extract_bsa] on a mod directory with an archive, up to the start of the
    extractor: the workspace has been made anew, the rest of the file system
    is as it was. *)
Lemma extract_bsa_archive_start mod_path w :
  fs w !! mod_path = Some Dir →
  (∃ n, is_Some (fs w !! (mod_path ++ [n])) ∧
        PyStr.lower (PyPath.suffix_of_name n) = ".bsa") →
  fs w !! script_dir = Some Dir →
  PyFS.is_file (fs w) workspace = false →
  ¬ workspace `prefix_of` mod_path →
  ∃ bsa_file w1,
    is_Some (fs w !! (mod_path ++ [bsa_file])) ∧
    PyStr.lower (PyPath.suffix_of_name bsa_file) = ".bsa" ∧
    calls w1 = calls w ∧
    fs w1 !! workspace = Some Dir ∧
    (∀ k, ¬ workspace `prefix_of` k → fs w1 !! k = fs w !! k) ∧
    (fs_wf (fs w) = true → ∀ rel, rel ≠ [] → fs w1 !! (workspace ++ rel) = None) ∧
    extract_bsa run_process scandir_order script_dir self mod_path w =
      try_except
        (subprocess_run_check run_process
           [PyPath.str (bsarch_path self); "unpack";
            PyPath.str (PyPath.div mod_path bsa_file); PyPath.str workspace] ;;
         log_info ("Successfully extracted " +:+ bsa_file +:+ " to "
                   +:+ PyPath.str workspace) ;;
         mret (Some workspace))
        is_CalledProcessError
        (λ e, log_error ("An error occurred while extracting " +:+ bsa_file +:+ ": "
                         +:+ exn_str e) ;;
              mret None) w1.
Proof.
  intros Hmod (n & Hn & Hbsa) Hscript Hfile Hout.
  destruct (remove_workspace_spec script_dir w Hfile)
    as (w1 & Hw1 & Hc1 & Hgone & Hkeep & Hsub & Hunder).
  assert (¬ workspace `prefix_of` mod_path ++ [n]) as Hout_n.
  { intros [H| H]%prefix_snoc_inv; [done|].
    rewrite workspace_eq in H. apply app_inj_tail in H as [_ <-]. done. }
  destruct (find_bsa_file_some scandir_order scandir_order_perm mod_path w1)
    as (bsa_file & Hfind & Hin & Hsfx).
  { by rewrite Hkeep. }
  { exists n. by rewrite Hkeep. }
  assert (is_Some (fs w !! (mod_path ++ [bsa_file]))) as Hin0.
  { destruct (Hsub (mod_path ++ [bsa_file])) as [E|E]; rewrite E in Hin; [|done].
    by destruct Hin. }
  assert (bsa_file ≠ "") as Hne by (by intros ->).
  pose proof (mkdir_exist_ok_fresh workspace w1 Hgone) as Hmk.
  rewrite workspace_eq, parent_snoc, <- workspace_eq in Hmk.
  rewrite Hkeep in Hmk by (rewrite workspace_eq; apply prefix_snoc_not).
  specialize (Hmk Hscript).
  exists bsa_file, (set_fs (<[workspace := Dir]> (fs w1)) w1).
  split; [done|]. split; [done|]. split; [done|].
  split; [apply lookup_insert_eq|]. split; [|split].
  - intros k Hk. cbn. rewrite lookup_insert_ne by (by intros <-). by apply Hkeep.
  - intros Hwf rel Hrel. cbn. rewrite lookup_insert_ne.
    2:{ intros E. rewrite <- (app_nil_r workspace) in E at 1.
        by apply app_inv_head in E. }
    destruct (Hunder (workspace ++ rel)) as [|[Hnows ->]]; [by eexists|done|].
    destruct (fs w !! (workspace ++ rel)) as [x|] eqn:E; [|done].
    destruct (fs_wf_spec (fs w) (workspace ++ rel) Hwf) as [_ Hanc]; [by eexists|].
    rewrite (Hanc workspace) in Hnows; [done|by eexists|].
    intros E'. rewrite <- (app_nil_r workspace) in E' at 1.
    by apply app_inv_head in E'.
  - unfold extract_bsa. rewrite bind_path_exists, bind_path_is_dir.
    erewrite bind_ok; [|exact Hw1].
    erewrite bind_ok; [|exact Hfind].
    cbn [truthy default]. rewrite bool_decide_eq_false_2 by done. cbn [negb].
    erewrite bind_ok; [|exact Hmk]. done.
Qed.


(** X8. The workspace is made anew before the extractor runs.  On a
    well-formed file system, with an archive in the mod directory and an
    extractor that runs to its end: the extractor is started on a file system
    in which the workspace is an empty directory and everything outside the
    workspace is as it was before the call; what [extract_bsa] leaves is what
    the extractor left. *)
Theorem extract_bsa_archive_fresh_workspace (mod_path : Path) (w : World) :
  programs_exit run_process →
  fs_wf (fs w) = true →
  fs w !! mod_path = Some Dir →
  (∃ n, is_Some (fs w !! (mod_path ++ [n])) ∧
        PyStr.lower (PyPath.suffix_of_name n) = ".bsa") →
  fs w !! script_dir = Some Dir →
  PyFS.is_file (fs w) workspace = false →
  ¬ workspace `prefix_of` mod_path →
  ∃ bsa_file f code f' r w',
    run_process [PyPath.str (bsarch_path self); "unpack";
                 PyPath.str (PyPath.div mod_path bsa_file);
                 PyPath.str workspace] f = (Exited code, f') ∧
    extract_bsa run_process scandir_order script_dir self mod_path w = (Ok r, w') ∧
    fs w' = f' ∧
    f !! workspace = Some Dir ∧
    (∀ rel, rel ≠ [] → f !! (workspace ++ rel) = None) ∧
    (∀ k, ¬ workspace `prefix_of` k → f !! k = fs w !! k).
Proof.
  intros Hexit Hwf Hmod Hbsa Hscript Hfile Hout.
  destruct (extract_bsa_archive_start mod_path w Hmod Hbsa Hscript Hfile Hout)
    as (bsa_file & w1 & _ & _ & _ & Hws & Hkeep & Hfresh & Hrun).
  destruct (Hexit [PyPath.str (bsarch_path self); "unpack";
                   PyPath.str (PyPath.div mod_path bsa_file); PyPath.str workspace]
              (fs w1)) as (code & f' & Hstart).
  exists bsa_file, (fs w1), code, f'.
  assert (∃ r w', extract_bsa run_process scandir_order script_dir self mod_path w
                  = (Ok r, w') ∧ fs w' = f') as (r & w' & Hres & Hf').
  { rewrite Hrun, (run_try run_process _ w1 code f' _ _ Hstart).
    case_bool_decide; cbn; by eexists _, _. }
  exists r, w'. split; [done|]. split; [done|]. split; [done|]. split; [done|].
  split; [by apply Hfresh|done].
Qed.

(** X9. Loose files: what the workspace holds afterwards, and what is left
    alone.  On a well-formed file system, for a mod directory without an
    archive that lies apart from the workspace: [extract_bsa] changes nothing
    outside the workspace (the mod tree is only read); everything in the
    workspace afterwards is at the same relative place in the mod tree, so
    nothing of an earlier extraction is left; and every regular file in the
    workspace has a name that ends in [.fuz] or [.xwm] in any case. *)
Theorem extract_bsa_loose_files_mirror (mod_path : Path) (w : World) :
  fs_wf (fs w) = true →
  fs w !! mod_path = Some Dir →
  (∀ n, is_Some (fs w !! (mod_path ++ [n])) →
        PyStr.lower (PyPath.suffix_of_name n) ≠ ".bsa") →
  fs w !! script_dir = Some Dir →
  PyFS.is_file (fs w) workspace = false →
  ¬ workspace `prefix_of` mod_path →
  ¬ mod_path `prefix_of` workspace →
  ∃ r w',
    extract_bsa run_process scandir_order script_dir self mod_path w = (Ok r, w') ∧
    (∀ k, ¬ workspace `prefix_of` k → fs w' !! k = fs w !! k) ∧
    (∀ rel x, fs w' !! (workspace ++ rel) = Some x →
              fs w !! (mod_path ++ rel) = Some x) ∧
    (∀ rel file data, fs w' !! (workspace ++ rel ++ [file]) = Some (File data) →
                      is_audio_name file = true).
Proof.
  intros Hwf Hmod Hnobsa Hscript Hfile Hout Hin.
  pose proof (disjoint_below _ _ Hout Hin) as Hsrc_out.
  destruct (remove_workspace_spec script_dir w Hfile)
    as (w1 & Hw1 & Hc1 & Hgone & Hkeep & Hsub & Hunder).
  assert (∀ k, workspace `prefix_of` k → fs w1 !! k = None) as Hempty.
  { intros k Hk. destruct (Hunder k Hk) as [|[Hnows ->]]; [done|].
    destruct (fs w !! k) as [x|] eqn:E; [|done].
    destruct (decide (workspace = k)) as [<-|Hne]; [congruence|].
    destruct (fs_wf_spec (fs w) k Hwf) as [_ Hanc]; [by eexists|].
    rewrite (Hanc workspace) in Hnows; done. }
  assert (fs w1 !! mod_path = Some Dir) as Hmod1 by by rewrite Hkeep.
  assert (find_bsa_file scandir_order mod_path w1 = (Ok None, w1)) as Hfind.
  { apply find_bsa_file_none; [done|done|]. intros n Hn. apply Hnobsa.
    by destruct (Hsub (mod_path ++ [n])) as [E|E]; rewrite E in Hn; [destruct Hn|]. }
  destruct (find_audio_files_full scandir_order script_dir scandir_order_perm mod_path w1)
    as (r & w2 & Hfaf & _ & Hkeep2 & _ & _ & _ & Hmirror & Haudio); try done.
  { intros k [x ->] Hk.
    assert (is_Some (fs w !! (mod_path ++ x))) as Hk0 by by rewrite <- Hkeep.
    destruct (fs_wf_spec _ _ Hwf Hk0) as [Hplain Hanc]. split; [done|].
    intros a Ha Hne. rewrite Hkeep; [by apply Hanc|].
    intros Hws. apply (Hsrc_out x). by etrans. }
  { rewrite Hkeep; [done|]. rewrite workspace_eq. apply prefix_snoc_not. }
  assert (∃ w', extract_bsa run_process scandir_order script_dir self mod_path w
                = (Ok r, w') ∧ fs w' = fs w2) as (w' & Hrun & Hf').
  { unfold extract_bsa. rewrite bind_path_exists, bind_path_is_dir.
    erewrite bind_ok; [|exact Hw1].
    erewrite bind_ok; [|exact Hfind]. cbn [truthy].
    erewrite bind_ok; [|exact Hfaf].
    destruct r; eexists; split; done. }
  exists r, w'. rewrite Hf'. split; [done|]. split; [|split].
  - intros k Hk. by rewrite Hkeep2, Hkeep.
  - intros rel x Hx. rewrite <- Hkeep by apply Hsrc_out. by apply Hmirror.
  - done.
Qed.

End ExtractMoreFacts.

(** ** [convert_audio_files] *)

Section ConvertFacts.

Variable run_process : list string → gmap Path Node → ProcOutcome * gmap Path Node.
Variable scandir_order : ∀ A : Type, list A → list A.
Variable self : AudioTranslationEditor.

Hypothesis scandir_order_perm : ∀ (A : Type) (l : list A), scandir_order A l ≡ₚ l.

#[local] Abbreviation convert_file' := (convert_file run_process self).

(** With programs that run to their end, [convert_xwm] and [decode_fuz]
    return for every path that has a name. *)
Lemma convert_xwm_returns file_path w :
  programs_exit run_process → PyPath.name file_path ≠ "" →
  ∃ w', convert_xwm run_process self file_path w = (Ok tt, w').
Proof.
  intros Hexit Hname.
  destruct (with_suffix_spec file_path ".wav" Hname) as (wav & Hwav & _);
    [done | cbn; lia |].
  destruct (Hexit [PyPath.str (xwmaencode_path self); PyPath.str file_path;
                   PyPath.str wav] (fs w)) as (code & f' & Hrun).
  destruct (convert_xwm_spec run_process self _ _ _ _ _ Hwav Hrun) as (w' & Hw' & _).
  by exists w'.
Qed.

Lemma decode_fuz_returns file_path w :
  programs_exit run_process → PyPath.name file_path ≠ "" →
  ∃ w', decode_fuz run_process self file_path w = (Ok tt, w').
Proof.
  intros Hexit Hname.
  destruct (with_suffix_spec file_path ".xwm" Hname) as (xwm & Hxwm & _ & _ & Hxname);
    [done | cbn; lia |].
  destruct (with_suffix_spec file_path ".lip" Hname) as (lip & Hlip & _);
    [done | cbn; lia |].
  destruct (Hexit [PyPath.str (bmlfuzdecode_path self); PyPath.str file_path] (fs w))
    as (code & f1 & Hrun).
  unfold decode_fuz.
  lazymatch goal with
  | |- context [try_except (_ ≫= λ _, ?ok) _ ?h] =>
      destruct (run_caught run_process _ w code f1 ok h Hrun) as (w1 & Hw1 & _);
      [intros; by eexists | intros; by eexists |]
  end.
  erewrite bind_ok; [|exact Hw1].
  rewrite Hxwm, or_raise_Some, bind_ret, bind_path_exists.
  assert (∃ w2, when_ (PyFS.exists_ (fs w1) xwm) (convert_xwm run_process self xwm) w1
                = (Ok tt, w2)) as [w2 Hw2].
  { destruct (PyFS.exists_ (fs w1) xwm); [|by eexists].
    by apply convert_xwm_returns. }
  erewrite bind_ok; [|exact Hw2].
  destruct (delete_file_spec file_path w2) as (w3 & Hw3 & _).
  erewrite bind_ok; [|exact Hw3].
  rewrite Hlip, or_raise_Some, bind_ret, bind_path_exists.
  destruct (when_exists_delete_spec lip w3) as (w4 & Hw4 & _). by exists w4.
Qed.

Lemma is_convertible_spec file_path :
  is_convertible file_path =
  bool_decide (PyStr.lower (PyPath.suffix file_path) = ".fuz")
  || bool_decide (PyStr.lower (PyPath.suffix file_path) = ".xwm")
  || bool_decide (PyStr.lower (PyPath.suffix file_path) = ".lip").
Proof.
  unfold is_convertible. generalize (PyStr.lower (PyPath.suffix file_path)) as s.
  intros s. destruct (bool_decide (s ∈ [".fuz"; ".xwm"; ".lip"])) eqn:E.
  - apply bool_decide_eq_true_1 in E. rewrite !elem_of_cons, elem_of_nil in E.
    by destruct E as [->|[->|[->|[]]]].
  - apply bool_decide_eq_false_1 in E. rewrite !elem_of_cons, elem_of_nil in E.
    rewrite !bool_decide_eq_false_2; [done|..]; intros ->; apply E; auto.
Qed.

(** One round of the loop: a file of another suffix is passed over; for a
    file of one of the three suffixes the round returns, with the flag set. *)
Lemma convert_file_skip subdir found file w :
  is_convertible (PyPath.div subdir file) = false →
  convert_file' subdir found file w = (Ok found, w).
Proof.
  rewrite is_convertible_spec. intros H.
  apply orb_false_iff in H as [[H1 H2]%orb_false_iff H3].
  unfold convert_file. by rewrite H1, H2, H3.
Qed.

Lemma convert_file_returns subdir found file w :
  programs_exit run_process →
  ∃ w', convert_file' subdir found file w
        = (Ok (found || is_convertible (PyPath.div subdir file)), w') ∧
        (is_convertible (PyPath.div subdir file) = false → w' = w).
Proof.
  intros Hexit. destruct (is_convertible (PyPath.div subdir file)) eqn:Hconv.
  2:{ exists w. rewrite convert_file_skip by done. by rewrite orb_false_r. }
  rewrite orb_true_r.
  assert (PyPath.name (PyPath.div subdir file) ≠ "") as Hname.
  { intros E. rewrite is_convertible_spec in Hconv. unfold PyPath.suffix in Hconv.
    by rewrite E in Hconv. }
  unfold convert_file. repeat case_bool_decide.
  - destruct (decode_fuz_returns _ w Hexit Hname) as [w' Hw'].
    exists w'. by erewrite bind_ok.
  - destruct (convert_xwm_returns _ w Hexit Hname) as [w' Hw'].
    exists w'. by erewrite bind_ok.
  - destruct (delete_file_spec (PyPath.div subdir file) w) as (w' & Hw' & _).
    exists w'. by erewrite bind_ok.
  - rewrite is_convertible_spec in Hconv.
    rewrite !bool_decide_eq_false_2 in Hconv by done. done.
Qed.

(** The loop over the files of one directory *)
Lemma convert_files_returns subdir files found w :
  programs_exit run_process →
  ∃ w', for_fold files found (convert_file' subdir) w
        = (Ok (found || existsb (λ n, is_convertible (PyPath.div subdir n)) files), w') ∧
        (found || existsb (λ n, is_convertible (PyPath.div subdir n)) files = false →
         w' = w).
Proof.
  intros Hexit. revert found w. induction files as [|file files IH]; intros found w.
  - exists w. cbn. by rewrite orb_false_r.
  - destruct (convert_file_returns subdir found file w Hexit) as (w1 & Hw1 & Hsame).
    destruct (IH (found || is_convertible (PyPath.div subdir file)) w1)
      as (w2 & Hw2 & Hsame2).
    exists w2. cbn [for_fold existsb]. erewrite bind_ok; [|exact Hw1].
    rewrite orb_assoc. split; [done|]. intros Hnone.
    rewrite (Hsame2 Hnone). apply Hsame.
    apply orb_false_iff in Hnone as [[_ ?]%orb_false_iff _]. done.
Qed.

(** A loop whose every round gives back the state and the accumulator *)
Lemma for_fold_const {A B} (l : list A) (body : B → A → M World B) acc w :
  (∀ x acc', In x l → body acc' x w = (Ok acc', w)) →
  for_fold l acc body w = (Ok acc, w).
Proof.
  induction l as [|x l IH]; intros Hbody; [done|].
  cbn [for_fold]. erewrite bind_ok; [|apply Hbody; by left].
  apply IH. intros y acc' Hy. apply Hbody. by right.
Qed.

Lemma filter_none {A} (P : A → bool) (l : list A) :
  (∀ x, In x l → P x = false) → List.filter P l = [].
Proof.
  induction l as [|x l IH]; intros H; [done|].
  cbn. rewrite (H x) by by left. apply IH. intros y Hy. apply H. by right.
Qed.

Lemma filter_all {A} (P : A → bool) (l : list A) :
  (∀ x, In x l → P x = true) → List.filter P l = l.
Proof.
  induction l as [|x l IH]; intros H; [done|].
  cbn. rewrite (H x) by by left. f_equal. apply IH. intros y Hy. apply H. by right.
Qed.

(** The walk over a tree in which there is nothing to convert: it comes back
    with the flag and the state it was given, when the fuel covers the
    depth of the tree. *)
Lemma walk_nothing fuel top (found : bool) w :
  fs_wf (fs w) = true →
  (∀ k, top `prefix_of` k → is_Some (fs w !! k) → length k < length top + fuel) →
  (∀ k data, top `prefix_of` k → fs w !! k = Some (File data) →
             is_convertible k = false) →
  walk_fold scandir_order fuel convert_file' top found w = (Ok (Some found), w).
Proof.
  intros Hwf. revert top found. induction fuel as [|fuel IH]; intros top found Hdepth Hnone.
  - cbn [walk_fold]. destruct (fs w !! top) as [[|data]|] eqn:E; try done.
    assert (length top < length top + 0) by (apply Hdepth; [done|by eexists]). lia.
  - cbn [walk_fold]. destruct (fs w !! top) as [[|data]|] eqn:E; try done.
    erewrite bind_ok.
    2:{ apply for_fold_const. intros n acc' Hn.
        apply filter_In in Hn as [Hn Hnodir].
        apply (in_scandir_order _ scandir_order_perm), children_spec in Hn as [x Hx].
        apply negb_true_iff, bool_decide_eq_false_1 in Hnodir.
        destruct x as [|data]; [done|].
        destruct (fs_wf_spec _ _ Hwf (mk_is_Some _ _ Hx)) as [Hplain _].
        apply Forall_app in Hplain as [_ Hplain]. inversion Hplain; subst.
        apply convert_file_skip. rewrite div_plain by done.
        apply (Hnone _ data); [by eexists|done]. }
    apply for_fold_const. intros d [a|] Hd; [|done].
    apply filter_In in Hd as [_ Hdir]. apply bool_decide_eq_true_1 in Hdir.
    apply IH.
    + intros k Hk HkSome. rewrite length_app. cbn.
      assert (length k < length top + S fuel); [|lia].
      apply Hdepth; [|done]. etrans; [|exact Hk]. by eexists.
    + intros k data Hk. apply Hnone. etrans; [|exact Hk]. by eexists.
Qed.

(** X10. Nothing to convert.  On a well-formed file system, when no regular
    file at or below the path has the suffix [.fuz], [.xwm] or [.lip] in any
    case (the path may be missing or no directory at all),
    [convert_audio_files] returns [False]: it has started no program, changed
    no file and logged one [ERROR] record.  The walk is given fuel for the
    depth of the tree. *)
Theorem convert_audio_files_nothing_to_convert (fuel : nat) (extract_path : Path)
    (w : World) :
  fs_wf (fs w) = true →
  (∀ k, extract_path `prefix_of` k → is_Some (fs w !! k) →
        length k < length extract_path + fuel) →
  (∀ k data, extract_path `prefix_of` k → fs w !! k = Some (File data) →
             is_convertible k = false) →
  convert_audio_files run_process scandir_order self fuel extract_path w
  = (Ok (Some false),
     add_log (mkLogRecord "AudioTranslationEditor" ERROR
                ("No .bsa or .fuz/.xwm files found in " +:+ PyPath.str extract_path)) w).
Proof.
  intros Hwf Hdepth Hnone. unfold convert_audio_files.
  erewrite bind_ok; [|by apply walk_nothing]. reflexivity.
Qed.

(** X11. A directory without subdirectories.  With programs that run to
    their end, [convert_audio_files] on a directory that holds regular files
    only returns, without raising; the result is [True] exactly when one of
    the files has the suffix [.fuz], [.xwm] or [.lip] in any case, and when it
    is [False] all that has happened is one [ERROR] record. *)
Theorem convert_audio_files_flat_directory (fuel : nat) (extract_path : Path)
    (w : World) :
  programs_exit run_process →
  fs w !! extract_path = Some Dir →
  (∀ n, is_Some (fs w !! (extract_path ++ [n])) →
        PyPath.plain_name n = true ∧ fs w !! (extract_path ++ [n]) ≠ Some Dir) →
  ∃ found w',
    convert_audio_files run_process scandir_order self (S fuel) extract_path w
      = (Ok (Some found), w') ∧
    (found = true ↔
     ∃ n, is_Some (fs w !! (extract_path ++ [n])) ∧
          is_convertible (extract_path ++ [n]) = true) ∧
    (found = false →
     w' = add_log (mkLogRecord "AudioTranslationEditor" ERROR
                     ("No .bsa or .fuz/.xwm files found in "
                      +:+ PyPath.str extract_path)) w).
Proof.
  intros Hexit Hdir Hflat.
  set (names := scandir_order _ (PyFS.children (fs w) extract_path)).
  assert (∀ n, In n names ↔ is_Some (fs w !! (extract_path ++ [n]))) as Hnames.
  { intros n. unfold names.
    by rewrite (in_scandir_order _ scandir_order_perm), children_spec. }
  assert (List.filter (λ n, PyFS.is_dir (fs w) (extract_path ++ [n])) names = [])
    as Hdirs.
  { apply filter_none. intros n Hn. apply bool_decide_eq_false_2.
    by apply Hflat, Hnames. }
  assert (List.filter (λ n, negb (PyFS.is_dir (fs w) (extract_path ++ [n]))) names
          = names) as Hfiles.
  { apply filter_all. intros n Hn. apply negb_true_iff, bool_decide_eq_false_2.
    by apply Hflat, Hnames. }
  destruct (convert_files_returns extract_path names false w Hexit)
    as (w1 & Hloop & Hsame).
  cbn [orb] in Hloop, Hsame.
  set (found := existsb (λ n, is_convertible (PyPath.div extract_path n)) names) in *.
  assert (walk_fold scandir_order (S fuel) convert_file' extract_path false w
          = (Ok (Some found), w1)) as Hwalk.
  { cbn [walk_fold]. rewrite Hdir. fold names. rewrite Hdirs, Hfiles.
    erewrite bind_ok; [|exact Hloop]. reflexivity. }
  assert (found = true ↔
          ∃ n, is_Some (fs w !! (extract_path ++ [n])) ∧
               is_convertible (extract_path ++ [n]) = true) as Hfound.
  { unfold found. rewrite existsb_exists. split.
    - intros (n & Hn & Hconv). apply Hnames in Hn. exists n.
      rewrite div_plain in Hconv by by apply Hflat. done.
    - intros (n & Hn & Hconv). exists n. split; [by apply Hnames|].
      rewrite div_plain by by apply Hflat. done. }
  unfold convert_audio_files. erewrite bind_ok; [|exact Hwalk].
  destruct found.
  - exists true, w1. split; [reflexivity|]. split; [exact Hfound|done].
  - rewrite (Hsame eq_refl). eexists false, _. split; [reflexivity|].
    split; [exact Hfound|done].
Qed.

End ConvertFacts.

(** ** Localisation: loaded strings, missing sections, loading a language *)

Section LocalisationMoreFacts.

Variable scandir_order : ∀ A : Type, list A → list A.
Variable GetUserDefaultLangID : Result Z.
Variable windows_locale : Z → option string.
Variable json_load : string → Result (list (string * string)).
Variable object_attr : string → option Value.

Hypothesis scandir_order_perm : ∀ (A : Type) (l : list A), scandir_order A l ≡ₚ l.

(** One assignment per item: the last item of a key decides. *)
Lemma fold_items_lookup (items : list (string * string)) (d0 : gmap string Value) key :
  fold_left (λ d kv, <[kv.1 := VStr kv.2]> d) items d0 !! key =
  match last_value items key with
  | Some value => Some (VStr value)
  | None => d0 !! key
  end.
Proof.
  unfold last_value. induction items as [|[k v] items IH] using rev_ind; [done|].
  rewrite fold_left_app, rev_unit. cbn [fold_left List.find fst snd].
  case_bool_decide as Hk.
  - subst k. cbn. apply lookup_insert_eq.
  - by rewrite lookup_insert_ne.
Qed.

(** The attributes of a section all of whose items were assigned *)
Lemma loaded_section_lookup (logger file_name : string) (items : list (string * string))
    key :
  keys_assignable items →
  loaded_section logger file_name items !! key =
  match last_value items key with
  | Some value => Some (VStr value)
  | None =>
      <["__getattribute__" := VMethod "Localisator" "__getattribute__"]>
        (section_init (VLogger logger) (VStr file_name)) !! key
  end.
Proof.
  intros Hkeys. unfold loaded_section.
  rewrite assign_items_assignable by done. apply fold_items_lookup.
Qed.

(** X12. What was loaded is found.  In the section that [load_lang] builds
    from a file none of whose keys is [__class__], [__dict__] or
    [__weakref__] (the names whose assignment Python refuses), the lookup of
    a key of the file returns the value of the last item with that key; it
    logs nothing and changes nothing.  This holds also for a key that is
    named like an attribute the section has anyway ([log], [_name]): the
    loaded value takes its place. *)
Theorem loaded_key_lookup (logger file_name : string) (items : list (string * string))
    (key value : string) (w : World) :
  keys_assignable items →
  last_value items key = Some value →
  section_getattribute object_attr (loaded_section logger file_name items) key w
  = (Ok (VStr value), w).
Proof.
  intros Hkeys Hlast. unfold section_getattribute, object_getattribute.
  by rewrite loaded_section_lookup, Hlast.
Qed.

(** X19. A file with a key named [log] loses the leniency for its missing
    keys.  In the section that [load_lang] builds from a file one of whose
    keys is [log] (and none of whose keys is [__class__], [__dict__] or
    [__weakref__], so that every key is assigned), the loaded text takes the
    place of the logger; the lookup of a name that is neither a key of the
    file nor an attribute of a section then does not return the name: it
    raises [AttributeError], and nothing is logged. *)
Theorem loaded_log_key_breaks_missing_lookup (logger file_name : string)
    (items : list (string * string)) (text name : string) (w : World) :
  keys_assignable items →
  last_value items "log" = Some text →
  last_value items name = None →
  name ≠ "__getattribute__" →
  object_getattribute object_attr section_class_attr
    (section_init (VLogger logger) (VStr file_name)) name = None →
  section_getattribute object_attr (loaded_section logger file_name items) name w
  = (Raise (AttributeError "warning"), w).
Proof.
  intros Hkeys Hlog Hname Hga Hfresh.
  apply (section_lookup_raises_without_logger _ _ _ text).
  - unfold object_getattribute in *.
    rewrite loaded_section_lookup, Hname by done. rewrite lookup_insert_ne by done.
    by destruct (section_init (VLogger logger) (VStr file_name) !! name).
  - by rewrite loaded_section_lookup, Hlog.
Qed.

(** X13. A section that was never loaded.  The lookup of a name that is no
    attribute of the [Localisator] logs one warning and returns a new section
    that prints as the looked-up name; the lookup of a key in that section
    logs a second warning and returns the key.  So [loc.<section>.<key>] for
    a missing section gives the text of the key, with two warnings.  The new
    section is not stored in the [Localisator]. *)
Theorem missing_section_then_key (dict : gmap string Value) (logger name key : string)
    (w : World) :
  dict !! "log" = Some (VLogger logger) →
  object_getattribute object_attr localisator_class_attr dict name = None →
  object_getattribute object_attr section_class_attr
    (section_init (VLogger logger) (VStr name)) key = None →
  ∃ section w1 w2,
    localisator_getattribute object_attr dict name w = (Ok (VSection section), w1) ∧
    section_repr object_attr section = Ok name ∧
    section_getattribute object_attr section key w1 = (Ok (VStr key), w2) ∧
    fs w2 = fs w ∧
    log w2 = log w ++
      [mkLogRecord logger WARNING
         ("Missing localisation section for " +:+ PyStr.repr name +:+ "!");
       mkLogRecord logger WARNING
         ("Missing localisation for " +:+ PyStr.repr key +:+ " in " +:+ name +:+ "!")].
Proof.
  intros Hlog Hname Hkey.
  assert (section_repr object_attr (section_init (VLogger logger) (VStr name)) = Ok name)
    as Hrepr.
  { unfold section_repr, object_getattribute, section_init. by rewrite lookup_insert_eq. }
  eexists _, _, _. split; [|split; [exact Hrepr|split; [|split]]].
  - unfold localisator_getattribute. rewrite Hname.
    unfold object_getattribute at 1. rewrite Hlog. reflexivity.
  - unfold section_getattribute. rewrite Hkey, Hrepr.
    unfold object_getattribute at 1. unfold section_init at 1.
    rewrite lookup_insert_ne by done. rewrite lookup_insert_eq. reflexivity.
  - done.
  - cbn. by rewrite <- app_assoc.
Qed.

(** The loop of [load_lang] over files that can be read and parsed, whose
    stems and keys can be assigned, and whose stems differ: every file ends
    up as a section under its stem, and the other attributes of the
    [Localisator] stay. *)
Lemma for_each_load_lang_file (files : list Path) (dict : gmap string Value)
    (logger : string) (w : World) :
  dict !! "log" = Some (VLogger logger) →
  dict !! "__getattribute__" = None →
  (∀ q, In q files →
     (∃ data items, fs w !! q = Some (File data) ∧ json_load data = Ok items ∧
                    keys_assignable items) ∧
     setattr_refused (PyPath.stem q) = None ∧
     PyPath.stem q ≠ "log" ∧ PyPath.stem q ≠ "__getattribute__") →
  (∀ q q', In q files → In q' files → PyPath.stem q = PyPath.stem q' → q = q') →
  ∃ dict',
    for_each files (load_lang_file json_load object_attr) (mkLocState dict w)
      = (Ok tt, mkLocState dict' w) ∧
    (∀ q data items,
       In q files → fs w !! q = Some (File data) → json_load data = Ok items →
       dict' !! PyPath.stem q
       = Some (VSection (loaded_section logger (PyPath.name q) items))) ∧
    (∀ key, (∀ q, In q files → PyPath.stem q ≠ key) → dict' !! key = dict !! key).
Proof.
  revert dict. induction files as [|q files IH]; intros dict Hlog Hga Hfiles Hinj.
  { exists dict. by repeat split. }
  destruct (Hfiles q) as ((data & items & Hq & Hjson & Hkeys) & Hstem0 & Hstem1 & Hstem2);
    [by left|].
  pose proof (load_lang_file_spec json_load object_attr dict logger data q items w
                Hlog Hga Hstem2 Hstem0 Hq Hjson) as Hload.
  rewrite assign_items_assignable in Hload by done. cbn [snd] in Hload.
  destruct (IH (<[PyPath.stem q :=
                    VSection (loaded_section logger (PyPath.name q) items)]> dict))
    as (dict' & Hrun & Hsections & Hframe).
  { by rewrite lookup_insert_ne. }
  { by rewrite lookup_insert_ne. }
  { intros q' Hq'. apply Hfiles. by right. }
  { intros q1 q2 H1 H2. apply Hinj; by right. }
  exists dict'. split; [|split].
  - cbn [for_each]. erewrite bind_ok; [|exact Hload]. exact Hrun.
  - intros q' data' items' [<-|Hq'] Hdata' Hjson'; [|by eapply Hsections].
    rewrite Hq in Hdata'. injection Hdata' as <-.
    rewrite Hjson in Hjson'. injection Hjson' as <-.
    destruct (decide (q ∈ files)) as [Hin|Hnotin].
    + apply list_elem_of_In in Hin. by eapply Hsections.
    + rewrite Hframe; [apply lookup_insert_eq|].
      intros q2 H2 E. apply Hnotin. apply list_elem_of_In.
      rewrite (Hinj q q2); [done|by left|by right|done].
  - intros key Hkey. rewrite Hframe.
    + apply lookup_insert_ne. apply Hkey. by left.
    + intros q' Hq'. apply Hkey. by right.
Qed.

(** X14. Loading a language that is there.  For a language tag (one
    ordinary name, not ["System"]) whose directory exists, when every
    [*.json] entry of the directory is a file that parses, no two of them have
    the same stem, none has the stem [log] or [__getattribute__], and no stem
    and no key is [__class__], [__dict__] or [__weakref__] (the names whose
    assignment Python refuses): [load_lang] returns and logs nothing; for
    every such file and every key of it, [loc.<stem>] is a section and
    [loc.<stem>.<key>] is the value of the key, both found without a warning;
    every attribute of the [Localisator] that is not the stem of a file is as
    the constructor set it. *)
Theorem load_lang_loads_language (lang : string) (root : Path) (w : World) :
  PyPath.plain_name lang = true →
  lang ≠ "System" →
  fs w !! (root ++ [lang]) = Some Dir →
  (∀ n, is_Some (fs w !! (root ++ [lang; n])) → PyStr.fnmatch "*.json" n = true →
     (∃ data items, fs w !! (root ++ [lang; n]) = Some (File data) ∧
                    json_load data = Ok items ∧ keys_assignable items) ∧
     setattr_refused (PyPath.stem_of_name n) = None ∧
     PyPath.stem_of_name n ≠ "log" ∧ PyPath.stem_of_name n ≠ "__getattribute__") →
  (∀ n n', is_Some (fs w !! (root ++ [lang; n])) →
           is_Some (fs w !! (root ++ [lang; n'])) →
           PyStr.fnmatch "*.json" n = true → PyStr.fnmatch "*.json" n' = true →
           PyPath.stem_of_name n = PyPath.stem_of_name n' → n = n') →
  ∃ dict',
    load_lang scandir_order GetUserDefaultLangID windows_locale json_load object_attr
      (mkLocState (localisator_init lang root) w)
    = (Ok tt, mkLocState dict' w) ∧
    (∀ n data items,
       fs w !! (root ++ [lang; n]) = Some (File data) →
       PyStr.fnmatch "*.json" n = true →
       json_load data = Ok items →
       localisator_getattribute object_attr dict' (PyPath.stem_of_name n) w
       = (Ok (VSection (loaded_section "Localisation" n items)), w) ∧
       ∀ key value,
         last_value items key = Some value →
         section_getattribute object_attr (loaded_section "Localisation" n items) key w
         = (Ok (VStr value), w)) ∧
    (∀ key,
       (∀ n, is_Some (fs w !! (root ++ [lang; n])) → PyStr.fnmatch "*.json" n = true →
             PyPath.stem_of_name n ≠ key) →
       dict' !! key = localisator_init lang root !! key).
Proof.
  intros Hplain Hlang Hdir Hfiles Hinj.
  set (p := root ++ [lang]).
  assert (∀ n, root ++ [lang; n] = p ++ [n]) as Hp.
  { intros n. unfold p. by rewrite <- app_assoc. }
  setoid_rewrite Hp in Hfiles. setoid_rewrite Hp in Hinj. setoid_rewrite Hp.
  destruct (glob_spec scandir_order scandir_order_perm p "*.json" w)
    as (lang_files & Hglob & Hlisted).
  assert (∀ q, In q lang_files ↔
               ∃ n, q = p ++ [n] ∧ is_Some (fs w !! (p ++ [n])) ∧
                    PyStr.fnmatch "*.json" n = true) as Hin.
  { intros q. rewrite Hlisted. split.
    - intros (n & -> & _ & Hn & Hmatch). by exists n.
    - intros (n & -> & Hn & Hmatch). by exists n. }
  destruct (for_each_load_lang_file lang_files (localisator_init lang root)
              "Localisation" w) as (dict' & Hrun & Hsections & Hframe).
  { apply init_log. }
  { done. }
  { intros q (n & -> & Hn & Hmatch)%Hin. unfold PyPath.stem. rewrite name_snoc.
    by apply Hfiles. }
  { intros q q' (n & -> & Hn & Hmatch)%Hin (n' & -> & Hn' & Hmatch')%Hin.
    unfold PyPath.stem. rewrite !name_snoc. intros E. f_equal. f_equal.
    by apply Hinj. }
  exists dict'. split; [|split].
  - unfold load_lang.
    rewrite (bind_getattr_found _ _ _ _ _ _ (init_language lang root)).
    cbn [is_str]. rewrite bool_decide_eq_false_2 by (by intros [= ?]).
    cbn [when_]. rewrite bind_ret.
    pose proof (init_lang_path lang root) as Hd_path.
    rewrite div_plain in Hd_path by done. fold p in Hd_path.
    assert (fall_back_to_english object_attr (mkLocState (localisator_init lang root) w)
            = (Ok tt, mkLocState (localisator_init lang root) w)) as Hstay.
    { unfold fall_back_to_english.
      rewrite (bind_getattr_found _ _ _ _ _ _ Hd_path). cbn [as_path]. rewrite bind_ret.
      erewrite bind_ok; [|reflexivity]. cbn [fs loc_world].
      unfold PyFS.is_dir. rewrite bool_decide_eq_true_2 by done. reflexivity. }
    erewrite bind_ok; [|exact Hstay].
    unfold load_lang_files.
    rewrite (bind_getattr_found _ _ _ _ _ _ Hd_path). cbn [as_path]. rewrite bind_ret.
    erewrite bind_ok; [exact Hrun|]. unfold lift_world. cbn [loc_world loc_self].
    by rewrite Hglob.
  - intros n data items Hn Hmatch Hjson.
    assert (In (p ++ [n]) lang_files) as Hlisted_n.
    { apply Hin. exists n. split; [done|]. split; [by eexists|done]. }
    pose proof (Hsections _ _ _ Hlisted_n Hn Hjson) as Hsec.
    unfold PyPath.stem in Hsec. rewrite name_snoc in Hsec.
    assert (keys_assignable items) as Hkeys.
    { destruct (Hfiles n) as ((data' & items' & Hn' & Hjson' & Hkeys) & _);
        [by eexists|done|].
      rewrite Hn in Hn'. injection Hn' as <-.
      rewrite Hjson in Hjson'. by injection Hjson' as <-. }
    split.
    + unfold localisator_getattribute, object_getattribute. by rewrite Hsec.
    + intros key value Hlast.
      unfold section_getattribute, object_getattribute.
      by rewrite loaded_section_lookup, Hlast.
  - intros key Hkey. apply Hframe.
    intros q (n & -> & Hn & Hmatch)%Hin. unfold PyPath.stem. rewrite name_snoc.
    by apply Hkey.
Qed.

Lemma for_each_app {S A} (l1 l2 : list A) (body : A → M S unit) s :
  for_each (l1 ++ l2) body s = (for_each l1 body ;; for_each l2 body) s.
Proof.
  revert s. induction l1 as [|x l1 IH]; intros s; [done|].
  cbn [app for_each]. unfold mbind, M_bind in *.
  destruct (body x s) as [[[]|e] s1]; [apply IH|done].
Qed.

(** X20. A file that cannot be loaded ends the loop of [load_lang] with its
    exception.  When the files before it can be read and parsed (with stems
    that differ and are not [log] or [__getattribute__], and with stems and
    keys that are not [__class__], [__dict__] or [__weakref__], so that every
    assignment is made) and the next entry is a directory, or a file that the
    JSON reader rejects, or a file that parses but whose stem is one of the
    three names that cannot be assigned, the loop raises the [OSError], the
    exception of the reader or the exception of the assignment; the sections
    of the files before it stay loaded, and nothing is loaded from that entry
    or from the entries after it. *)
Theorem load_lang_stops_at_bad_file (good : list Path) (bad : Path) (rest : list Path)
    (dict : gmap string Value) (logger : string) (e : Exn) (w : World) :
  dict !! "log" = Some (VLogger logger) →
  dict !! "__getattribute__" = None →
  (∀ q, In q good →
     (∃ data items, fs w !! q = Some (File data) ∧ json_load data = Ok items ∧
                    keys_assignable items) ∧
     setattr_refused (PyPath.stem q) = None ∧
     PyPath.stem q ≠ "log" ∧ PyPath.stem q ≠ "__getattribute__") →
  (∀ q q', In q good → In q' good → PyPath.stem q = PyPath.stem q' → q = q') →
  (fs w !! bad = Some Dir ∧ e = OSError "EISDIR") ∨
  (∃ data, fs w !! bad = Some (File data) ∧ json_load data = Raise e) ∨
  (∃ data items, fs w !! bad = Some (File data) ∧ json_load data = Ok items ∧
                 setattr_refused (PyPath.stem bad) = Some e) →
  ∃ dict',
    for_each (good ++ bad :: rest) (load_lang_file json_load object_attr)
      (mkLocState dict w)
    = (Raise e, mkLocState dict' w) ∧
    (∀ q data items,
       In q good → fs w !! q = Some (File data) → json_load data = Ok items →
       dict' !! PyPath.stem q
       = Some (VSection (loaded_section logger (PyPath.name q) items))) ∧
    (∀ key, (∀ q, In q good → PyPath.stem q ≠ key) → dict' !! key = dict !! key).
Proof.
  intros Hlog Hga Hgood Hinj Hbad.
  destruct (for_each_load_lang_file good dict logger w Hlog Hga Hgood Hinj)
    as (dict' & Hrun & Hsections & Hframe).
  exists dict'. split; [|by split].
  rewrite for_each_app. erewrite bind_ok; [|exact Hrun].
  cbn [for_each]. erewrite bind_raise; [done|].
  unfold load_lang_file.
  destruct Hbad as [[Hdir ->]|[(data & Hfile & Hjson)|(data & items & Hfile & Hjson & Hstem)]].
  - erewrite bind_raise; [done|].
    unfold lift_world, PyFS.read_text. cbn [loc_world loc_self]. by rewrite Hdir.
  - erewrite bind_ok; [|unfold lift_world, PyFS.read_text; cbn; by rewrite Hfile].
    erewrite bind_raise; [done|]. by rewrite Hjson.
  - erewrite bind_ok; [|unfold lift_world, PyFS.read_text; cbn; by rewrite Hfile].
    erewrite bind_ok; [|by rewrite Hjson].
    assert (dict' !! "log" = Some (VLogger logger)) as Hlog'.
    { rewrite Hframe; [done|]. intros q Hq. by apply Hgood. }
    rewrite (bind_getattr_found _ _ _ _ _ _ Hlog'), Hstem. done.
Qed.

(** X21. The system language.  When the language is ["System"] and the
    platform names a language (one ordinary name) whose directory exists,
    [load_lang] logs the detected language ([DEBUG]), sets [language] to it
    and [lang_path] to its directory, does not fall back, and loads the JSON
    files that [glob] finds in that directory. *)
Theorem load_lang_system_uses_resolved_language (language_id : Z) (tag : string)
    (root : Path) (w : World) :
  GetUserDefaultLangID = Ok language_id →
  windows_locale language_id = Some tag →
  PyPath.plain_name tag = true →
  PyFS.is_dir (fs w) (root ++ [tag]) = true →
  let dict_tag :=
    <["lang_path" := VPath (root ++ [tag])]>
      (<["language" := VStr tag]> (localisator_init "System" root)) in
  let w_tag :=
    add_log (mkLogRecord "Localisation" DEBUG ("Detected system language: " +:+ tag)) w in
  dict_tag !! "language" = Some (VStr tag) ∧
  dict_tag !! "lang_path" = Some (VPath (root ++ [tag])) ∧
  ∃ lang_files : list Path,
    glob scandir_order (root ++ [tag]) "*.json" w_tag = (Ok lang_files, w_tag) ∧
    load_lang scandir_order GetUserDefaultLangID windows_locale json_load object_attr
      (mkLocState (localisator_init "System" root) w)
    = for_each lang_files (load_lang_file json_load object_attr)
        (mkLocState dict_tag w_tag).
Proof.
  intros Hid Htag Hplain Hdir dict_tag w_tag.
  assert (dict_tag !! "language" = Some (VStr tag)) as Hd_lang.
  { unfold dict_tag. rewrite lookup_insert_ne by done. apply lookup_insert_eq. }
  assert (dict_tag !! "lang_path" = Some (VPath (root ++ [tag]))) as Hd_path
    by apply lookup_insert_eq.
  split; [done|]. split; [done|].
  destruct (glob_spec scandir_order scandir_order_perm (root ++ [tag]) "*.json" w_tag)
    as (lang_files & Hglob & _).
  exists lang_files. split; [exact Hglob|].
  unfold load_lang.
  rewrite (bind_getattr_found _ _ _ _ _ _ (init_language "System" root)).
  cbn [is_str]. rewrite bool_decide_eq_true_2 by done. cbn [when_].
  assert (detect_system_language GetUserDefaultLangID windows_locale object_attr
            (mkLocState (localisator_init "System" root) w)
          = (Ok tt, mkLocState dict_tag w_tag)) as Hdetect.
  { unfold detect_system_language, resolve_system_language. rewrite Hid, Htag.
    cbn [or_raise]. unfold mret at 1, M_ret.
    apply try_ok. unfold use_system_language.
    rewrite (bind_self_log _ _ _ _ _ _ _ (init_log "System" root)), bind_setattr.
    rewrite (bind_getattr_found _ _ (VPath (root ++ ["System"])));
      [|by rewrite lookup_insert_ne]. cbn [as_path]. rewrite bind_ret.
    by rewrite parent_snoc, div_plain. }
  erewrite bind_ok; [|exact Hdetect].
  assert (fall_back_to_english object_attr (mkLocState dict_tag w_tag)
          = (Ok tt, mkLocState dict_tag w_tag)) as Hstay.
  { unfold fall_back_to_english.
    rewrite (bind_getattr_found _ _ _ _ _ _ Hd_path). cbn [as_path]. rewrite bind_ret.
    erewrite bind_ok; [|reflexivity]. cbn [fs loc_world w_tag add_log].
    rewrite Hdir. reflexivity. }
  erewrite bind_ok; [|exact Hstay].
  unfold load_lang_files.
  rewrite (bind_getattr_found _ _ _ _ _ _ Hd_path). cbn [as_path]. rewrite bind_ret.
  erewrite bind_ok; [done|]. unfold lift_world. cbn [loc_world loc_self].
  by rewrite Hglob.
Qed.

End LocalisationMoreFacts.

(** ** The settings panel: what [get_settings] gives back *)

Section SettingsMoreFacts.

Variable LOG_LEVELS_values : list string.
Variable available_langs : list string.















End SettingsMoreFacts.

(** ** The further properties on the sample data *)

Ltac keys_by_computation :=
  unfold keys_assignable; repeat (constructor; [by_computation|]); constructor.

Lemma missing_tool_missing : programs_missing SampleMore.missing_tool.
Proof. intros cmd f. by exists "ENOENT", f. Defined.

(** A property of all entries of a file system, checked entry by entry *)
Lemma all_entries (f : gmap Path Node) (P : Path → Node → bool) :
  forallb (λ kv, P kv.1 kv.2) (map_to_list f) = true →
  ∀ k x, f !! k = Some x → P k x = true.
Proof.
  rewrite forallb_forall. intros H k x Hk. apply (H (k, x)).
  apply list_elem_of_In. by apply elem_of_map_to_list.
Defined.

(** The tools are not installed: converting [line02.XWM] and decoding
    [line01.fuz] raise, and the files stay. *)
Lemma conversion_raises_when_tools_missing_witness :
  (∃ errno w',
     convert_xwm SampleMore.missing_tool Sample.editor
       ["loose"; "sound"; "voice"; "npc"; "line02.XWM"] Sample.world
     = (Raise (OSError errno), w') ∧
     fs w' = fs Sample.world ∧ log w' = log Sample.world) ∧
  (∃ errno w',
     decode_fuz SampleMore.missing_tool Sample.editor
       ["loose"; "sound"; "voice"; "npc"; "line02.XWM"] Sample.world
     = (Raise (OSError errno), w') ∧
     fs w' = fs Sample.world ∧ log w' = log Sample.world).
Proof.
  apply (conversion_raises_when_tools_missing SampleMore.missing_tool Sample.editor
           ["loose"; "sound"; "voice"; "npc"; "line02.XWM"] Sample.world).
  - exact missing_tool_missing.
  - intros E. discriminate E.
Defined.

(** The archive of the mod [packed] is found. *)
Lemma find_bsa_file_result_witness :
  ∃ r, find_bsa_file Sample.listing ["packed"] Sample.world = (Ok r, Sample.world) ∧
       match r with
       | Some bsa_file =>
           is_Some (fs Sample.world !! (["packed"] ++ [bsa_file])) ∧
           PyStr.lower (PyPath.suffix_of_name bsa_file) = ".bsa"
       | None =>
           ∀ n, is_Some (fs Sample.world !! (["packed"] ++ [n])) →
                PyStr.lower (PyPath.suffix_of_name n) ≠ ".bsa"
       end.
Proof.
  destruct (find_bsa_file_result Sample.listing listing_perm ["packed"] Sample.world)
    as [Hdir _].
  apply Hdir. by_computation.
Defined.

(** There is no mod directory [nowhere]: [extract_bsa] raises. *)
Lemma extract_bsa_raises_without_mod_directory_witness :
  ∃ errno w',
    extract_bsa Sample.quiet_tool Sample.listing Sample.script_dir Sample.editor
      ["nowhere"] Sample.world
    = (Raise (OSError errno), w') ∧
    calls w' = calls Sample.world.
Proof.
  destruct (extract_bsa_raises_without_mod_directory Sample.quiet_tool Sample.listing
              Sample.script_dir Sample.editor ["nowhere"] Sample.world)
    as (errno & w' & Hrun & Hcalls & _).
  - left. assert (fs Sample.world !! ["nowhere"] = None) as E by by_computation.
    rewrite E. intros E'. discriminate E'.
  - exists errno, w'. split; [exact Hrun|exact Hcalls].
Defined.


(** The extractor starts on an empty workspace. *)
Lemma extract_bsa_archive_fresh_workspace_witness :
  ∃ bsa_file f code f' r w',
    Sample.quiet_tool
      [PyPath.str (bsarch_path Sample.editor); "unpack";
       PyPath.str (PyPath.div ["packed"] bsa_file);
       PyPath.str (extract_destination Sample.script_dir)] f = (Exited code, f') ∧
    extract_bsa Sample.quiet_tool Sample.listing Sample.script_dir Sample.editor
      ["packed"] Sample.world = (Ok r, w') ∧
    fs w' = f' ∧
    f !! extract_destination Sample.script_dir = Some Dir.
Proof.
  destruct (extract_bsa_archive_fresh_workspace Sample.quiet_tool Sample.listing
              Sample.script_dir Sample.editor listing_perm ["packed"] Sample.world)
    as (bsa_file & f & code & f' & r & w' & Hstart & Hrun & Hf & Hws & _).
  - exact quiet_tool_exits.
  - by_computation.
  - by_computation.
  - exists "Voices.BSA". split; [exists (File "archive")|]; by_computation.
  - by_computation.
  - by_computation.
  - intros [k Hk]. discriminate Hk.
  - exists bsa_file, f, code, f', r, w'.
    split; [exact Hstart|]. split; [exact Hrun|]. split; [exact Hf|exact Hws].
Defined.

(** The mod [loose]: the text file [notes.txt] is not in the workspace
    afterwards, and the mod tree is as it was. *)
Lemma extract_bsa_loose_files_mirror_witness :
  ∃ r w',
    extract_bsa Sample.failing_tool Sample.listing Sample.script_dir Sample.editor
      ["loose"] Sample.world = (Ok r, w') ∧
    fs w' !! ["loose"; "sound"; "voice"; "npc"; "notes.txt"] = Some (File "text") ∧
    fs w' !! ["app"; "translation_audio"; "extracted_files";
              "sound"; "voice"; "npc"; "notes.txt"] = None.
Proof.
  destruct (extract_bsa_loose_files_mirror Sample.failing_tool Sample.listing
              Sample.script_dir Sample.editor listing_perm ["loose"] Sample.world)
    as (r & w' & Hrun & Hkeep & Hmirror & Haudio).
  - by_computation.
  - by_computation.
  - intros n Hn Hbsa. apply children_spec in Hn.
    assert (PyFS.children (fs Sample.world) ["loose"] = ["sound"]) as Hlist
      by by_computation.
    rewrite Hlist in Hn. destruct Hn as [<-|[]].
    assert (PyStr.lower (PyPath.suffix_of_name "sound") = "") as Hsfx by by_computation.
    rewrite Hsfx in Hbsa. discriminate Hbsa.
  - by_computation.
  - by_computation.
  - intros [k Hk]. discriminate Hk.
  - intros [k Hk]. discriminate Hk.
  - exists r, w'. split; [exact Hrun|]. split.
    + rewrite Hkeep; [by_computation|]. intros [k Hk]. discriminate Hk.
    + destruct (fs w' !! ["app"; "translation_audio"; "extracted_files";
                          "sound"; "voice"; "npc"; "notes.txt"]) as [[|data]|] eqn:E.
      * apply (Hmirror ["sound"; "voice"; "npc"; "notes.txt"]) in E.
        assert (fs Sample.world !! (["loose"] ++ ["sound"; "voice"; "npc"; "notes.txt"])
                = Some (File "text")) as Hsrc by by_computation.
        rewrite Hsrc in E. discriminate E.
      * apply (Haudio ["sound"; "voice"; "npc"] "notes.txt") in E. discriminate E.
      * reflexivity.
Defined.

(** The mod [packed] holds an archive and a text file: there is nothing to
    convert. *)
Lemma convert_audio_files_nothing_to_convert_witness :
  convert_audio_files Sample.failing_tool Sample.listing Sample.editor 2 ["packed"]
    Sample.world
  = (Ok (Some false),
     add_log (mkLogRecord "AudioTranslationEditor" ERROR
                ("No .bsa or .fuz/.xwm files found in " +:+ PyPath.str ["packed"]))
       Sample.world).
Proof.
  apply (convert_audio_files_nothing_to_convert Sample.failing_tool Sample.listing
           Sample.editor listing_perm 2 ["packed"] Sample.world).
  - by_computation.
  - intros k Hpre [x Hx].
    assert (forallb (λ kv : Path * Node,
                       implb (bool_decide (["packed"] `prefix_of` kv.1))
                             (length kv.1 <? 3))
              (map_to_list (fs Sample.world)) = true) as Hall by by_computation.
    pose proof (all_entries _ (λ k _, implb (bool_decide (["packed"] `prefix_of` k))
                                        (length k <? 3)) Hall k x Hx) as H.
    cbn beta in H. rewrite bool_decide_eq_true_2 in H by exact Hpre.
    cbn [implb] in H. apply Nat.ltb_lt in H. exact H.
  - intros k data Hpre Hx.
    assert (forallb (λ kv : Path * Node,
                       implb (bool_decide (["packed"] `prefix_of` kv.1))
                             (negb (is_convertible kv.1)))
              (map_to_list (fs Sample.world)) = true) as Hall by by_computation.
    pose proof (all_entries _ (λ k _, implb (bool_decide (["packed"] `prefix_of` k))
                                        (negb (is_convertible k))) Hall k _ Hx) as H.
    cbn beta in H. rewrite bool_decide_eq_true_2 in H by exact Hpre.
    cbn [implb] in H. apply negb_true_iff in H. exact H.
Defined.

(** The directory [npc] of the mod [loose] holds voice files: they are
    processed, though every tool fails. *)
Lemma convert_audio_files_flat_directory_witness :
  ∃ w',
    convert_audio_files Sample.failing_tool Sample.listing Sample.editor 1
      ["loose"; "sound"; "voice"; "npc"] Sample.world
    = (Ok (Some true), w').
Proof.
  destruct (convert_audio_files_flat_directory Sample.failing_tool Sample.listing
              Sample.editor listing_perm 0 ["loose"; "sound"; "voice"; "npc"]
              Sample.world)
    as (found & w' & Hrun & Hfound & _).
  - exact failing_tool_exits.
  - by_computation.
  - intros n Hn. apply children_spec in Hn.
    assert (PyFS.children (fs Sample.world) ["loose"; "sound"; "voice"; "npc"]
            = ["line01.fuz"; "notes.txt"; "line01.lip"; "line02.XWM"]) as Hlist
      by by_computation.
    rewrite Hlist in Hn.
    destruct Hn as [<-|[<-|[<-|[<-|[]]]]];
      (split; [by_computation|]);
      match goal with
      | |- ?l ≠ _ =>
          let v := eval vm_compute in l in
          assert (l = v) as E by by_computation; rewrite E; intros E'; discriminate E'
      end.
  - exists w'.
    assert (found = true) as ->; [|exact Hrun].
    apply Hfound. exists "line01.fuz". split; [exists (File "fuz-1")|]; by_computation.
Defined.

(** The last of two items with the key [title] is the one that is found. *)
Lemma loaded_key_lookup_witness :
  section_getattribute Sample.object_attr
    (loaded_section "Localisation" "main.json"
       [("title", "Hello"); ("quit", "Quit"); ("title", "Welcome")])
    "title" Sample.loc_world
  = (Ok (VStr "Welcome"), Sample.loc_world).
Proof.
  apply (loaded_key_lookup Sample.object_attr "Localisation" "main.json"
           [("title", "Hello"); ("quit", "Quit"); ("title", "Welcome")]
           "title" "Welcome" Sample.loc_world).
  - keys_by_computation.
  - by_computation.
Defined.

(** [loc.editor.title] when no file [editor.json] was loaded *)
Lemma missing_section_then_key_witness :
  ∃ section w1 w2,
    localisator_getattribute Sample.object_attr (localisator_init "en_US" ["loc"])
      "editor" Sample.loc_world = (Ok (VSection section), w1) ∧
    section_getattribute Sample.object_attr section "title" w1 = (Ok (VStr "title"), w2) ∧
    log w2 =
      [mkLogRecord "Localisation" WARNING "Missing localisation section for 'editor'!";
       mkLogRecord "Localisation" WARNING "Missing localisation for 'title' in editor!"].
Proof.
  destruct (missing_section_then_key Sample.object_attr
              (localisator_init "en_US" ["loc"]) "Localisation" "editor" "title"
              Sample.loc_world)
    as (section & w1 & w2 & Hsec & _ & Hkey & _ & Hlog);
    [by_computation|by_computation|by_computation|].
  exists section, w1, w2. split; [exact Hsec|]. split; [exact Hkey|exact Hlog].
Defined.

(** English is there: its two files are loaded, [loc.main.quit] is found,
    and the language stays. *)
Lemma load_lang_loads_language_witness :
  ∃ dict',
    load_lang Sample.listing (Ok 1031%Z) Sample.windows_locale Sample.json_load
      Sample.object_attr
      (mkLocState (localisator_init "en_US" ["loc"]) Sample.loc_world)
    = (Ok tt, mkLocState dict' Sample.loc_world) ∧
    localisator_getattribute Sample.object_attr dict' "main" Sample.loc_world
    = (Ok (VSection (loaded_section "Localisation" "main.json"
                       [("title", "Hello"); ("quit", "Quit")])), Sample.loc_world) ∧
    section_getattribute Sample.object_attr
      (loaded_section "Localisation" "main.json" [("title", "Hello"); ("quit", "Quit")])
      "quit" Sample.loc_world
    = (Ok (VStr "Quit"), Sample.loc_world) ∧
    dict' !! "language" = Some (VStr "en_US").
Proof.
  assert (PyFS.children (fs Sample.loc_world) ["loc"; "en_US"]
          = ["settings.json"; "main.json"]) as Hlist by by_computation.
  assert (PyPath.stem_of_name "settings.json" = "settings") as Hs1 by by_computation.
  assert (PyPath.stem_of_name "main.json" = "main") as Hs2 by by_computation.
  destruct (load_lang_loads_language Sample.listing (Ok 1031%Z) Sample.windows_locale
              Sample.json_load Sample.object_attr listing_perm "en_US" ["loc"]
              Sample.loc_world)
    as (dict' & Hrun & Hsections & Hframe).
  - by_computation.
  - intros E. discriminate E.
  - by_computation.
  - intros n Hn _.
    change (is_Some (fs Sample.loc_world !! (["loc"; "en_US"] ++ [n]))) in Hn.
    apply children_spec in Hn. rewrite Hlist in Hn.
    destruct Hn as [<-|[<-|[]]].
    + rewrite Hs1. split; [|split; [by_computation|split; intros E; discriminate E]].
      exists "{settings}", [("language", "Language")].
      split; [by_computation|]. split; [by_computation|keys_by_computation].
    + rewrite Hs2. split; [|split; [by_computation|split; intros E; discriminate E]].
      exists "{main}", [("title", "Hello"); ("quit", "Quit")].
      split; [by_computation|]. split; [by_computation|keys_by_computation].
  - intros n n' Hn Hn' _ _.
    change (is_Some (fs Sample.loc_world !! (["loc"; "en_US"] ++ [n]))) in Hn.
    change (is_Some (fs Sample.loc_world !! (["loc"; "en_US"] ++ [n']))) in Hn'.
    apply children_spec in Hn, Hn'. rewrite Hlist in Hn, Hn'.
    destruct Hn as [<-|[<-|[]]]; destruct Hn' as [<-|[<-|[]]];
      rewrite ?Hs1, ?Hs2; intros E; (reflexivity || discriminate E).
  - exists dict'. split; [exact Hrun|].
    destruct (Hsections "main.json" "{main}" [("title", "Hello"); ("quit", "Quit")])
      as [Hmain Hkeys]; [by_computation|by_computation|by_computation|].
    rewrite Hs2 in Hmain. split; [exact Hmain|].
    split; [apply Hkeys; by_computation|].
    rewrite Hframe; [by_computation|].
    intros n Hn _.
    change (is_Some (fs Sample.loc_world !! (["loc"; "en_US"] ++ [n]))) in Hn.
    apply children_spec in Hn. rewrite Hlist in Hn.
    destruct Hn as [<-|[<-|[]]]; rewrite ?Hs1, ?Hs2; intros E; discriminate E.
Defined.

(** The system language is French, which is not there: English is loaded. *)
Lemma load_lang_system_falls_back_to_default_witness :
  ∃ lang_files s_en,
    load_lang Sample.listing (Ok 1036%Z) SampleMore.windows_locale_fr Sample.json_load
      Sample.object_attr
      (mkLocState (localisator_init "System" ["loc"]) Sample.loc_world)
    = for_each lang_files (load_lang_file Sample.json_load Sample.object_attr) s_en ∧
    loc_self s_en !! "language" = Some (VStr "en_US") ∧
    loc_self s_en !! "lang_path" = Some (VPath ["loc"; "en_US"]).
Proof.
  pose proof (load_lang_system_falls_back_to_default Sample.listing (Ok 1036%Z)
                SampleMore.windows_locale_fr Sample.json_load Sample.object_attr
                listing_perm 1036%Z "fr_FR" ["loc"] Sample.loc_world) as H.
  destruct H as (lang_files & _ & Hrun);
    [reflexivity|by_computation|by_computation|by_computation|].
  eexists lang_files, _. split; [exact Hrun|]. split; by_computation.
Defined.

(** A file with the key [log]: the lookup of a key that is missing raises. *)
Lemma loaded_log_key_breaks_missing_lookup_witness :
  section_getattribute Sample.object_attr
    (loaded_section "Localisation" "main.json" [("log", "Protokoll"); ("quit", "Quit")])
    "title" Sample.loc_world
  = (Raise (AttributeError "warning"), Sample.loc_world).
Proof.
  apply (loaded_log_key_breaks_missing_lookup Sample.object_attr "Localisation"
           "main.json" [("log", "Protokoll"); ("quit", "Quit")] "Protokoll" "title"
           Sample.loc_world).
  - keys_by_computation.
  - by_computation.
  - by_computation.
  - intros E. discriminate E.
  - by_computation.
Defined.



(** [broken.json] does not parse: the loop raises after [main.json], and
    [settings.json] is not loaded. *)
Lemma load_lang_stops_at_bad_file_witness :
  ∃ dict',
    for_each [["loc"; "en_US"; "main.json"]; ["loc"; "en_US"; "broken.json"];
              ["loc"; "en_US"; "settings.json"]]
      (load_lang_file Sample.json_load Sample.object_attr)
      (mkLocState (localisator_init "en_US" ["loc"]) SampleMore.broken_world)
    = (Raise JSONDecodeError, mkLocState dict' SampleMore.broken_world) ∧
    dict' !! "main"
    = Some (VSection (loaded_section "Localisation" "main.json"
                        [("title", "Hello"); ("quit", "Quit")])) ∧
    dict' !! "settings" = None.
Proof.
  assert (PyPath.stem ["loc"; "en_US"; "main.json"] = "main") as Hstem by by_computation.
  destruct (load_lang_stops_at_bad_file Sample.json_load Sample.object_attr
              [["loc"; "en_US"; "main.json"]] ["loc"; "en_US"; "broken.json"]
              [["loc"; "en_US"; "settings.json"]]
              (localisator_init "en_US" ["loc"]) "Localisation" JSONDecodeError
              SampleMore.broken_world)
    as (dict' & Hrun & Hsections & Hframe).
  - by_computation.
  - by_computation.
  - intros q [<-|[]]. rewrite Hstem.
    split; [|split; [by_computation|split; intros E; discriminate E]].
    exists "{main}", [("title", "Hello"); ("quit", "Quit")].
    split; [by_computation|]. split; [by_computation|keys_by_computation].
  - intros q q' [<-|[]] [<-|[]] _. reflexivity.
  - right. left. exists "{oops". split; by_computation.
  - exists dict'. split; [exact Hrun|]. split.
    + rewrite <- Hstem.
      apply (Hsections ["loc"; "en_US"; "main.json"] "{main}"
               [("title", "Hello"); ("quit", "Quit")]);
        [by left|by_computation|by_computation].
    + rewrite Hframe; [by_computation|].
      intros q [<-|[]]. rewrite Hstem. intros E. discriminate E.
Defined.

(** The system language is German, which is there: German is loaded. *)
Lemma load_lang_system_uses_resolved_language_witness :
  ∃ lang_files s',
    load_lang Sample.listing (Ok 1031%Z) Sample.windows_locale Sample.json_load
      Sample.object_attr
      (mkLocState (localisator_init "System" ["loc"]) Sample.loc_world)
    = for_each lang_files (load_lang_file Sample.json_load Sample.object_attr) s' ∧
    loc_self s' !! "language" = Some (VStr "de_DE") ∧
    loc_self s' !! "lang_path" = Some (VPath ["loc"; "de_DE"]).
Proof.
  pose proof (load_lang_system_uses_resolved_language Sample.listing (Ok 1031%Z)
                Sample.windows_locale Sample.json_load Sample.object_attr
                listing_perm 1031%Z "de_DE" ["loc"] Sample.loc_world) as H.
  destruct H as (Hlang & Hpath & lang_files & _ & Hrun);
    [reflexivity|by_computation|by_computation|by_computation|].
  eexists lang_files, _. split; [exact Hrun|]. split; [exact Hlang|exact Hpath].
Defined.
